(** * Restaurant POS backend: order placement, kitchen tickets, printing

    A shallow embedding of the order pipeline of the server:

    - [routes/orders] (second half of [server/routes/printers.js]):
      "Create new order" and "Update order status", and "Create new
      order" once more on the numbers of IEEE 754, which is how the
      handler computes its amounts;
    - [routes/kots] (first half of [server/routes/kots.js]): "Update KOT
      status" and "Update KOT item status";
    - [services/printerService.js]: [initializePrinter], [testPrinter],
      [printKOT];
    - the schema [migrations/001_create_tables.sql].

    Around the pipeline, the routes that set up what it reads:

    - [services/printerService.js]: [printReceipt], and the four routes
      that print on request;
    - [routes/printers] (first half of [server/routes/printers.js]):
      "Add new printer", "Update printer", "Delete printer", "Test
      printer" and "Check printer status";
    - [routes/menu] (second half of [server/routes/kots.js]): "Add new
      subcategory", "Add new menu item", "Update menu item" and "Delete
      menu item";
    - [migrations/runMigrations.js].

    The handlers are sequences of SQL statements against one MySQL
    database.  A table is the list of its rows, a statement is a function
    on the database, and a handler is a computation in a small state and
    exception monad whose state holds the database, the snapshot of the
    open transaction, a fault oracle for the database statements and the
    state of the network links to the printers. *)

From Stdlib Require Import ZArith QArith Qabs Qround Qpower List Ascii String.
From Stdlib Require Import Bool Lia Lqa.
From Stdlib Require Import DecimalString.
Import ListNotations.
Open Scope string_scope.
Open Scope Z_scope.

Set Implicit Arguments.

(** ** Money

    JavaScript computes amounts as numbers.  In [Orders] they are
    embedded as exact rationals; [Doubles] has the handler on the
    numbers of IEEE 754, for what depends on their rounding.  A
    [DECIMAL(10,2)] column stores an amount as a number of cents: MySQL
    rounds the inserted value to two decimals, half away from zero, and
    (in strict mode) refuses a value that does not fit ten digits. *)

Module Money.

(** Nearest integer, ties away from zero. *)
Definition round_half_away (x : Q) : Z :=
  let n := Qnum x in
  let d := Zpos (Qden x) in
  Z.sgn n * ((2 * Z.abs n + d) / (2 * d)).

(** Towards zero: what truncation would give. *)
Definition truncate (x : Q) : Z :=
  Z.quot (Qnum x) (Zpos (Qden x)).

Definition to_cents (x : Q) : Z := round_half_away (x * 100).

Definition of_cents (c : Z) : Q := inject_Z c / 100.

Definition max_decimal_10_2 : Z := 9999999999.

(** The value an amount takes in a [DECIMAL(10,2)] column; [None] when the
    statement is refused.  A JavaScript [NaN] is [None] on the way in. *)
Definition decimal_10_2 (x : option Q) : option Z :=
  match x with
  | None => None
  | Some q =>
      let c := to_cents q in
      if Z.abs c <=? max_decimal_10_2 then Some c else None
  end.

End Money.

(** ** Schema (001_create_tables.sql)

    Only the columns the pipeline reads or writes are kept; [created_at]
    and [updated_at] are maintained by MySQL itself and are left out.
    Timestamps are numbers, [NULL] is [None]. *)

Record menu_item := {
  mi_id : Z;
  mi_subcategory_id : Z;
  mi_name : string;
  mi_price : Z;                      (* DECIMAL(10,2), in cents *)
  mi_is_available : bool
}.

Record subcategory := { sc_id : Z; sc_category_id : Z; sc_name : string }.

Record category := { c_id : Z; c_name : string }.

Record system_setting := { setting_key : string; setting_value : string }.

Record order := {
  o_id : Z;
  o_order_number : string;
  o_table_id : option Z;
  o_session_id : option Z;
  o_user_id : Z;
  o_customer_name : option string;
  o_order_type : string;
  o_subtotal : Z;                    (* cents *)
  o_tax_amount : Z;                  (* cents *)
  o_discount_amount : Z;             (* cents *)
  o_total_amount : Z;                (* cents *)
  o_status : string;
  o_payment_status : string;
  o_special_instructions : option string;
  o_created_by : Z
}.

Record order_item := {
  oi_id : Z;
  oi_order_id : Z;
  oi_menu_item_id : Z;
  oi_quantity : Z;
  oi_unit_price : Z;                 (* cents *)
  oi_total_price : Z;                (* cents *)
  oi_special_instructions : option string;
  oi_status : string
}.

Record kot := {
  k_id : Z;
  k_kot_number : string;
  k_order_id : Z;
  k_printer_id : option Z;
  k_category_type : string;
  k_status : string;
  k_printed_at : option Z;
  k_completed_at : option Z
}.

Record kot_item := {
  ki_id : Z;
  ki_kot_id : Z;
  ki_order_item_id : Z;
  ki_menu_item_name : string;
  ki_quantity : Z;
  ki_special_instructions : option string;
  ki_status : string
}.

Record printer := {
  p_id : Z;
  p_name : string;
  p_type : string;
  p_ip_address : string;
  p_port : Z;
  p_is_active : bool;
  p_is_online : bool;
  p_last_test_print : option Z
}.

Record printer_category_mapping := {
  pcm_printer_id : Z;
  pcm_category_id : Z;
  pcm_subcategory_id : option Z
}.

(** The rows of every table. *)
Record tables := {
  menu_items : list menu_item;
  subcategories : list subcategory;
  categories : list category;
  system_settings : list system_setting;
  orders : list order;
  order_items : list order_item;
  kots : list kot;
  kot_items : list kot_item;
  printers : list printer;
  printer_category_mappings : list printer_category_mapping
}.

(** The AUTO_INCREMENT counters of the four tables the pipeline inserts
    into.  InnoDB does not give a value back when a transaction is rolled
    back, so the counters are kept apart from the rows. *)
Record counters := {
  next_order_id : Z;
  next_order_item_id : Z;
  next_kot_id : Z;
  next_kot_item_id : Z
}.

Record database := { rows : tables; auto_increment : counters }.

Definition with_next_order_id (n : Z) (c : counters) : counters :=
  {| next_order_id := n; next_order_item_id := next_order_item_id c;
     next_kot_id := next_kot_id c; next_kot_item_id := next_kot_item_id c |}.

Definition with_next_order_item_id (n : Z) (c : counters) : counters :=
  {| next_order_id := next_order_id c; next_order_item_id := n;
     next_kot_id := next_kot_id c; next_kot_item_id := next_kot_item_id c |}.

Definition with_next_kot_id (n : Z) (c : counters) : counters :=
  {| next_order_id := next_order_id c;
     next_order_item_id := next_order_item_id c;
     next_kot_id := n; next_kot_item_id := next_kot_item_id c |}.

Definition with_next_kot_item_id (n : Z) (c : counters) : counters :=
  {| next_order_id := next_order_id c;
     next_order_item_id := next_order_item_id c;
     next_kot_id := next_kot_id c; next_kot_item_id := n |}.

(** Field updates. *)
Definition with_orders (l : list order) (t : tables) : tables :=
  {| menu_items := menu_items t; subcategories := subcategories t;
     categories := categories t; system_settings := system_settings t;
     orders := l; order_items := order_items t; kots := kots t;
     kot_items := kot_items t; printers := printers t;
     printer_category_mappings := printer_category_mappings t |}.

Definition with_order_items (l : list order_item) (t : tables) : tables :=
  {| menu_items := menu_items t; subcategories := subcategories t;
     categories := categories t; system_settings := system_settings t;
     orders := orders t; order_items := l; kots := kots t;
     kot_items := kot_items t; printers := printers t;
     printer_category_mappings := printer_category_mappings t |}.

Definition with_kots (l : list kot) (t : tables) : tables :=
  {| menu_items := menu_items t; subcategories := subcategories t;
     categories := categories t; system_settings := system_settings t;
     orders := orders t; order_items := order_items t; kots := l;
     kot_items := kot_items t; printers := printers t;
     printer_category_mappings := printer_category_mappings t |}.

Definition with_kot_items (l : list kot_item) (t : tables) : tables :=
  {| menu_items := menu_items t; subcategories := subcategories t;
     categories := categories t; system_settings := system_settings t;
     orders := orders t; order_items := order_items t; kots := kots t;
     kot_items := l; printers := printers t;
     printer_category_mappings := printer_category_mappings t |}.

Definition with_printers (l : list printer) (t : tables) : tables :=
  {| menu_items := menu_items t; subcategories := subcategories t;
     categories := categories t; system_settings := system_settings t;
     orders := orders t; order_items := order_items t; kots := kots t;
     kot_items := kot_items t; printers := l;
     printer_category_mappings := printer_category_mappings t |}.

Definition set_status_order (s : string) (o : order) : order :=
  {| o_id := o_id o; o_order_number := o_order_number o;
     o_table_id := o_table_id o; o_session_id := o_session_id o;
     o_user_id := o_user_id o; o_customer_name := o_customer_name o;
     o_order_type := o_order_type o; o_subtotal := o_subtotal o;
     o_tax_amount := o_tax_amount o;
     o_discount_amount := o_discount_amount o;
     o_total_amount := o_total_amount o; o_status := s;
     o_payment_status := o_payment_status o;
     o_special_instructions := o_special_instructions o;
     o_created_by := o_created_by o |}.

Definition set_status_kot (s : string) (k : kot) : kot :=
  {| k_id := k_id k; k_kot_number := k_kot_number k;
     k_order_id := k_order_id k; k_printer_id := k_printer_id k;
     k_category_type := k_category_type k; k_status := s;
     k_printed_at := k_printed_at k; k_completed_at := k_completed_at k |}.

Definition set_completed_at (t : option Z) (k : kot) : kot :=
  {| k_id := k_id k; k_kot_number := k_kot_number k;
     k_order_id := k_order_id k; k_printer_id := k_printer_id k;
     k_category_type := k_category_type k; k_status := k_status k;
     k_printed_at := k_printed_at k; k_completed_at := t |}.

Definition set_printed_at (t : option Z) (k : kot) : kot :=
  {| k_id := k_id k; k_kot_number := k_kot_number k;
     k_order_id := k_order_id k; k_printer_id := k_printer_id k;
     k_category_type := k_category_type k; k_status := k_status k;
     k_printed_at := t; k_completed_at := k_completed_at k |}.

Definition set_status_kot_item (s : string) (i : kot_item) : kot_item :=
  {| ki_id := ki_id i; ki_kot_id := ki_kot_id i;
     ki_order_item_id := ki_order_item_id i;
     ki_menu_item_name := ki_menu_item_name i; ki_quantity := ki_quantity i;
     ki_special_instructions := ki_special_instructions i; ki_status := s |}.

Definition set_is_online (b : bool) (p : printer) : printer :=
  {| p_id := p_id p; p_name := p_name p; p_type := p_type p;
     p_ip_address := p_ip_address p; p_port := p_port p;
     p_is_active := p_is_active p; p_is_online := b;
     p_last_test_print := p_last_test_print p |}.

Definition set_last_test_print (t : option Z) (p : printer) : printer :=
  {| p_id := p_id p; p_name := p_name p; p_type := p_type p;
     p_ip_address := p_ip_address p; p_port := p_port p;
     p_is_active := p_is_active p; p_is_online := p_is_online p;
     p_last_test_print := t |}.

(** [UPDATE t SET ... WHERE cond]: the rows that match are rewritten in
    place, the others are kept. *)
Definition update_where {A} (cond : A -> bool) (f : A -> A) (l : list A)
  : list A :=
  map (fun r => if cond r then f r else r) l.

(** ** The world and the handler monad *)

(** What a handler can catch: a rejected promise of the database driver,
    or a JavaScript error with its message. *)
Inductive error :=
  | DbError
  | JsError (message : string).

(** The state of the TCP link to a printer, as the thermal-printer library
    reports it: [isPrinterConnected()] resolves to [true] on [LinkUp] and
    [LinkStalls], to [false] on [LinkDown], and rejects on [LinkBroken];
    [execute()] resolves on [LinkUp] and rejects (time-out) on
    [LinkStalls]. *)
Inductive link := LinkUp | LinkDown | LinkBroken | LinkStalls.

(** [faults] is the fault oracle: its head says whether the next database
    statement fails ([true]), for a reason outside the model (lost
    connection, dead-lock, a constraint that is not modelled); an empty
    list injects no fault.  [transaction] holds the rows as they were at
    [beginTransaction] while the transaction of the request is open. *)
Record world := {
  db : database;
  transaction : option tables;
  faults : list bool;
  wire : string -> Z -> link
}.

Definition next_fault (w : world) : bool :=
  match faults w with
  | [] => false
  | b :: _ => b
  end.

Definition pop_fault (w : world) : world :=
  {| db := db w; transaction := transaction w; faults := tl (faults w);
     wire := wire w |}.

Definition set_db (d : database) (w : world) : world :=
  {| db := d; transaction := transaction w; faults := faults w;
     wire := wire w |}.

Definition set_transaction (t : option tables) (w : world) : world :=
  {| db := db w; transaction := t; faults := faults w; wire := wire w |}.

Inductive result (A : Type) :=
  | Ok (a : A)
  | Throw (e : error).

Arguments Ok {A} a.
Arguments Throw {A} e.

Definition M (A : Type) : Type := world -> result A * world.

Definition ret {A} (a : A) : M A := fun w => (Ok a, w).

Definition bind {A B} (m : M A) (k : A -> M B) : M B :=
  fun w =>
    match m w with
    | (Ok a, w') => k a w'
    | (Throw e, w') => (Throw e, w')
    end.

Definition throw {A} (e : error) : M A := fun w => (Throw e, w).

(** [try { m } catch (error) { h error }] *)
Definition try_catch {A} (m : M A) (h : error -> M A) : M A :=
  fun w =>
    match m w with
    | (Ok a, w') => (Ok a, w')
    | (Throw e, w') => h e w'
    end.

Declare Scope handler_scope.
Delimit Scope handler_scope with handler.
Notation "x <- c1 ;; c2" := (bind c1 (fun x => c2))
  (at level 61, c1 at next level, right associativity) : handler_scope.
Notation "c1 ;; c2" := (bind c1 (fun _ => c2))
  (at level 61, right associativity) : handler_scope.
Open Scope handler_scope.

(** [await connection.execute(sql, params)]: the statement fails when the
    oracle says so or when the database refuses it; otherwise it yields its
    result and the new database. *)
Definition execute {A} (stmt : database -> option (A * database)) : M A :=
  fun w =>
    let w1 := pop_fault w in
    if next_fault w then (Throw DbError, w1)
    else
      match stmt (db w) with
      | Some (a, d) => (Ok a, set_db d w1)
      | None => (Throw DbError, w1)
      end.

(** A [SELECT]. *)
Definition query {A} (q : tables -> A) : M A :=
  execute (fun d => Some (q (rows d), d)).

(** An [UPDATE]. *)
Definition update (f : tables -> tables) : M unit :=
  execute (fun d =>
    Some (tt, {| rows := f (rows d); auto_increment := auto_increment d |})).

(** [await connection.beginTransaction()] *)
Definition beginTransaction : M unit :=
  fun w =>
    let w1 := pop_fault w in
    if next_fault w then (Throw DbError, w1)
    else (Ok tt, set_transaction (Some (rows (db w))) w1).

(** [await connection.commit()] *)
Definition commit : M unit :=
  fun w =>
    let w1 := pop_fault w in
    if next_fault w then (Throw DbError, w1)
    else (Ok tt, set_transaction None w1).

(** [await connection.rollback()]: the rows go back to what they were when
    the transaction began, the AUTO_INCREMENT counters stay; without an
    open transaction nothing happens.  It is taken not to fail: a
    connection that cannot deliver ROLLBACK is closed, and MySQL rolls the
    open transaction of a closed connection back. *)
Definition rollback : M unit :=
  fun w =>
    match transaction w with
    | Some t =>
        (Ok tt,
         set_transaction None
           (set_db {| rows := t; auto_increment := auto_increment (db w) |} w))
    | None => (Ok tt, w)
    end.

(** [await printer.isPrinterConnected()] on the link to [ip:port]. *)
Definition isPrinterConnected (ip : string) (port : Z) : M bool :=
  fun w =>
    match wire w ip port with
    | LinkUp | LinkStalls => (Ok true, w)
    | LinkDown => (Ok false, w)
    | LinkBroken => (Throw (JsError "connect ECONNREFUSED"), w)
    end.

(** [await printer.execute()]: sends the buffered document. *)
Definition printer_execute (ip : string) (port : Z) : M unit :=
  fun w =>
    match wire w ip port with
    | LinkUp => (Ok tt, w)
    | _ => (Throw (JsError "Socket timeout"), w)
    end.

(** The body of a response, with its status code. *)
Inductive response :=
  | Created (id : Z) (order_number kot_number : string)
      (total_amount : option Q)           (* 201; [None] is [NaN] *)
  | Success (message : string)            (* 200 *)
  | ValidationErrors                      (* 400, { errors: [...] } *)
  | BadRequest (message : string)         (* 400, { error: message } *)
  | InternalServerError.                  (* 500 *)

(** [`${z}`]: the decimal digits of an integer. *)
Definition decimal (z : Z) : string := NilZero.string_of_int (Z.to_int z).

(** [values.includes(s)], also [isIn(values)] of express-validator. *)
Definition includes (values : list string) (s : string) : bool :=
  existsb (String.eqb s) values.

(** The routes around the pipeline (printers, menu, printing on request)
    answer with a status code and one of these bodies. *)

(** The [printer] object of "Check printer status": the columns the route
    selects, with [status] and, when the check has thrown, [error]. *)
Record printer_status := {
  ps_id : Z;
  ps_name : string;
  ps_ip_address : string;
  ps_port : Z;
  ps_is_online : bool;
  ps_last_test_print : option Z;
  ps_status : string;
  ps_error : option string
}.

Inductive json :=
  | Message (message : string)        (* { success: true, message } *)
  | Added (message : string) (insertId : Z)
                                      (* { success: true, message, .._id } *)
  | KotPrinted (message : string) (printerId : Z)
                                      (* the result object of [printKOT] *)
  | PrinterStatus (printer : printer_status)
                                      (* { success: true, printer } *)
  | ErrorMessage (message : string)   (* { error: message } *)
  | Errors.                           (* { errors: [...] } *)

Definition reply : Type := Z * json.

Definition with_menu_items (l : list menu_item) (t : tables) : tables :=
  {| menu_items := l; subcategories := subcategories t;
     categories := categories t; system_settings := system_settings t;
     orders := orders t; order_items := order_items t; kots := kots t;
     kot_items := kot_items t; printers := printers t;
     printer_category_mappings := printer_category_mappings t |}.

Definition with_subcategories (l : list subcategory) (t : tables) : tables :=
  {| menu_items := menu_items t; subcategories := l;
     categories := categories t; system_settings := system_settings t;
     orders := orders t; order_items := order_items t; kots := kots t;
     kot_items := kot_items t; printers := printers t;
     printer_category_mappings := printer_category_mappings t |}.

Definition with_printer_category_mappings
    (l : list printer_category_mapping) (t : tables) : tables :=
  {| menu_items := menu_items t; subcategories := subcategories t;
     categories := categories t; system_settings := system_settings t;
     orders := orders t; order_items := order_items t; kots := kots t;
     kot_items := kot_items t; printers := printers t;
     printer_category_mappings := l |}.

(** [DELETE FROM t WHERE cond]: the rows that are kept. *)
Definition delete_where {A} (cond : A -> bool) (l : list A) : list A :=
  filter (fun r => negb (cond r)) l.

(** [result.affectedRows] of an [UPDATE] or a [DELETE]: the rows that the
    [WHERE] clause matches (the driver connects with [FOUND_ROWS], so a
    row that is matched and keeps its values counts). *)
Definition affectedRows {A} (cond : A -> bool) (l : list A) : Z :=
  Z.of_nat (List.length (filter cond l)).

(** The validators of express-validator, on values that have their JSON
    type.  [isLength({ min: 1 })] holds of every string but the empty
    one. *)
Definition isLength_min_1 (s : string) : bool := negb (s =? "")%string.

(** [isInt({ min, max })] *)
Definition isInt_between (min max n : Z) : bool := (min <=? n) && (n <=? max).

(** [body(field).optional()]: a field that is [undefined] is not
    validated. *)
Definition optional {A} (check : A -> bool) (v : option A) : bool :=
  match v with
  | Some x => check x
  | None => true
  end.

(** [v !== undefined] *)
Definition defined {A} (v : option A) : bool :=
  match v with
  | Some _ => true
  | None => false
  end.

(** ** services/printerService.js *)

Module PrinterService.

(** [SELECT * FROM printers WHERE id = ? AND is_active = TRUE] *)
Definition select_active_printer (printerId : Z) (t : tables)
  : list printer :=
  filter (fun p => (p_id p =? printerId) && p_is_active p) (printers t).

(** [SELECT k.*, o.order_number, ... FROM kots k JOIN orders o
    ON k.order_id = o.id LEFT JOIN restaurant_tables rt ... WHERE k.id = ?] *)
Definition select_kot_details (kotId : Z) (t : tables)
  : list (kot * order) :=
  flat_map (fun k =>
    if k_id k =? kotId
    then flat_map (fun o =>
           if k_order_id k =? o_id o then [(k, o)] else []) (orders t)
    else []) (kots t).

(** [SELECT ki.*, mi.name as item_name, mi.preparation_time
    FROM kot_items ki JOIN order_items oi ON ki.order_item_id = oi.id
    JOIN menu_items mi ON oi.menu_item_id = mi.id WHERE ki.kot_id = ?]
    (the rows only feed the printed document). *)
Definition select_kot_items (kotId : Z) (t : tables)
  : list (kot_item * menu_item) :=
  flat_map (fun ki =>
    if ki_kot_id ki =? kotId
    then flat_map (fun oi =>
           if ki_order_item_id ki =? oi_id oi
           then flat_map (fun mi =>
                  if oi_menu_item_id oi =? mi_id mi then [(ki, mi)] else [])
                  (menu_items t)
           else []) (order_items t)
    else []) (kot_items t).

Definition same_subcategory (m : printer_category_mapping) (sc : subcategory)
  : bool :=
  match pcm_subcategory_id m with
  | Some s => s =? sc_id sc
  | None => false
  end.

(** [SELECT p.* FROM printers p
    JOIN printer_category_mappings pcm ON p.id = pcm.printer_id
    JOIN subcategories sc ON pcm.subcategory_id = sc.id
    JOIN menu_items mi ON sc.id = mi.subcategory_id
    JOIN order_items oi ON mi.id = oi.menu_item_id
    JOIN kot_items ki ON oi.id = ki.order_item_id
    WHERE ki.kot_id = ? AND p.is_active = TRUE AND p.is_online = TRUE
    LIMIT 1]; the rows come in the order of the [printers] table. *)
Definition select_mapped_printers (kotId : Z) (t : tables) : list printer :=
  firstn 1
    (flat_map (fun p =>
       if p_is_active p && p_is_online p
       then
         flat_map (fun pcm =>
           if p_id p =? pcm_printer_id pcm
           then
             flat_map (fun sc =>
               if same_subcategory pcm sc
               then
                 flat_map (fun mi =>
                   if sc_id sc =? mi_subcategory_id mi
                   then
                     flat_map (fun oi =>
                       if mi_id mi =? oi_menu_item_id oi
                       then
                         flat_map (fun ki =>
                           if (oi_id oi =? ki_order_item_id ki)
                              && (ki_kot_id ki =? kotId)
                           then [p] else []) (kot_items t)
                       else []) (order_items t)
                   else []) (menu_items t)
               else []) (subcategories t)
           else []) (printer_category_mappings t)
       else []) (printers t)).

(** [SELECT id FROM printers WHERE type = "Kitchen" AND is_active = TRUE
    AND is_online = TRUE LIMIT 1] *)
Definition select_default_printers (t : tables) : list printer :=
  firstn 1
    (filter (fun p =>
       (p_type p =? "Kitchen")%string && p_is_active p && p_is_online p)
       (printers t)).

(** [UPDATE kots SET status = "Printed", printed_at = NOW() WHERE id = ?] *)
Definition mark_printed (now kotId : Z) (t : tables) : tables :=
  with_kots
    (update_where (fun k => k_id k =? kotId)
       (fun k => set_printed_at (Some now) (set_status_kot "Printed" k))
       (kots t)) t.

(** [UPDATE printers SET last_test_print = NOW(), is_online = TRUE
    WHERE id = ?] *)
Definition mark_tested (now printerId : Z) (t : tables) : tables :=
  with_printers
    (update_where (fun p => p_id p =? printerId)
       (fun p => set_is_online true (set_last_test_print (Some now) p))
       (printers t)) t.

(** [UPDATE printers SET is_online = FALSE WHERE id = ?] *)
Definition mark_offline (printerId : Z) (t : tables) : tables :=
  with_printers
    (update_where (fun p => p_id p =? printerId) (set_is_online false)
       (printers t)) t.

(** [initializePrinter(printerId)]: reads the configuration of the printer
    and builds the driver object for [tcp://ip:port]; the row stands for
    that object.  (The service also stores it in [this.printers], a map
    that is never read.)  Its [catch] logs and throws the error again. *)
Definition initializePrinter (printerId : Z) : M printer :=
  printers <- query (select_active_printer printerId) ;;
  match printers with
  | [] => throw (JsError "Printer not found or inactive")
  | printerConfig :: _ => ret printerConfig
  end.

Definition error_message (e : error) : string :=
  match e with
  | DbError => "database error"
  | JsError m => m
  end.

(** [testPrinter(printerId)].  The calls that lay out the test page fill
    the buffer of the driver object and nothing else. *)
Definition testPrinter (now printerId : Z) : M string :=
  try_catch
    (printer <- initializePrinter printerId ;;
     isConnected <- isPrinterConnected (p_ip_address printer)
                      (p_port printer) ;;
     if (isConnected : bool) then
       printer_execute (p_ip_address printer) (p_port printer) ;;
       update (mark_tested now printerId) ;;
       ret "Test print successful"
     else throw (JsError "Printer not connected"))
    (fun error =>
       update (mark_offline printerId) ;;
       throw (JsError ("Test print failed: " ++ error_message error))).

(** [printKOT(kotId)]; it returns the [printerId] of its result object.
    The calls that lay out the ticket ([printer.println] and the like)
    fill the buffer of the driver object and nothing else; the [catch]
    of the method logs the error and throws it again. *)
Definition printKOT (now kotId : Z) : M Z :=
  kotData <- query (select_kot_details kotId) ;;
  match kotData with
  | [] => throw (JsError "KOT not found")
  | _ :: _ =>
      kotItems <- query (select_kot_items kotId) ;;
      printers <- query (select_mapped_printers kotId) ;;
      printerId <-
        match printers with
        | p :: _ => ret (p_id p)
        | [] =>
            defaultPrinters <- query select_default_printers ;;
            match defaultPrinters with
            | [] => throw (JsError "No active kitchen printer found")
            | p :: _ => ret (p_id p)
            end
        end ;;
      printer <- initializePrinter printerId ;;
      isConnected <- isPrinterConnected (p_ip_address printer)
                       (p_port printer) ;;
      if (isConnected : bool) then
        printer_execute (p_ip_address printer) (p_port printer) ;;
        update (mark_printed now kotId) ;;
        ret printerId
      else throw (JsError "Printer not connected")
  end.

(** [SELECT o.*, rt.table_number, ..., s.hourly_rate FROM orders o
    LEFT JOIN restaurant_tables rt ON o.table_id = rt.id
    LEFT JOIN sessions s ON o.session_id = s.id WHERE o.id = ?]: both
    joins are on a primary key, so there is one row for each order row. *)
Definition select_order (orderId : Z) (t : tables) : list order :=
  filter (fun o => o_id o =? orderId) (orders t).

(** [SELECT oi.*, mi.name as item_name FROM order_items oi
    JOIN menu_items mi ON oi.menu_item_id = mi.id WHERE oi.order_id = ?]
    (the rows only feed the printed document). *)
Definition select_receipt_items (orderId : Z) (t : tables)
  : list (order_item * menu_item) :=
  flat_map (fun oi =>
    if oi_order_id oi =? orderId
    then flat_map (fun mi =>
           if oi_menu_item_id oi =? mi_id mi then [(oi, mi)] else [])
           (menu_items t)
    else []) (order_items t).

(** [SELECT * FROM printers WHERE type = "Receipt" AND is_active = TRUE
    AND is_online = TRUE LIMIT 1] *)
Definition select_receipt_printers (t : tables) : list printer :=
  firstn 1
    (filter (fun p =>
       (p_type p =? "Receipt")%string && p_is_active p && p_is_online p)
       (printers t)).

(** [SELECT setting_key, setting_value FROM system_settings
    WHERE setting_key IN ("business_name", "business_address",
    "business_phone", "receipt_footer")] *)
Definition select_business_settings (t : tables) : list system_setting :=
  filter (fun s =>
    includes ["business_name"; "business_address"; "business_phone";
              "receipt_footer"] (setting_key s))
    (system_settings t).

(** [printReceipt(orderId)]; it returns the [message] of its result
    object.  As in [printKOT] the layout calls fill the buffer of the
    driver object, and the [catch] logs the error and throws it again. *)
Definition printReceipt (orderId : Z) : M string :=
  orderData <- query (select_order orderId) ;;
  match orderData with
  | [] => throw (JsError "Order not found")
  | _ :: _ =>
      orderItems <- query (select_receipt_items orderId) ;;
      printers <- query select_receipt_printers ;;
      match printers with
      | [] => throw (JsError "No active receipt printer found")
      | p :: _ =>
          printer <- initializePrinter (p_id p) ;;
          settings <- query select_business_settings ;;
          isConnected <- isPrinterConnected (p_ip_address printer)
                           (p_port printer) ;;
          if (isConnected : bool) then
            printer_execute (p_ip_address printer) (p_port printer) ;;
            ret "Receipt printed successfully"
          else throw (JsError "Receipt printer not connected")
      end
  end.

End PrinterService.

(** ** routes/orders.js *)

Module Orders.

(** One element of [req.body.items]. *)
Record order_line := {
  menu_item_id : Z;
  quantity : Z;
  special_instructions : option string
}.

(** [req.body] of "Create new order"; a field that is absent or [null] is
    [None]. *)
Record order_request := {
  table_id : option Z;
  session_id : option Z;
  customer_name : option string;
  order_type : string;
  items : list order_line;
  order_special_instructions : option string
}.

(** The readings of [Date.now()] and of [Math.floor(Math.random() * 1000)]
    for the order number and for the KOT number. *)
Record entropy := {
  order_time : Z;
  order_random : Z;
  kot_time : Z;
  kot_random : Z
}.

Definition order_types : list string := ["Dine-in"; "Takeaway"; "Delivery"].

Definition order_statuses : list string :=
  ["Pending"; "Confirmed"; "Preparing"; "Ready"; "Served"; "Completed";
   "Cancelled"].

(** The validation chain of the route: [order_type] is one of the three
    types, [items] is an array of at least one element, every quantity is
    an integer of at least one.  ([table_id] and [menu_item_id] are
    integers by their type.) *)
Definition valid_order_request (body : order_request) : bool :=
  includes order_types (order_type body)
  && (1 <=? Z.of_nat (List.length (items body)))
  && forallb (fun item => 1 <=? quantity item) (items body).

(** An element of the array [orderItems]. *)
Record priced_line := {
  pl_menu_item_id : Z;
  pl_quantity : Z;
  pl_unit_price : Z;               (* [menuItem.price], in cents *)
  pl_total_price : Q;
  pl_special_instructions : option string
}.

(** [x || null] on an optional string: the empty string is falsy. *)
Definition or_null (s : option string) : option string :=
  match s with
  | Some "" => None
  | _ => s
  end.

(** [SELECT * FROM menu_items WHERE id = ? AND is_available = TRUE] *)
Definition select_available_menu_item (id : Z) (t : tables)
  : list menu_item :=
  filter (fun m => (mi_id m =? id) && mi_is_available m) (menu_items t).

(** [SELECT setting_value FROM system_settings WHERE setting_key = key] *)
Definition select_setting (key : string) (t : tables) : list system_setting :=
  filter (fun s => (setting_key s =? key)%string) (system_settings t).

(** [SELECT DISTINCT c.name FROM menu_items mi
    JOIN subcategories sc ON mi.subcategory_id = sc.id
    JOIN categories c ON sc.category_id = c.id WHERE mi.id IN (ids)] *)
Definition select_item_categories (ids : list Z) (t : tables) : list string :=
  nodup string_dec
    (flat_map (fun mi =>
       if existsb (Z.eqb (mi_id mi)) ids
       then
         flat_map (fun sc =>
           if mi_subcategory_id mi =? sc_id sc
           then
             flat_map (fun c =>
               if sc_category_id sc =? c_id c then [c_name c] else [])
               (categories t)
           else []) (subcategories t)
       else []) (menu_items t)).

(** [SELECT * FROM order_items WHERE order_id = ?] *)
Definition select_order_items (orderId : Z) (t : tables) : list order_item :=
  filter (fun oi => oi_order_id oi =? orderId) (order_items t).

(** [SELECT name FROM menu_items WHERE id = ?] *)
Definition select_menu_item_name (id : Z) (t : tables) : list string :=
  map mi_name (filter (fun m => mi_id m =? id) (menu_items t)).

(** The row of [orders] for a new order: the columns that the INSERT
    does not name take their defaults. *)
Definition order_row (id : Z) (orderNumber : string)
    (table_id session_id : option Z) (user_id : Z)
    (customer_name : option string) (order_type : string)
    (subtotal tax_amount total_amount : Z)
    (special_instructions : option string) (created_by : Z) : order :=
  {| o_id := id; o_order_number := orderNumber;
     o_table_id := table_id; o_session_id := session_id;
     o_user_id := user_id; o_customer_name := customer_name;
     o_order_type := order_type; o_subtotal := subtotal;
     o_tax_amount := tax_amount; o_discount_amount := 0;
     o_total_amount := total_amount; o_status := "Pending";
     o_payment_status := "Unpaid";
     o_special_instructions := special_instructions;
     o_created_by := created_by |}.

(** [INSERT INTO orders (order_number, table_id, session_id, user_id,
    customer_name, order_type, subtotal, tax_amount, total_amount,
    special_instructions, created_by) VALUES (...)]: [order_number] is
    UNIQUE, the three amounts go into [DECIMAL(10,2)] columns, the other
    columns take their defaults.  The result is [insertId]. *)
Definition insert_order (orderNumber : string) (table_id session_id : option Z)
    (user_id : Z) (customer_name : option string) (order_type : string)
    (subtotal taxAmount totalAmount : option Q)
    (special_instructions : option string) (created_by : Z)
    (d : database) : option (Z * database) :=
  if existsb (fun o => (o_order_number o =? orderNumber)%string)
       (orders (rows d))
  then None
  else
    match Money.decimal_10_2 subtotal, Money.decimal_10_2 taxAmount,
          Money.decimal_10_2 totalAmount with
    | Some s, Some t, Some tot =>
        let id := next_order_id (auto_increment d) in
        let row :=
          order_row id orderNumber table_id session_id user_id
            customer_name order_type s t tot special_instructions
            created_by in
        Some (id,
              {| rows := with_orders (orders (rows d) ++ [row]) (rows d);
                 auto_increment :=
                   with_next_order_id (id + 1) (auto_increment d) |})
    | _, _, _ => None
    end.

(** The row of [order_items] for a priced line. *)
Definition order_item_row (id orderId : Z) (item : priced_line) (total : Z)
  : order_item :=
  {| oi_id := id; oi_order_id := orderId;
     oi_menu_item_id := pl_menu_item_id item;
     oi_quantity := pl_quantity item;
     oi_unit_price := pl_unit_price item; oi_total_price := total;
     oi_special_instructions := pl_special_instructions item;
     oi_status := "Pending" |}.

(** [INSERT INTO order_items (order_id, menu_item_id, quantity, unit_price,
    total_price, special_instructions) VALUES (...)] *)
Definition insert_order_item (orderId : Z) (item : priced_line)
    (d : database) : option (unit * database) :=
  match Money.decimal_10_2 (Some (pl_total_price item)) with
  | Some total =>
      let id := next_order_item_id (auto_increment d) in
      let row := order_item_row id orderId item total in
      Some (tt,
            {| rows :=
                 with_order_items (order_items (rows d) ++ [row]) (rows d);
               auto_increment :=
                 with_next_order_item_id (id + 1) (auto_increment d) |})
  | None => None
  end.

(** The row of [kots] for a new ticket. *)
Definition kot_row (id : Z) (kotNumber : string) (orderId : Z)
    (categoryType : string) : kot :=
  {| k_id := id; k_kot_number := kotNumber; k_order_id := orderId;
     k_printer_id := None; k_category_type := categoryType;
     k_status := "Pending"; k_printed_at := None;
     k_completed_at := None |}.

(** [INSERT INTO kots (kot_number, order_id, category_type, status)
    VALUES (?, ?, ?, 'Pending')]: [kot_number] is UNIQUE.  The result is
    [insertId]. *)
Definition insert_kot (kotNumber : string) (orderId : Z)
    (categoryType : string) (d : database) : option (Z * database) :=
  if existsb (fun k => (k_kot_number k =? kotNumber)%string) (kots (rows d))
  then None
  else
    let id := next_kot_id (auto_increment d) in
    let row := kot_row id kotNumber orderId categoryType in
    Some (id,
          {| rows := with_kots (kots (rows d) ++ [row]) (rows d);
             auto_increment :=
               with_next_kot_id (id + 1) (auto_increment d) |}).

(** The row of [kot_items] for a line of the ticket. *)
Definition kot_item_row (id kotId orderItemId : Z) (name : string)
    (quantity : Z) (special_instructions : option string) : kot_item :=
  {| ki_id := id; ki_kot_id := kotId; ki_order_item_id := orderItemId;
     ki_menu_item_name := name; ki_quantity := quantity;
     ki_special_instructions := special_instructions;
     ki_status := "Pending" |}.

(** [INSERT INTO kot_items (kot_id, order_item_id, menu_item_name,
    quantity, special_instructions) VALUES (...)] *)
Definition insert_kot_item (kotId orderItemId : Z) (name : string)
    (quantity : Z) (special_instructions : option string) (d : database)
  : option (unit * database) :=
  let id := next_kot_item_id (auto_increment d) in
  let row :=
    kot_item_row id kotId orderItemId name quantity special_instructions in
  Some (tt,
        {| rows := with_kot_items (kot_items (rows d) ++ [row]) (rows d);
           auto_increment :=
             with_next_kot_item_id (id + 1) (auto_increment d) |}).

(** [UPDATE orders SET status = ? WHERE id = ?] *)
Definition set_order_status (status : string) (orderId : Z) (t : tables)
  : tables :=
  with_orders
    (update_where (fun o => o_id o =? orderId) (set_status_order status)
       (orders t)) t.

(** *** The category type of the ticket *)

Definition foodCategories : list string := ["Food"].
Definition drinkCategories : list string := ["Drinks"; "Beverages"].

Definition categoryType (categories : list string) : string :=
  if forallb (includes foodCategories) categories then "Food"
  else if forallb (includes drinkCategories) categories then "Beverages"
  else "Mixed".

(** *** Totals *)

(** [menuItem.price] read as a number. *)
Definition price (m : menu_item) : Q := Money.of_cents (mi_price m).

(** [menuItem.price * item.quantity] *)
Definition totalPrice (menuItem : menu_item) (item : order_line) : Q :=
  (price menuItem * inject_Z (quantity item))%Q.

(** The object pushed on [orderItems]. *)
Definition priced (menuItem : menu_item) (item : order_line) : priced_line :=
  {| pl_menu_item_id := menu_item_id item;
     pl_quantity := quantity item;
     pl_unit_price := mi_price menuItem;
     pl_total_price := totalPrice menuItem item;
     pl_special_instructions := or_null (special_instructions item) |}.

(** The loop "Calculate totals": [inl id] when it leaves the handler
    because menu item [id] is missing or unavailable, otherwise the
    subtotal and the priced lines. *)
Fixpoint calculate_totals (items : list order_line) (subtotal : Q)
    (orderItems : list priced_line) : M (Z + Q * list priced_line) :=
  match items with
  | [] => ret (inr (subtotal, orderItems))
  | item :: rest =>
      menuItems <- query (select_available_menu_item (menu_item_id item)) ;;
      match menuItems with
      | [] => ret (inl (menu_item_id item))
      | menuItem :: _ =>
          let totalPrice := totalPrice menuItem item in
          calculate_totals rest (subtotal + totalPrice)%Q
            (orderItems ++ [priced menuItem item])
      end
  end.

(** The loop "Create order items". *)
Fixpoint create_order_items (orderId : Z) (orderItems : list priced_line)
  : M unit :=
  match orderItems with
  | [] => ret tt
  | item :: rest =>
      execute (insert_order_item orderId item) ;;
      create_order_items orderId rest
  end.

(** The loop "Create KOT items"; [menuItem[0].name] throws a [TypeError]
    when the menu item is gone. *)
Fixpoint create_kot_items (kotId : Z) (createdOrderItems : list order_item)
  : M unit :=
  match createdOrderItems with
  | [] => ret tt
  | orderItem :: rest =>
      menuItem <- query (select_menu_item_name (oi_menu_item_id orderItem)) ;;
      match menuItem with
      | [] => throw (JsError "Cannot read properties of undefined")
      | name :: _ =>
          execute (insert_kot_item kotId (oi_id orderItem) name
                     (oi_quantity orderItem)
                     (oi_special_instructions orderItem)) ;;
          create_kot_items kotId rest
      end
  end.

(** What the handler knows of the order once the transaction is
    committed. *)
Record placed := {
  orderId : Z;
  orderNumber : string;
  kotNumber : string;
  kotId : Z;
  totalAmount : option Q           (* a number; [None] is [NaN] *)
}.

(** How the transaction of "Create new order" ends when it does not
    throw: the handler has rolled back and returned a response, or the
    transaction is committed. *)
Inductive transaction_end :=
  | Returned (r : response)
  | Committed (p : placed).

Section CreateOrder.

(** [parseFloat], on the text of a setting: [None] for [NaN]. *)
Variable parseFloat : string -> option Q.

(** [taxSettings.length > 0 ? parseFloat(taxSettings[0].setting_value)
    : 8.5] *)
Definition tax_rate_of (taxSettings : list system_setting) : option Q :=
  match taxSettings with
  | s :: _ => parseFloat (setting_value s)
  | [] => Some (85 # 10)
  end.

(** From [beginTransaction] to [commit]. *)
Definition order_transaction (e : entropy) (user_id : Z)
    (body : order_request) : M transaction_end :=
  beginTransaction ;;
  if negb (valid_order_request body) then
    rollback ;; ret (Returned ValidationErrors)
  else
    let orderNumber :=
      "ORD-" ++ decimal (order_time e) ++ "-" ++ decimal (order_random e) in
    priced <- calculate_totals (items body) 0%Q [] ;;
    match priced with
    | inl id =>
        rollback ;;
        ret (Returned (BadRequest
               ("Menu item " ++ decimal id ++ " not found or unavailable")))
    | inr (subtotal, orderItems) =>
        taxSettings <- query (select_setting "tax_rate") ;;
        let taxRate := tax_rate_of taxSettings in
        let taxAmount :=
          option_map (fun r => (subtotal * r / 100)%Q) taxRate in
        let totalAmount :=
          option_map (fun t => (subtotal + t)%Q) taxAmount in
        orderId <- execute
          (insert_order orderNumber (table_id body) (session_id body)
             user_id (customer_name body) (order_type body)
             (Some subtotal) taxAmount totalAmount
             (order_special_instructions body) user_id) ;;
        create_order_items orderId orderItems ;;
        let kotNumber :=
          "KOT-" ++ decimal (kot_time e) ++ "-" ++ decimal (kot_random e) in
        itemCategories <- query
          (select_item_categories (map menu_item_id (items body))) ;;
        let categoryType := categoryType itemCategories in
        kotId <- execute (insert_kot kotNumber orderId categoryType) ;;
        createdOrderItems <- query (select_order_items orderId) ;;
        create_kot_items kotId createdOrderItems ;;
        commit ;;
        ret (Committed
               {| orderId := orderId; orderNumber := orderNumber;
                  kotNumber := kotNumber; kotId := kotId;
                  totalAmount := totalAmount |})
    end.

(** "Auto-print KOT if enabled", after the commit. *)
Definition auto_print_kot (now kotId : Z) : M unit :=
  kotSettings <- query (select_setting "kot_auto_print") ;;
  match kotSettings with
  | s :: _ =>
      if (setting_value s =? "true")%string then
        try_catch (PrinterService.printKOT now kotId ;; ret tt)
          (fun printError => ret tt)
      else ret tt
  | [] => ret tt
  end.

(** "Create new order": [router.post('/')].  The connection is taken from
    the pool before the [try]; a request that gets none runs no
    statement. *)
Definition create_order (e : entropy) (now user_id : Z)
    (body : order_request) : M response :=
  try_catch
    (t <- order_transaction e user_id body ;;
     match t with
     | Returned r => ret r
     | Committed p =>
         auto_print_kot now (kotId p) ;;
         ret (Created (orderId p) (orderNumber p) (kotNumber p)
                (totalAmount p))
     end)
    (fun error => rollback ;; ret InternalServerError).

End CreateOrder.

(** "Update order status": [router.put('/:id/status')]. *)
Definition update_order_status (orderId : Z) (status : string) : M response :=
  try_catch
    (if negb (includes order_statuses status) then ret ValidationErrors
     else
       update (set_order_status status orderId) ;;
       ret (Success "Order status updated successfully"))
    (fun error => ret InternalServerError).

(** "Print receipt": [router.post('/:id/print-receipt')]; the error
    response carries [error.message]. *)
Definition print_receipt (orderId : Z) : M reply :=
  try_catch
    (message <- PrinterService.printReceipt orderId ;;
     ret (200, Message message))
    (fun error =>
       ret (500, ErrorMessage (PrinterService.error_message error))).

(** [SELECT id FROM kots WHERE order_id = ? ORDER BY created_at DESC
    LIMIT 1]: the rows of a table are kept in the order of their
    insertion, which is that of [created_at]. *)
Definition select_last_kot (orderId : Z) (t : tables) : list Z :=
  match rev (filter (fun k => k_order_id k =? orderId) (kots t)) with
  | [] => []
  | k :: _ => [k_id k]
  end.

(** "Print KOT" of an order: [router.post('/:id/print-kot')].  Without a
    ticket of the order the response is 404; the error response carries
    [error.message]. *)
Definition print_kot (now orderId : Z) : M reply :=
  try_catch
    (kots <- query (select_last_kot orderId) ;;
     match kots with
     | [] => ret (404, ErrorMessage "KOT not found for this order")
     | kotId :: _ =>
         printerId <- PrinterService.printKOT now kotId ;;
         ret (200, KotPrinted "KOT printed successfully" printerId)
     end)
    (fun error =>
       ret (500, ErrorMessage (PrinterService.error_message error))).

End Orders.

(** ** The body after the sanitizers of the route *)

Module OrderRequests.

Import Orders.

Section Sanitized.

(** [trim], the sanitizer. *)
Variable trim : string -> string.

(** [body('items.*.special_instructions').optional().trim()] *)
Definition sanitized_line (item : order_line) : order_line :=
  {| menu_item_id := menu_item_id item;
     quantity := quantity item;
     special_instructions := option_map trim (special_instructions item) |}.

(** The body as the handler of "Create new order" reads it: its chain
    carries two sanitizers, [body('customer_name').optional().trim()]
    and the one of the lines, and they replace the values in
    [req.body] before the handler runs.  No validator of the chain
    reads a value that a sanitizer changes. *)
Definition sanitized (body : order_request) : order_request :=
  {| table_id := table_id body;
     session_id := session_id body;
     customer_name := option_map trim (customer_name body);
     order_type := order_type body;
     items := map sanitized_line (items body);
     order_special_instructions := order_special_instructions body |}.

End Sanitized.

End OrderRequests.

(** ** The arithmetic of the handler

    A JavaScript number that is finite is a rational, and an operation
    on numbers is the operation on rationals followed by the rounding of
    IEEE 754 binary64: to the nearest number of 53 bits, a tie to the
    one whose last bit is zero.  (The sign of a zero is not kept: no
    amount shows it.) *)

Module Doubles.

Definition pow2 (e : Z) : Q := Qpower 2 e.

(** The exponent of [x]: [pow2 e <= |x| < pow2 (e + 1)], for [x] that is
    not zero. *)
Definition exponent (x : Q) : Z :=
  let e := Z.log2 (Z.abs (Qnum x)) - Z.log2 (Zpos (Qden x)) in
  if Qle_bool (pow2 e) (Qabs x) then e else e - 1.

(** The nearest integer, a tie to the even one. *)
Definition round_half_even (y : Q) : Z :=
  let f := Qfloor y in
  match (y - inject_Z f ?= 1 # 2)%Q with
  | Lt => f
  | Gt => f + 1
  | Eq => if Z.even f then f else f + 1
  end.

(** The distance between the numbers around [x]: 52 bits below the
    exponent, which is at least -1022 (the subnormal numbers). *)
Definition ulp (x : Q) : Q := pow2 (Z.max (exponent x) (-1022) - 52).

(** The rounding of binary64, were the exponent unbounded above. *)
Definition nearest (x : Q) : Q :=
  let u := ulp x in
  Qred (inject_Z (Z.sgn (Qnum x))
        * (inject_Z (round_half_even (Qabs x / u)) * u)).

(** [Number.MAX_VALUE] *)
Definition largest : Q := (pow2 1024 - pow2 971)%Q.

(** The number for the real [x]; [None] for [Infinity], which is where
    the rounding leaves the numbers. *)
Definition double (x : Q) : option Q :=
  let y := nearest x in
  if Qle_bool (Qabs y) largest then Some y else None.

(** [a * b], [a + b] and [a / b] on finite numbers; [None] for a result
    that is [Infinity] or [NaN]. *)
Definition mul (a b : Q) : option Q := double (a * b).
Definition add (a b : Q) : option Q := double (a + b).
Definition div (a b : Q) : option Q :=
  if Qeq_bool b 0 then None else double (a / b).

(** *** A number as a decimal

    A number that is bound to a statement reaches a [DECIMAL] column
    through its shortest decimal representation, the one that
    [String(x)] prints: the decimal of fewest digits that rounds back to
    the number (17 digits always do). *)

(** The exponent of the first decimal digit of [x]. *)
Definition decimal_exponent (x : Q) : Z :=
  let g := (exponent x * 30103) / 100000 in
  if Qle_bool (Qpower 10 (g + 1)) (Qabs x) then g + 1
  else if Qle_bool (Qpower 10 g) (Qabs x) then g
  else g - 1.

(** [x] to [digits] significant decimal digits. *)
Definition to_precision (digits : Z) (x : Q) : Q :=
  let u := Qpower 10 (decimal_exponent x - digits + 1) in
  Qred (inject_Z (round_half_even (x / u)) * u).

Fixpoint shortest_from (more : nat) (digits : Z) (x : Q) : Q :=
  match more with
  | O => x
  | S n =>
      let c := to_precision digits x in
      if Qeq_bool (nearest c) x then c
      else shortest_from n (digits + 1) x
  end.

Definition shortest (x : Q) : Q := shortest_from 17 1 x.


(** *** "Create new order" on numbers

    The handler of [Orders] has the amounts in exact arithmetic; here
    they are the numbers that the handler computes.  A number is an
    [option Q]: [None] is [NaN] or an infinity, which every operation
    keeps and no [DECIMAL] column takes. *)

Definition and_then {A B} (a : option A) (f : A -> option B) : option B :=
  match a with
  | Some x => f x
  | None => None
  end.

(** [menuItem.price * item.quantity]: the driver hands a [DECIMAL] over
    as its text, which the product reads as a number. *)
Definition totalPrice (menuItem : menu_item) (item : Orders.order_line)
  : option Q :=
  and_then (double (Money.of_cents (mi_price menuItem))) (fun price =>
  and_then (double (inject_Z (Orders.quantity item))) (fun quantity =>
  mul price quantity)).

(** [a + b] on numbers. *)
Definition plus (a b : option Q) : option Q :=
  and_then a (fun x => and_then b (add x)).

(** The object pushed on [orderItems]; [None] when its [total_price] is
    not finite. *)
Definition priced (menuItem : menu_item) (item : Orders.order_line)
  : option Orders.priced_line :=
  option_map (fun total =>
    {| Orders.pl_menu_item_id := Orders.menu_item_id item;
       Orders.pl_quantity := Orders.quantity item;
       Orders.pl_unit_price := mi_price menuItem;
       Orders.pl_total_price := total;
       Orders.pl_special_instructions :=
         Orders.or_null (Orders.special_instructions item) |})
    (totalPrice menuItem item).

(** The loop "Calculate totals": [subtotal += totalPrice]. *)
Fixpoint calculate_totals (items : list Orders.order_line)
    (subtotal : option Q) (orderItems : list (option Orders.priced_line))
  : M (Z + option Q * list (option Orders.priced_line)) :=
  match items with
  | [] => ret (inr (subtotal, orderItems))
  | item :: rest =>
      menuItems <- query
        (Orders.select_available_menu_item (Orders.menu_item_id item)) ;;
      match menuItems with
      | [] => ret (inl (Orders.menu_item_id item))
      | menuItem :: _ =>
          let totalPrice := totalPrice menuItem item in
          calculate_totals rest (plus subtotal totalPrice)
            (orderItems ++ [priced menuItem item])
      end
  end.

(** The line as the server reads it: the number as its decimal. *)
Definition sent (item : Orders.priced_line) : Orders.priced_line :=
  {| Orders.pl_menu_item_id := Orders.pl_menu_item_id item;
     Orders.pl_quantity := Orders.pl_quantity item;
     Orders.pl_unit_price := Orders.pl_unit_price item;
     Orders.pl_total_price := shortest (Orders.pl_total_price item);
     Orders.pl_special_instructions :=
       Orders.pl_special_instructions item |}.

(** The INSERT into [order_items], refused for a total that is not
    finite. *)
Definition insert_order_item (orderId : Z)
    (item : option Orders.priced_line) (d : database)
  : option (unit * database) :=
  match item with
  | Some line => Orders.insert_order_item orderId (sent line) d
  | None => None
  end.

(** The loop "Create order items". *)
Fixpoint create_order_items (orderId : Z)
    (orderItems : list (option Orders.priced_line)) : M unit :=
  match orderItems with
  | [] => ret tt
  | item :: rest =>
      execute (insert_order_item orderId item) ;;
      create_order_items orderId rest
  end.

Section CreateOrder.

(** The decimal that [parseFloat] reads at the head of a text; [None]
    when it reads none ([NaN]). *)
Variable parseFloat : string -> option Q.

(** [taxSettings.length > 0 ? parseFloat(taxSettings[0].setting_value)
    : 8.5] *)
Definition tax_rate_of (taxSettings : list system_setting) : option Q :=
  match taxSettings with
  | s :: _ => and_then (parseFloat (setting_value s)) double
  | [] => double (85 # 10)
  end.

(** [(subtotal * taxRate) / 100] *)
Definition taxAmount (subtotal taxRate : option Q) : option Q :=
  and_then subtotal (fun s =>
  and_then taxRate (fun r =>
  and_then (mul s r) (fun product => div product 100))).

(** From [beginTransaction] to [commit]: [Orders.order_transaction] on
    numbers. *)
Definition order_transaction (e : Orders.entropy) (user_id : Z)
    (body : Orders.order_request) : M Orders.transaction_end :=
  beginTransaction ;;
  if negb (Orders.valid_order_request body) then
    rollback ;; ret (Orders.Returned ValidationErrors)
  else
    let orderNumber :=
      "ORD-" ++ decimal (Orders.order_time e) ++ "-" ++ decimal (Orders.order_random e) in
    priced <- calculate_totals (Orders.items body) (Some 0%Q) [] ;;
    match priced with
    | inl id =>
        rollback ;;
        ret (Orders.Returned (BadRequest
               ("Menu item " ++ decimal id ++ " not found or unavailable")))
    | inr (subtotal, orderItems) =>
        taxSettings <- query (Orders.select_setting "tax_rate") ;;
        let taxRate := tax_rate_of taxSettings in
        let taxAmount := taxAmount subtotal taxRate in
        let totalAmount := plus subtotal taxAmount in
        orderId <- execute
          (Orders.insert_order orderNumber (Orders.table_id body)
             (Orders.session_id body) user_id (Orders.customer_name body)
             (Orders.order_type body)
             (option_map shortest subtotal) (option_map shortest taxAmount)
             (option_map shortest totalAmount)
             (Orders.order_special_instructions body) user_id) ;;
        create_order_items orderId orderItems ;;
        let kotNumber :=
          "KOT-" ++ decimal (Orders.kot_time e) ++ "-" ++ decimal (Orders.kot_random e) in
        itemCategories <- query
          (Orders.select_item_categories
             (map Orders.menu_item_id (Orders.items body))) ;;
        let categoryType := Orders.categoryType itemCategories in
        kotId <- execute (Orders.insert_kot kotNumber orderId categoryType) ;;
        createdOrderItems <- query (Orders.select_order_items orderId) ;;
        Orders.create_kot_items kotId createdOrderItems ;;
        commit ;;
        ret (Orders.Committed
               {| Orders.orderId := orderId;
                  Orders.orderNumber := orderNumber;
                  Orders.kotNumber := kotNumber; Orders.kotId := kotId;
                  Orders.totalAmount := totalAmount |})
    end.

(** "Create new order", [router.post('/')], on numbers. *)
Definition create_order (e : Orders.entropy) (now user_id : Z)
    (body : Orders.order_request) : M response :=
  try_catch
    (t <- order_transaction e user_id body ;;
     match t with
     | Orders.Returned r => ret r
     | Orders.Committed p =>
         Orders.auto_print_kot now (Orders.kotId p) ;;
         ret (Created (Orders.orderId p) (Orders.orderNumber p)
                (Orders.kotNumber p) (Orders.totalAmount p))
     end)
    (fun error => rollback ;; ret InternalServerError).

End CreateOrder.

End Doubles.

(** ** routes/kots.js *)

Module Kots.

Definition kot_statuses : list string :=
  ["Pending"; "Printed"; "Preparing"; "Ready"; "Served"].

Definition kot_item_statuses : list string :=
  ["Pending"; "Preparing"; "Ready"; "Served"].

(** [UPDATE kots SET status = ? WHERE id = ?], and with
    [completed_at = ?] as well when [updateData] has that key. *)
Definition set_kot_status (status : string) (completed_at : option Z)
    (kotId : Z) (t : tables) : tables :=
  with_kots
    (update_where (fun k => k_id k =? kotId)
       (fun k =>
          match completed_at with
          | Some at_ => set_completed_at (Some at_) (set_status_kot status k)
          | None => set_status_kot status k
          end)
       (kots t)) t.

(** [UPDATE kot_items SET status = "Ready" WHERE kot_id = ?] *)
Definition set_all_items_ready (kotId : Z) (t : tables) : tables :=
  with_kot_items
    (update_where (fun i => ki_kot_id i =? kotId)
       (set_status_kot_item "Ready") (kot_items t)) t.

(** [UPDATE kot_items SET status = ? WHERE id = ? AND kot_id = ?] *)
Definition set_kot_item_status (status : string) (itemId kotId : Z)
    (t : tables) : tables :=
  with_kot_items
    (update_where (fun i => (ki_id i =? itemId) && (ki_kot_id i =? kotId))
       (set_status_kot_item status) (kot_items t)) t.

(** [SELECT COUNT( * ) as count FROM kot_items
    WHERE kot_id = ? AND status != "Ready"] *)
Definition count_not_ready (kotId : Z) (t : tables) : Z :=
  Z.of_nat
    (List.length
       (filter (fun i =>
          (ki_kot_id i =? kotId) && negb (ki_status i =? "Ready")%string)
          (kot_items t))).

(** [UPDATE kots SET status = "Ready", completed_at = NOW() WHERE id = ?] *)
Definition set_kot_ready (now kotId : Z) (t : tables) : tables :=
  with_kots
    (update_where (fun k => k_id k =? kotId)
       (fun k => set_completed_at (Some now) (set_status_kot "Ready" k))
       (kots t)) t.

(** "Update KOT status": [router.put('/:id/status')]; [now] is
    [new Date()]. *)
Definition update_kot_status (now kotId : Z) (status : string) : M response :=
  try_catch
    (if negb (includes kot_statuses status) then ret ValidationErrors
     else
       let completed_at :=
         if (status =? "Ready")%string then Some now else None in
       update (set_kot_status status completed_at kotId) ;;
       (if (status =? "Ready")%string
        then update (set_all_items_ready kotId)
        else ret tt) ;;
       ret (Success "KOT status updated successfully"))
    (fun error => ret InternalServerError).

(** "Update KOT item status":
    [router.put('/:kotId/items/:itemId/status')]; [now] is [NOW()]. *)
Definition update_kot_item_status (now kotId itemId : Z) (status : string)
  : M response :=
  try_catch
    (if negb (includes kot_item_statuses status) then ret ValidationErrors
     else
       update (set_kot_item_status status itemId kotId) ;;
       (if (status =? "Ready")%string then
          count <- query (count_not_ready kotId) ;;
          if count =? 0 then update (set_kot_ready now kotId) else ret tt
        else ret tt) ;;
       ret (Success "KOT item status updated successfully"))
    (fun error => ret InternalServerError).

(** "Print KOT": [router.post('/:id/print')]; the error response carries
    [error.message]. *)
Definition print_kot (now kotId : Z) : M reply :=
  try_catch
    (printerId <- PrinterService.printKOT now kotId ;;
     ret (200, KotPrinted "KOT printed successfully" printerId))
    (fun error =>
       ret (500, ErrorMessage (PrinterService.error_message error))).

End Kots.

(** ** routes/printers.js *)

Module Printers.

Definition printer_types : list string :=
  ["Kitchen"; "Bar"; "Receipt"; "General"].

Definition paper_sizes : list string := ["58mm"; "80mm"].

(** An element of [category_mappings]. *)
Record mapping := {
  category_id : Z;
  subcategory_id : option Z
}.

(** [req.body] of "Add new printer".  The chain requires the first five
    fields: a request that lacks one of them fails the validation as one
    that carries an invalid value does.  [category_mappings] is [[]] when
    the request has none. *)
Record printer_body := {
  name : string;
  type : string;
  ip_address : string;
  port : Z;
  paper_size : string;
  category_mappings : list mapping
}.

(** [req.body] of "Update printer": a field that is absent is [None]. *)
Record printer_update := {
  new_name : option string;
  new_type : option string;
  new_ip_address : option string;
  new_port : option Z;
  new_paper_size : option string;
  new_is_active : option bool;
  new_category_mappings : option (list mapping)
}.

(** [SELECT ... FROM printers WHERE id = ?] *)
Definition select_printer (printerId : Z) (t : tables) : list printer :=
  filter (fun p => p_id p =? printerId) (printers t).

(** [x || null] on an optional identifier: [0] is falsy. *)
Definition or_null (x : option Z) : option Z :=
  match x with
  | Some 0 => None
  | _ => x
  end.

(** The row of [printers] for a new printer: it is active and, by the
    default of [is_online], offline.  ([paper_size] is a column that the
    pipeline does not read.) *)
Definition printer_row (id : Z) (name type ip_address : string) (port : Z)
  : printer :=
  {| p_id := id; p_name := name; p_type := type;
     p_ip_address := ip_address; p_port := port;
     p_is_active := true; p_is_online := false;
     p_last_test_print := None |}.

(** [INSERT INTO printers (name, type, ip_address, port, paper_size)
    VALUES (...)].  [insertId] is the identifier that AUTO_INCREMENT
    hands out (the counter of [printers] is not among [counters]); [id]
    is the PRIMARY KEY.  The result is [insertId]. *)
Definition insert_printer (insertId : Z) (name type ip_address : string)
    (port : Z) (d : database) : option (Z * database) :=
  if existsb (fun p => p_id p =? insertId) (printers (rows d))
  then None
  else
    Some (insertId,
          {| rows :=
               with_printers
                 (printers (rows d)
                  ++ [printer_row insertId name type ip_address port])
                 (rows d);
             auto_increment := auto_increment d |}).

(** The row of [printer_category_mappings] for a mapping of the request:
    [[printerId, mapping.category_id, mapping.subcategory_id || null]]. *)
Definition mapping_row (printerId : Z) (m : mapping)
  : printer_category_mapping :=
  {| pcm_printer_id := printerId; pcm_category_id := category_id m;
     pcm_subcategory_id := or_null (subcategory_id m) |}.

(** [INSERT INTO printer_category_mappings (printer_id, category_id,
    subcategory_id) VALUES (?, ?, ?)]: the three columns are FOREIGN KEYs
    to [printers], [categories] and [subcategories]. *)
Definition insert_mapping (printerId : Z) (m : mapping) (d : database)
  : option (unit * database) :=
  let t := rows d in
  let row := mapping_row printerId m in
  if existsb (fun p => p_id p =? printerId) (printers t)
     && existsb (fun c => c_id c =? pcm_category_id row) (categories t)
     && match pcm_subcategory_id row with
        | Some s => existsb (fun sc => sc_id sc =? s) (subcategories t)
        | None => true
        end
  then
    Some (tt,
          {| rows :=
               with_printer_category_mappings
                 (printer_category_mappings t ++ [row]) t;
             auto_increment := auto_increment d |})
  else None.

(** [DELETE FROM printer_category_mappings WHERE printer_id = ?] *)
Definition delete_mappings (printerId : Z) (t : tables) : tables :=
  with_printer_category_mappings
    (delete_where (fun m => pcm_printer_id m =? printerId)
       (printer_category_mappings t)) t.

(** [DELETE FROM printers WHERE id = ?]: the mappings of the printer go
    with it (ON DELETE CASCADE).  The result is [affectedRows]. *)
Definition delete_printer_row (printerId : Z) (d : database)
  : option (Z * database) :=
  let t := rows d in
  Some (affectedRows (fun p => p_id p =? printerId) (printers t),
        {| rows :=
             with_printers
               (delete_where (fun p => p_id p =? printerId) (printers t))
               (delete_mappings printerId t);
           auto_increment := auto_increment d |}).

(** [UPDATE printers SET is_online = ? WHERE id = ?] *)
Definition set_online (isConnected : bool) (printerId : Z) (t : tables)
  : tables :=
  with_printers
    (update_where (fun p => p_id p =? printerId)
       (set_is_online isConnected) (printers t)) t.

(** The loop "Add category mappings" (also "Add new mappings"). *)
Fixpoint add_mappings (printerId : Z) (category_mappings : list mapping)
  : M unit :=
  match category_mappings with
  | [] => ret tt
  | mapping :: rest =>
      execute (insert_mapping printerId mapping) ;;
      add_mappings printerId rest
  end.

(** [values.length > 0]: the request names a column of the printer. *)
Definition has_values (body : printer_update) : bool :=
  defined (new_name body) || defined (new_type body)
  || defined (new_ip_address body) || defined (new_port body)
  || defined (new_paper_size body) || defined (new_is_active body).

(** The row after [SET key = ?, ...] for the keys of [updates]. *)
Definition set_updates (body : printer_update) (p : printer) : printer :=
  {| p_id := p_id p;
     p_name := match new_name body with Some n => n | None => p_name p end;
     p_type := match new_type body with Some t => t | None => p_type p end;
     p_ip_address :=
       match new_ip_address body with
       | Some a => a
       | None => p_ip_address p
       end;
     p_port := match new_port body with Some n => n | None => p_port p end;
     p_is_active :=
       match new_is_active body with
       | Some b => b
       | None => p_is_active p
       end;
     p_is_online := p_is_online p;
     p_last_test_print := p_last_test_print p |}.

(** [UPDATE printers SET ${setClause} WHERE id = ?] *)
Definition update_printer_row (body : printer_update) (printerId : Z)
    (t : tables) : tables :=
  with_printers
    (update_where (fun p => p_id p =? printerId) (set_updates body)
       (printers t)) t.

Section Validated.

(** [isIP] of validator.js, and [trim], the sanitizer. *)
Variable isIP : string -> bool.
Variable trim : string -> string.

(** The chain of "Add new printer". *)
Definition valid_printer_body (body : printer_body) : bool :=
  isLength_min_1 (name body)
  && includes printer_types (type body)
  && isIP (ip_address body)
  && isInt_between 1 65535 (port body)
  && includes paper_sizes (paper_size body).

(** The chain of "Update printer". *)
Definition valid_printer_update (body : printer_update) : bool :=
  optional isLength_min_1 (new_name body)
  && optional (includes printer_types) (new_type body)
  && optional isIP (new_ip_address body)
  && optional (isInt_between 1 65535) (new_port body)
  && optional (includes paper_sizes) (new_paper_size body).

(** The body as the handler reads it: the chain ends the field [name]
    with [trim()], which replaces the value once the validators before it
    have seen it. *)
Definition sanitized (body : printer_update) : printer_update :=
  {| new_name := option_map trim (new_name body);
     new_type := new_type body;
     new_ip_address := new_ip_address body;
     new_port := new_port body;
     new_paper_size := new_paper_size body;
     new_is_active := new_is_active body;
     new_category_mappings := new_category_mappings body |}.

(** "Add new printer": [router.post('/')]. *)
Definition add_printer (insertId : Z) (body : printer_body) : M reply :=
  try_catch
    (if negb (valid_printer_body body) then ret (400, Errors)
     else
       try_catch
         (beginTransaction ;;
          printerId <- execute
            (insert_printer insertId (trim (name body)) (type body)
               (ip_address body) (port body)) ;;
          add_mappings printerId (category_mappings body) ;;
          commit ;;
          ret (201, Added "Printer added successfully" printerId))
         (fun error => rollback ;; throw error))
    (fun error => ret (500, ErrorMessage "Internal server error")).

(** "Update printer": [router.put('/:id')]. *)
Definition update_printer (printerId : Z) (body : printer_update)
  : M reply :=
  try_catch
    (if negb (valid_printer_update body) then ret (400, Errors)
     else
       let body := sanitized body in
       try_catch
         (beginTransaction ;;
          (if has_values body
           then update (update_printer_row body printerId)
           else ret tt) ;;
          match new_category_mappings body with
          | Some category_mappings =>
              update (delete_mappings printerId) ;;
              add_mappings printerId category_mappings
          | None => ret tt
          end ;;
          commit ;;
          ret (200, Message "Printer updated successfully"))
         (fun error => rollback ;; throw error))
    (fun error => ret (500, ErrorMessage "Internal server error")).

End Validated.

(** "Delete printer": [router.delete('/:id')]. *)
Definition delete_printer (printerId : Z) : M reply :=
  try_catch
    (try_catch
       (beginTransaction ;;
        update (delete_mappings printerId) ;;
        affected <- execute (delete_printer_row printerId) ;;
        if affected =? 0 then
          rollback ;;
          ret (404, ErrorMessage "Printer not found")
        else
          commit ;;
          ret (200, Message "Printer deleted successfully"))
       (fun error => rollback ;; throw error))
    (fun error => ret (500, ErrorMessage "Internal server error")).

(** "Test printer": [router.post('/:id/test')]. *)
Definition test_printer (now printerId : Z) : M reply :=
  try_catch
    (message <- PrinterService.testPrinter now printerId ;;
     ret (200, Message message))
    (fun error =>
       ret (500, ErrorMessage (PrinterService.error_message error))).

(** The [printer] object of the response of the status check. *)
Definition status_of (printer : printer) (is_online : bool)
    (error : option string) : printer_status :=
  {| ps_id := p_id printer; ps_name := p_name printer;
     ps_ip_address := p_ip_address printer; ps_port := p_port printer;
     ps_is_online := is_online;
     ps_last_test_print := p_last_test_print printer;
     ps_status := if is_online then "Online" else "Offline";
     ps_error := error |}.

(** "Check printer status": [router.get('/:id/status')]. *)
Definition check_printer_status (printerId : Z) : M reply :=
  try_catch
    (printers <- query (select_printer printerId) ;;
     match printers with
     | [] => ret (404, ErrorMessage "Printer not found")
     | printer :: _ =>
         status <-
           try_catch
             (printerInstance <-
                PrinterService.initializePrinter printerId ;;
              isConnected <-
                isPrinterConnected (p_ip_address printerInstance)
                  (p_port printerInstance) ;;
              update (set_online isConnected printerId) ;;
              ret (status_of printer isConnected None))
             (fun error =>
                update (PrinterService.mark_offline printerId) ;;
                ret (status_of printer false
                       (Some (PrinterService.error_message error)))) ;;
         ret (200, PrinterStatus status)
     end)
    (fun error => ret (500, ErrorMessage "Internal server error")).

End Printers.

(** ** routes/menu.js (second half of [server/routes/kots.js]) *)

Module Menu.

(** [req.body] of "Update menu item": a field that is absent is
    [None]. *)
Record item_update := {
  name : option string;
  description : option string;
  price : option Q;
  image_url : option string;
  preparation_time : option Z;
  is_available : option bool
}.

(** [isFloat({ min: 0 })] on a number. *)
Definition isFloat_min_0 (x : Q) : bool := Qle_bool 0 x.

(** [SELECT id FROM categories WHERE id = ?] *)
Definition select_category (id : Z) (t : tables) : list Z :=
  map c_id (filter (fun c => c_id c =? id) (categories t)).

(** [SELECT id FROM subcategories WHERE id = ?] *)
Definition select_subcategory (id : Z) (t : tables) : list Z :=
  map sc_id (filter (fun sc => sc_id sc =? id) (subcategories t)).

(** [INSERT INTO subcategories (category_id, name, description)
    VALUES (?, ?, ?)]: [id] is the PRIMARY KEY, [insertId] the value that
    AUTO_INCREMENT hands out; [category_id] is a FOREIGN KEY.
    ([description] is a column that the pipeline does not read.) *)
Definition insert_subcategory (insertId category_id : Z) (name : string)
    (d : database) : option (Z * database) :=
  let t := rows d in
  if existsb (fun sc => sc_id sc =? insertId) (subcategories t)
     || negb (existsb (fun c => c_id c =? category_id) (categories t))
  then None
  else
    Some (insertId,
          {| rows :=
               with_subcategories
                 (subcategories t
                  ++ [{| sc_id := insertId; sc_category_id := category_id;
                         sc_name := name |}]) t;
             auto_increment := auto_increment d |}).

(** The row of [menu_items] for a new item: it is available by the
    default of [is_available]. *)
Definition menu_item_row (id subcategory_id : Z) (name : string)
    (price : Z) : menu_item :=
  {| mi_id := id; mi_subcategory_id := subcategory_id; mi_name := name;
     mi_price := price; mi_is_available := true |}.

(** [INSERT INTO menu_items (subcategory_id, name, description, price,
    image_url, preparation_time) VALUES (...)]: [subcategory_id] is a
    FOREIGN KEY, [price] a [DECIMAL(10,2)] column. *)
Definition insert_menu_item (insertId subcategory_id : Z) (name : string)
    (price : Q) (d : database) : option (Z * database) :=
  let t := rows d in
  if existsb (fun m => mi_id m =? insertId) (menu_items t)
     || negb (existsb (fun sc => sc_id sc =? subcategory_id)
                (subcategories t))
  then None
  else
    match Money.decimal_10_2 (Some price) with
    | Some cents =>
        Some (insertId,
              {| rows :=
                   with_menu_items
                     (menu_items t
                      ++ [menu_item_row insertId subcategory_id name cents])
                     t;
                 auto_increment := auto_increment d |})
    | None => None
    end.

(** [values.length === 0]: the request names no column. *)
Definition no_values (body : item_update) : bool :=
  negb (defined (name body) || defined (description body)
        || defined (price body) || defined (image_url body)
        || defined (preparation_time body) || defined (is_available body)).

(** The row after [SET key = ?, ...] for the keys of [updates]; [cents]
    is the new value of the column [price]. *)
Definition set_updates (body : item_update) (cents : option Z)
    (m : menu_item) : menu_item :=
  {| mi_id := mi_id m; mi_subcategory_id := mi_subcategory_id m;
     mi_name := match name body with Some n => n | None => mi_name m end;
     mi_price := match cents with Some c => c | None => mi_price m end;
     mi_is_available :=
       match is_available body with
       | Some b => b
       | None => mi_is_available m
       end |}.

(** [UPDATE menu_items SET ${setClause} WHERE id = ?]; the result is
    [affectedRows].  A price is converted for the rows that match: the
    statement is refused when there is such a row and the price does not
    fit the column. *)
Definition update_menu_item_row (body : item_update) (itemId : Z)
    (d : database) : option (Z * database) :=
  let t := rows d in
  let affected := affectedRows (fun m => mi_id m =? itemId) (menu_items t) in
  let updated cents :=
    Some (affected,
          {| rows :=
               with_menu_items
                 (update_where (fun m => mi_id m =? itemId)
                    (set_updates body cents) (menu_items t)) t;
             auto_increment := auto_increment d |}) in
  if affected =? 0 then Some (0, d)
  else
    match price body with
    | Some q =>
        match Money.decimal_10_2 (Some q) with
        | Some cents => updated (Some cents)
        | None => None
        end
    | None => updated None
    end.

(** The lines of orders and of tickets that go with a menu item:
    [order_items.menu_item_id] and [kot_items.order_item_id] are FOREIGN
    KEYs with ON DELETE CASCADE. *)
Definition ordered (id : Z) (t : tables) : list order_item :=
  filter (fun oi => oi_menu_item_id oi =? id) (order_items t).

Definition on_ticket (lines : list order_item) (ki : kot_item) : bool :=
  existsb (fun oi => oi_id oi =? ki_order_item_id ki) lines.

(** [DELETE FROM menu_items WHERE id = ?]; the result is
    [affectedRows]. *)
Definition delete_menu_item_row (id : Z) (d : database)
  : option (Z * database) :=
  let t := rows d in
  let affected := affectedRows (fun m => mi_id m =? id) (menu_items t) in
  if affected =? 0 then Some (0, d)
  else
    Some (affected,
          {| rows :=
               with_menu_items
                 (delete_where (fun m => mi_id m =? id) (menu_items t))
                 (with_order_items
                    (delete_where (fun oi => oi_menu_item_id oi =? id)
                       (order_items t))
                    (with_kot_items
                       (delete_where (on_ticket (ordered id t))
                          (kot_items t)) t));
             auto_increment := auto_increment d |}).

Section Validated.

(** [trim], the sanitizer. *)
Variable trim : string -> string.

(** "Add new subcategory": [router.post('/subcategories')].  A request
    that leaves [description] out hands [execute] an [undefined]
    parameter; what the driver does with it is outside the model (a
    fault of the INSERT). *)
Definition add_subcategory (insertId category_id : Z) (name : string)
  : M reply :=
  try_catch
    (if negb (isLength_min_1 name) then ret (400, Errors)
     else
       categories <- query (select_category category_id) ;;
       match categories with
       | [] => ret (400, ErrorMessage "Category not found")
       | _ :: _ =>
           subcategory_id <- execute
             (insert_subcategory insertId category_id (trim name)) ;;
           ret (201, Added "Subcategory created successfully"
                       subcategory_id)
       end)
    (fun error => ret (500, ErrorMessage "Internal server error")).

(** "Add new menu item": [router.post('/items')].  [description] and
    [image_url] are as [description] is above. *)
Definition add_menu_item (insertId subcategory_id : Z) (name : string)
    (price : Q) (preparation_time : option Z) : M reply :=
  try_catch
    (if negb (isLength_min_1 name && isFloat_min_0 price
              && optional (Z.leb 1) preparation_time)
     then ret (400, Errors)
     else
       subcategories <- query (select_subcategory subcategory_id) ;;
       match subcategories with
       | [] => ret (400, ErrorMessage "Subcategory not found")
       | _ :: _ =>
           item_id <- execute
             (insert_menu_item insertId subcategory_id (trim name) price) ;;
           ret (201, Added "Menu item created successfully" item_id)
       end)
    (fun error => ret (500, ErrorMessage "Internal server error")).

(** The chain of "Update menu item". *)
Definition valid_item_update (body : item_update) : bool :=
  optional isLength_min_1 (name body)
  && optional isFloat_min_0 (price body)
  && optional (Z.leb 1) (preparation_time body).

(** The body as the handler reads it: [name] and [description] end
    their chains with [trim()]. *)
Definition sanitized (body : item_update) : item_update :=
  {| name := option_map trim (name body);
     description := option_map trim (description body);
     price := price body;
     image_url := image_url body;
     preparation_time := preparation_time body;
     is_available := is_available body |}.

(** "Update menu item": [router.put('/items/:id')]. *)
Definition update_menu_item (itemId : Z) (body : item_update) : M reply :=
  try_catch
    (if negb (valid_item_update body) then ret (400, Errors)
     else
       let body := sanitized body in
       if no_values body
       then ret (400, ErrorMessage "No valid fields to update")
       else
         affected <- execute (update_menu_item_row body itemId) ;;
         if affected =? 0
         then ret (404, ErrorMessage "Menu item not found")
         else ret (200, Message "Menu item updated successfully"))
    (fun error => ret (500, ErrorMessage "Internal server error")).

End Validated.

(** "Delete menu item": [router.delete('/items/:id')]. *)
Definition delete_menu_item (itemId : Z) : M reply :=
  try_catch
    (affected <- execute (delete_menu_item_row itemId) ;;
     if affected =? 0
     then ret (404, ErrorMessage "Menu item not found")
     else ret (200, Message "Menu item deleted successfully"))
    (fun error => ret (500, ErrorMessage "Internal server error")).

End Menu.

(** ** migrations/runMigrations.js *)

Module Migrations.

(** [s.split(sep)] for a separator of one character: the first piece
    and the others. *)
Fixpoint pieces (sep : ascii) (s : string) : string * list string :=
  match s with
  | EmptyString => (EmptyString, [])
  | String c rest =>
      let (piece, others) := pieces sep rest in
      if Ascii.eqb c sep then (EmptyString, piece :: others)
      else (String c piece, others)
  end.

Definition split (sep : ascii) (s : string) : list string :=
  let (piece, others) := pieces sep s in piece :: others.

Section Statements.

(** The characters that [trim] takes for white space. *)
Variable whitespace : ascii -> bool.

Fixpoint trimStart (s : string) : string :=
  match s with
  | EmptyString => EmptyString
  | String c rest => if whitespace c then trimStart rest else s
  end.

Fixpoint trimEnd (s : string) : string :=
  match s with
  | EmptyString => EmptyString
  | String c rest =>
      match trimEnd rest with
      | EmptyString => if whitespace c then EmptyString
                       else String c EmptyString
      | String _ _ as kept => String c kept
      end
  end.

Definition trim (s : string) : string := trimEnd (trimStart s).

(** [migrationSQL.split(';').map(stmt => stmt.trim())
      .filter(stmt => stmt.length > 0)] *)
Definition statements (migrationSQL : string) : list string :=
  filter (fun stmt => negb (stmt =? "")%string)
    (map trim (split ";"%char migrationSQL)).

(** What the database does with the text of a statement. *)
Variable sql : string -> database -> option (unit * database).

(** The loop over the statements: an error is logged and the loop goes
    on. *)
Fixpoint run (statements : list string) : M unit :=
  match statements with
  | [] => ret tt
  | statement :: rest =>
      try_catch (execute (sql statement)) (fun error => ret tt) ;;
      run rest
  end.

(** [runMigrations], once the migration file is read and the connection
    is there: [migrationSQL] is the text of the file. *)
Definition runMigrations (migrationSQL : string) : M unit :=
  run (statements migrationSQL).

End Statements.

End Migrations.


(** ** A sample database

    The seed data of the migration (categories Food, Drinks, Games; tax rate
    8.5; auto-print on), a small menu and one kitchen printer. *)

Module Sample.

Import Orders.

(** A reader of plain decimal literals ([digits] or [digits.digits]); on
    these [parseFloat] gives the same number.  Anything else is [NaN]
    here. *)
Definition digit (c : Ascii.ascii) : option Z :=
  let n := Z.of_nat (Ascii.nat_of_ascii c) in
  if (48 <=? n) && (n <=? 57) then Some (n - 48) else None.

Fixpoint read_literal (s : string) (seen_dot : bool) (num : Z) (den : positive)
  : option Q :=
  match s with
  | EmptyString => Some (num # den)
  | String c rest =>
      match digit c with
      | Some v =>
          if seen_dot
          then read_literal rest true (10 * num + v) (10 * den)
          else read_literal rest false (10 * num + v) den
      | None =>
          if (Ascii.eqb c "."%char) && negb seen_dot
          then read_literal rest true num den
          else None
      end
  end.

Definition decimal_literal (s : string) : option Q :=
  match s with
  | EmptyString => None
  | _ => read_literal s false 0 1
  end.

Definition menu : list menu_item :=
  [ {| mi_id := 1; mi_subcategory_id := 1; mi_name := "Margherita";
       mi_price := 10000; mi_is_available := true |};
    {| mi_id := 2; mi_subcategory_id := 5; mi_name := "Espresso";
       mi_price := 250; mi_is_available := true |};
    {| mi_id := 3; mi_subcategory_id := 2; mi_name := "Cheeseburger";
       mi_price := 899; mi_is_available := false |};
    {| mi_id := 4; mi_subcategory_id := 8; mi_name := "Pool hour";
       mi_price := 1200; mi_is_available := true |} ].

Definition seed_subcategories : list subcategory :=
  [ {| sc_id := 1; sc_category_id := 1; sc_name := "Pizza" |};
    {| sc_id := 2; sc_category_id := 1; sc_name := "Burgers" |};
    {| sc_id := 5; sc_category_id := 2; sc_name := "Hot Drinks" |};
    {| sc_id := 8; sc_category_id := 3; sc_name := "Pool Tables" |} ].

Definition seed_categories : list category :=
  [ {| c_id := 1; c_name := "Food" |};
    {| c_id := 2; c_name := "Drinks" |};
    {| c_id := 3; c_name := "Games" |} ].

Definition seed_settings : list system_setting :=
  [ {| setting_key := "tax_rate"; setting_value := "8.5" |};
    {| setting_key := "kot_auto_print"; setting_value := "true" |} ].

(** A menu item that is on no menu, for [nth]. *)
Definition kitchen_item : menu_item :=
  {| mi_id := 0; mi_subcategory_id := 0; mi_name := "";
     mi_price := 0; mi_is_available := false |}.

Definition kitchen_printer : printer :=
  {| p_id := 1; p_name := "Kitchen Printer 1"; p_type := "Kitchen";
     p_ip_address := "192.168.1.100"; p_port := 9100;
     p_is_active := true; p_is_online := true;
     p_last_test_print := None |}.

Definition empty_shop : database :=
  {| rows :=
       {| menu_items := menu; subcategories := seed_subcategories;
          categories := seed_categories; system_settings := seed_settings;
          orders := []; order_items := []; kots := []; kot_items := [];
          printers := [kitchen_printer];
          printer_category_mappings := [] |};
     auto_increment :=
       {| next_order_id := 1; next_order_item_id := 1; next_kot_id := 1;
          next_kot_item_id := 1 |} |}.

(** A world with no open transaction. *)
Definition world_of (d : database) (fs : list bool) (l : link) : world :=
  {| db := d; transaction := None; faults := fs;
     wire := fun _ _ => l |}.

Definition the_entropy : entropy :=
  {| order_time := 1700000000000; order_random := 417;
     kot_time := 1700000000003; kot_random := 12 |}.

Definition line (id qty : Z) : order_line :=
  {| menu_item_id := id; quantity := qty; special_instructions := None |}.

Definition request (lines : list order_line) : order_request :=
  {| table_id := Some 12; session_id := None;
     customer_name := Some "John Doe"; order_type := "Dine-in";
     items := lines; order_special_instructions := None |}.

(** An order of user 7 for the given lines, placed at a fixed time. *)
Abbreviation place lines w :=
  (create_order decimal_literal the_entropy 1700000000100 7 (request lines) w)
  (only parsing).

(** The shop after one order of a pizza, three espressos and an hour of
    pool, placed while the kitchen printer was unplugged: order 1 and
    ticket 1 are [Pending], the ticket has three lines. *)
Definition busy_shop : database :=
  Eval vm_compute in
    db (snd (place [line 1 1; line 2 3; line 4 1]
               (world_of empty_shop [] LinkDown))).


(** The same shop once lines 1 and 2 of ticket 1 are [Ready]. *)
Definition two_ready_shop : database :=
  Eval vm_compute in
    db (snd (Kots.update_kot_item_status 1700000000300 1 2 "Ready"
               (snd (Kots.update_kot_item_status 1700000000200 1 1 "Ready"
                       (world_of busy_shop [] LinkUp))))).

(** The busy shop once line 1 of ticket 1 is [Served]. *)
Definition served_shop : database :=
  Eval vm_compute in
    db (snd (Kots.update_kot_item_status 1700000000200 1 1 "Served"
               (world_of busy_shop [] LinkUp))).

(** The busy shop once ticket 1 is [Ready]. *)
Definition ready_shop : database :=
  Eval vm_compute in
    db (snd (Kots.update_kot_status 1700000000200 1 "Ready"
               (world_of busy_shop [] LinkUp))).

(** The empty shop with its only printer switched off in the
    [printers] table: no printer is mapped, none is online. *)
Definition no_printer_shop : database :=
  {| rows := with_printers [set_is_online false kitchen_printer]
               (rows empty_shop);
     auto_increment := auto_increment empty_shop |}.


(** A receipt printer, and a bar printer for the hot drinks. *)
Definition receipt_printer : printer :=
  {| p_id := 2; p_name := "Receipt Printer"; p_type := "Receipt";
     p_ip_address := "192.168.1.101"; p_port := 9100;
     p_is_active := true; p_is_online := true;
     p_last_test_print := None |}.

Definition bar_printer : printer :=
  {| p_id := 3; p_name := "Bar Printer"; p_type := "Bar";
     p_ip_address := "192.168.1.102"; p_port := 9100;
     p_is_active := true; p_is_online := true;
     p_last_test_print := None |}.

Definition hot_drinks_at_the_bar : printer_category_mapping :=
  {| pcm_printer_id := 3; pcm_category_id := 2;
     pcm_subcategory_id := Some 5 |}.

(** The busy shop with the three printers; hot drinks are mapped to the
    bar printer. *)
Definition office_shop : database :=
  {| rows :=
       with_printer_category_mappings [hot_drinks_at_the_bar]
         (with_printers [kitchen_printer; receipt_printer; bar_printer]
            (rows busy_shop));
     auto_increment := auto_increment busy_shop |}.

(** The same shop with the bar printer mapped to the whole category of
    drinks. *)
Definition category_wide_shop : database :=
  {| rows :=
       with_printer_category_mappings
         [{| pcm_printer_id := 3; pcm_category_id := 2;
             pcm_subcategory_id := None |}]
         (rows office_shop);
     auto_increment := auto_increment office_shop |}.

(** A world in which the link to one address is in state [l] and the
    others are up. *)
Definition world_with_link (d : database) (ip : string) (l : link) : world :=
  {| db := d; transaction := None; faults := [];
     wire := fun a _ => if (a =? ip)%string then l else LinkUp |}.

(** A reader of dotted quads, for [isIP]: four decimal numbers up to 255
    without a leading zero.  (validator.js accepts IPv6 addresses as
    well; they are not addresses here.) *)
Fixpoint digits (s : string) (n : Z) : option Z :=
  match s with
  | EmptyString => Some n
  | String c rest =>
      match digit c with
      | Some v => digits rest (10 * n + v)
      | None => None
      end
  end.

Definition octet (s : string) : bool :=
  match s with
  | EmptyString => false
  | String c rest =>
      match digits s 0 with
      | Some n =>
          (n <=? 255)
          && (negb (Ascii.eqb c "0"%char) || (rest =? "")%string)
      | None => false
      end
  end.

Definition dotted_quad (s : string) : bool :=
  match Migrations.split "."%char s with
  | [a; b; c; d] => octet a && octet b && octet c && octet d
  | _ => false
  end.

(** [trim] on texts whose white space is the space, the tab and the line
    breaks. *)
Definition blank (c : Ascii.ascii) : bool :=
  let n := Z.of_nat (Ascii.nat_of_ascii c) in
  (n =? 32) || ((9 <=? n) && (n <=? 13)).

Definition trim_blanks : string -> string := Migrations.trim blank.

(** The request to add the bar printer, with the hot drinks mapped to
    it. *)
Definition bar_printer_body : Printers.printer_body :=
  {| Printers.name := "  Bar Printer ";
     Printers.type := "Bar";
     Printers.ip_address := "192.168.1.102";
     Printers.port := 9100;
     Printers.paper_size := "80mm";
     Printers.category_mappings :=
       [{| Printers.category_id := 2;
           Printers.subcategory_id := Some 5 |}] |}.

(** A request to update a printer that changes nothing. *)
Definition no_update : Printers.printer_update :=
  {| Printers.new_name := None; Printers.new_type := None;
     Printers.new_ip_address := None; Printers.new_port := None;
     Printers.new_paper_size := None; Printers.new_is_active := None;
     Printers.new_category_mappings := None |}.

(** The busy shop once ticket 1 was set to [Ready], which makes its
    lines [Ready], and then to [Served]. *)
Definition served_ticket_shop : database :=
  Eval vm_compute in
    db (snd (Kots.update_kot_status 1700000000500 1 "Served"
               (snd (Kots.update_kot_status 1700000000400 1 "Ready"
                       (world_of busy_shop [] LinkUp))))).

(** A request that carries every field of the body. *)
Definition full_request (lines : list order_line) : order_request :=
  {| table_id := Some 12; session_id := Some 3;
     customer_name := Some "John Doe"; order_type := "Dine-in";
     items := lines; order_special_instructions := Some "Window seat" |}.



End Sample.

(** * The vocabulary of the statements *)

Open Scope list_scope.

Module Run.

(** Two worlds of the same request: the same open transaction and the
    same printer links. *)
Definition same_session (w w' : world) : Prop :=
  transaction w' = transaction w /\ wire w' = wire w.

(** The world [w'] differs from [w] in its fault oracle only. *)
Definition only_faults (w w' : world) : Prop :=
  db w' = db w /\ transaction w' = transaction w /\ wire w' = wire w.

(** [post m w K E]: run from [w], the computation [m] returns a value and
    a world that satisfy [K], or throws an error in a world that
    satisfies [E]. *)
Definition post {A} (m : M A) (w : world)
    (K : A -> world -> Prop) (E : error -> world -> Prop) : Prop :=
  match m w with
  | (Ok a, w') => K a w'
  | (Throw e, w') => E e w'
  end.

End Run.

Module Status.

(** The statuses of a table after [UPDATE ... SET status = s] on the rows
    that [addressed] selects. *)
Definition statuses_after {A} (addressed : A -> bool)
    (status_of : A -> string) (s : string) (before : list A)
  : list string :=
  map (fun r => if addressed r then s else status_of r) before.

(** All lines of ticket [kotId] are [Ready]. *)
Definition all_lines_ready (kotId : Z) (t : tables) : Prop :=
  forall i, In i (kot_items t) -> ki_kot_id i = kotId ->
            ki_status i = "Ready".

(** The order has an active ticket: one that is not [Served] (a ticket
    has no cancelled status). *)
Definition has_active_ticket (orderId : Z) (t : tables) : bool :=
  existsb (fun k =>
    (k_order_id k =? orderId) && negb (k_status k =? "Served")%string)
    (kots t).

End Status.

Module Routing.

Import PrinterService.

(** [NoPrinterAvailable]: no active and online printer is mapped to a
    subcategory of the ticket, and no active and online kitchen printer
    exists. *)
Definition no_printer_available (kotId : Z) (t : tables) : Prop :=
  select_mapped_printers kotId t = [] /\ select_default_printers t = [].

(** The database after a successful print of ticket [kotId]. *)
Definition printed (now kotId : Z) (d : database) : database :=
  {| rows := mark_printed now kotId (rows d);
     auto_increment := auto_increment d |}.

End Routing.

(** ** What placing an order adds to the database *)

Module Placement.

Import Orders.

(** The priced lines of a request, or the first menu item that is
    missing or unavailable. *)
Fixpoint price_lines (t : tables) (items : list order_line)
  : Z + list priced_line :=
  match items with
  | [] => inr []
  | item :: rest =>
      match select_available_menu_item (menu_item_id item) t with
      | [] => inl (menu_item_id item)
      | menuItem :: _ =>
          match price_lines t rest with
          | inl id => inl id
          | inr lines => inr (priced menuItem item :: lines)
          end
      end
  end.

Definition sum_totals (lines : list priced_line) (subtotal : Q) : Q :=
  fold_left (fun s l => (s + pl_total_price l)%Q) lines subtotal.

Fixpoint order_item_rows (first orderId : Z) (lines : list priced_line)
  : list order_item :=
  match lines with
  | [] => []
  | l :: rest =>
      order_item_row first orderId l (Money.to_cents (pl_total_price l))
      :: order_item_rows (first + 1) orderId rest
  end.

Fixpoint kot_item_rows (t : tables) (first kotId : Z)
    (orderItems : list order_item) : list kot_item :=
  match orderItems with
  | [] => []
  | oi :: rest =>
      kot_item_row first kotId (oi_id oi)
        (hd "" (select_menu_item_name (oi_menu_item_id oi) t))
        (oi_quantity oi) (oi_special_instructions oi)
      :: kot_item_rows t (first + 1) kotId rest
  end.

Section Rows.

Variables (e : entropy) (user_id : Z) (body : order_request).
Variables (d : database) (lines : list priced_line) (rate : Q).

Let c := auto_increment d.
Let t := rows d.

Definition subtotal : Q := sum_totals lines 0.
Definition taxAmount : Q := (subtotal * rate / 100)%Q.
Definition total : Q := (subtotal + taxAmount)%Q.

Definition order_number : string :=
  ("ORD-" ++ decimal (order_time e) ++ "-" ++ decimal (order_random e))
    %string.

Definition kot_number : string :=
  ("KOT-" ++ decimal (kot_time e) ++ "-" ++ decimal (kot_random e))
    %string.

Definition new_order : order :=
  order_row (next_order_id c) order_number (table_id body)
    (session_id body) user_id (customer_name body) (order_type body)
    (Money.to_cents subtotal) (Money.to_cents taxAmount)
    (Money.to_cents total) (order_special_instructions body) user_id.

Definition new_order_items : list order_item :=
  order_item_rows (next_order_item_id c) (next_order_id c) lines.

Definition new_kot : kot :=
  kot_row (next_kot_id c) kot_number (next_order_id c)
    (categoryType
       (select_item_categories (map menu_item_id (items body)) t)).

(** The order items the handler reads back for the ticket. *)
Definition created_order_items : list order_item :=
  filter (fun oi => oi_order_id oi =? next_order_id c)
    (order_items t ++ new_order_items).

Definition new_kot_items : list kot_item :=
  kot_item_rows t (next_kot_item_id c) (next_kot_id c)
    created_order_items.

Definition rows_after : tables :=
  with_kot_items (kot_items t ++ new_kot_items)
    (with_kots (kots t ++ [new_kot])
       (with_order_items (order_items t ++ new_order_items)
          (with_orders (orders t ++ [new_order]) t))).

Definition counters_after : counters :=
  with_next_kot_item_id
    (next_kot_item_id c + Z.of_nat (List.length created_order_items))
    (with_next_kot_id (next_kot_id c + 1)
       (with_next_order_item_id
          (next_order_item_id c + Z.of_nat (List.length lines))
          (with_next_order_id (next_order_id c + 1) c))).

Definition placed_order : placed :=
  {| orderId := next_order_id c; orderNumber := order_number;
     kotNumber := kot_number; kotId := next_kot_id c;
     totalAmount := Some total |}.

End Rows.

(** The invariants that AUTO_INCREMENT and the foreign keys maintain:
    no row carries or refers to an identifier that is still to be given
    out. *)
Definition consistent (d : database) : Prop :=
  Forall (fun o => o_id o < next_order_id (auto_increment d))
    (orders (rows d)) /\
  Forall (fun i => oi_order_id i < next_order_id (auto_increment d))
    (order_items (rows d)) /\
  Forall (fun k => k_order_id k < next_order_id (auto_increment d) /\
                   k_id k < next_kot_id (auto_increment d))
    (kots (rows d)) /\
  Forall (fun i => ki_kot_id i < next_kot_id (auto_increment d))
    (kot_items (rows d)).



(** A priced line of a request line: its total is its unit price times
    its quantity, and the unit price is that of an available menu item
    with the identifier of the line. *)
Definition line_of (t : tables) (item : order_line) (l : priced_line)
  : Prop :=
  pl_menu_item_id l = menu_item_id item /\
  pl_quantity l = quantity item /\
  pl_total_price l
  = (Money.of_cents (pl_unit_price l) * inject_Z (pl_quantity l))%Q /\
  exists m, In m (menu_items t) /\ mi_id m = menu_item_id item /\
            mi_is_available m = true /\ pl_unit_price l = mi_price m.


Definition prices_nonneg (t : tables) : Prop :=
  Forall (fun m => 0 <= mi_price m) (menu_items t).

(** The response for a menu item that is missing or unavailable. *)
Definition unavailable (id : Z) : response :=
  BadRequest
    ("Menu item " ++ decimal id ++ " not found or unavailable")%string.

Section Outcome.

Variable parseFloat : string -> option Q.
Variables (e : entropy) (user_id : Z) (body : order_request).

(** The transaction has ended without an error: it was abandoned and
    the rows are those of [w], or it has added the order of the
    request to the database of [w]. *)
Definition transaction_ended (w : world) (t : transaction_end)
    (w' : world) : Prop :=
  wire w' = wire w /\ transaction w' = None /\
  match t with
  | Returned r =>
      rows (db w') = rows (db w) /\
      ((r = ValidationErrors /\ valid_order_request body = false) \/
       (exists id, r = unavailable id /\
                   valid_order_request body = true /\
                   price_lines (rows (db w)) (items body) = inl id))
  | Committed p =>
      valid_order_request body = true /\
      exists lines rate,
        price_lines (rows (db w)) (items body) = inr lines /\
        tax_rate_of parseFloat (select_setting "tax_rate" (rows (db w)))
        = Some rate /\
        db w' = {| rows := rows_after e user_id body (db w) lines rate;
                   auto_increment := counters_after (db w) lines |} /\
        p = placed_order e (db w) lines rate
  end.

(** The transaction has thrown: it is still open on the rows of [w],
    or it was never opened. *)
Definition transaction_thrown (w : world) (w' : world) : Prop :=
  wire w' = wire w /\
  (transaction w' = Some (rows (db w)) \/
   (transaction w' = None /\ rows (db w') = rows (db w))).

End Outcome.

End Placement.

(** * Vocabulary of the routes of the printers, the menu and the
    migration *)

Module Effects.

Import PrinterService.

(** The database after a successful test print on a printer, and after a
    failed one. *)
Definition tested (now printerId : Z) (d : database) : database :=
  {| rows := mark_tested now printerId (rows d);
     auto_increment := auto_increment d |}.

Definition offline (printerId : Z) (d : database) : database :=
  {| rows := mark_offline printerId (rows d);
     auto_increment := auto_increment d |}.

(** The printer is mapped to the subcategory of a menu item that is on a
    line of the ticket. *)
Definition serves (kotId : Z) (t : tables) (p : printer) : Prop :=
  exists pcm sc mi oi ki,
    In pcm (printer_category_mappings t) /\ In sc (subcategories t) /\
    In mi (menu_items t) /\ In oi (order_items t) /\ In ki (kot_items t) /\
    pcm_printer_id pcm = p_id p /\
    pcm_subcategory_id pcm = Some (sc_id sc) /\
    mi_subcategory_id mi = sc_id sc /\
    oi_menu_item_id oi = mi_id mi /\
    ki_order_item_id ki = oi_id oi /\
    ki_kot_id ki = kotId.

(** The printer can be used: it is active and marked online. *)
Definition usable (p : printer) : Prop :=
  p_is_active p = true /\ p_is_online p = true.

(** [isPrinterConnected()] resolves to [true] on the link. *)
Definition answers (l : link) : bool :=
  match l with
  | LinkUp | LinkStalls => true
  | LinkDown | LinkBroken => false
  end.

(** The printer a print of ticket [kotId] goes to: a usable printer that
    serves the ticket, or, when no usable printer serves it, a usable
    kitchen printer. *)
Definition chosen (kotId : Z) (t : tables) (id : Z) : Prop :=
  exists p,
    In p (printers t) /\ p_id p = id /\ usable p /\
    (serves kotId t p \/
     (p_type p = "Kitchen" /\
      forall q, In q (printers t) -> usable q -> ~ serves kotId t q)).

End Effects.

Module PrinterEffects.

Import Printers.

(** The rows after a printer and its mappings are added. *)
Definition printer_added (insertId : Z) (name : string)
    (body : printer_body) (t : tables) : tables :=
  with_printer_category_mappings
    (printer_category_mappings t
     ++ map (mapping_row insertId) (category_mappings body))
    (with_printers
       (printers t
        ++ [printer_row insertId name (type body) (ip_address body)
              (port body)]) t).

(** The foreign keys of a mapping of the request refer to rows of
    [categories] and [subcategories]. *)
Definition known (t : tables) (m : mapping) : Prop :=
  (exists c, In c (categories t) /\ c_id c = category_id m) /\
  forall s, or_null (subcategory_id m) = Some s ->
            exists sc, In sc (subcategories t) /\ sc_id sc = s.

(** The rows after the mappings of a printer are replaced. *)
Definition mappings_replaced (printerId : Z) (mappings : list mapping)
    (t : tables) : tables :=
  with_printer_category_mappings
    (delete_where (fun m => pcm_printer_id m =? printerId)
       (printer_category_mappings t)
     ++ map (mapping_row printerId) mappings) t.

(** The rows after "Update printer" has run all its statements. *)
Definition printer_updated (printerId : Z) (body : printer_update)
    (t : tables) : tables :=
  let t1 :=
    if has_values body then update_printer_row body printerId t else t in
  match new_category_mappings body with
  | Some mappings => mappings_replaced printerId mappings t1
  | None => t1
  end.

(** The rows after a printer is deleted. *)
Definition printer_deleted (printerId : Z) (t : tables) : tables :=
  with_printers
    (delete_where (fun p => p_id p =? printerId) (printers t))
    (delete_mappings printerId t).

(** How "Add new printer" ends: the validation errors, and nothing has
    run; the printer with its mappings, all of which refer to known
    categories; or an error, and the transaction is rolled back. *)
Definition add_printer_outcome (valid : bool) (insertId : Z)
    (name : string) (body : printer_body) (w : world) (r : reply)
    (w' : world) : Prop :=
  wire w' = wire w /\ transaction w' = None /\
  ((r = (400, Errors) /\ valid = false /\ w' = w) \/
   (r = (201, Added "Printer added successfully" insertId) /\
    valid = true /\
    Forall (fun p => p_id p <> insertId) (printers (rows (db w))) /\
    Forall (known (rows (db w))) (category_mappings body) /\
    rows (db w') = printer_added insertId name body (rows (db w))) \/
   (r = (500, ErrorMessage "Internal server error") /\ valid = true /\
    rows (db w') = rows (db w))).

(** How "Update printer" ends; [body] is the sanitised body. *)
Definition update_printer_outcome (valid : bool) (printerId : Z)
    (body : printer_update) (w : world) (r : reply) (w' : world) : Prop :=
  wire w' = wire w /\ transaction w' = None /\
  ((r = (400, Errors) /\ valid = false /\ w' = w) \/
   (r = (200, Message "Printer updated successfully") /\ valid = true /\
    rows (db w') = printer_updated printerId body (rows (db w))) \/
   (r = (500, ErrorMessage "Internal server error") /\ valid = true /\
    rows (db w') = rows (db w))).

(** How "Delete printer" ends. *)
Definition delete_printer_outcome (printerId : Z) (w : world) (r : reply)
    (w' : world) : Prop :=
  wire w' = wire w /\ transaction w' = None /\
  ((r = (404, ErrorMessage "Printer not found") /\
    select_printer printerId (rows (db w)) = [] /\
    rows (db w') = rows (db w)) \/
   (r = (200, Message "Printer deleted successfully") /\
    select_printer printerId (rows (db w)) <> [] /\
    rows (db w') = printer_deleted printerId (rows (db w))) \/
   (r = (500, ErrorMessage "Internal server error") /\
    rows (db w') = rows (db w))).

(** What the status check finds when no statement fails: the printer is
    active and its link answers. *)
Definition reachable (printerId : Z) (w : world) : bool :=
  match PrinterService.select_active_printer printerId (rows (db w)) with
  | p :: _ => Effects.answers (wire w (p_ip_address p) (p_port p))
  | [] => false
  end.

End PrinterEffects.

Module MenuEffects.

Import Menu.

(** The rows after a menu item is deleted: the lines of orders for the
    item and the lines of tickets for those lines are gone with it. *)
Definition menu_item_deleted (id : Z) (t : tables) : tables :=
  with_menu_items
    (delete_where (fun m => mi_id m =? id) (menu_items t))
    (with_order_items
       (delete_where (fun oi => oi_menu_item_id oi =? id) (order_items t))
       (with_kot_items
          (delete_where (on_ticket (ordered id t)) (kot_items t)) t)).

(** The rows after a menu item is updated; [cents] is the new price. *)
Definition menu_item_updated (body : item_update) (cents : option Z)
    (itemId : Z) (t : tables) : tables :=
  with_menu_items
    (update_where (fun m => mi_id m =? itemId) (set_updates body cents)
       (menu_items t)) t.

(** The rows after a menu item is added. *)
Definition menu_item_added (insertId subcategory_id : Z) (name : string)
    (price : Q) (t : tables) : tables :=
  with_menu_items
    (menu_items t
     ++ [menu_item_row insertId subcategory_id name (Money.to_cents price)])
    t.

(** The rows after a subcategory is added. *)
Definition subcategory_added (insertId category_id : Z) (name : string)
    (t : tables) : tables :=
  with_subcategories
    (subcategories t
     ++ [{| sc_id := insertId; sc_category_id := category_id;
            sc_name := name |}]) t.

(** The new value of the column [price], if the request has one. *)
Definition new_price (body : item_update) : option Z :=
  option_map Money.to_cents (price body).

(** How "Update menu item" ends; [body] is the sanitised body. *)
Definition update_menu_item_outcome (valid : bool) (itemId : Z)
    (body : item_update) (w : world) (r : reply) (w' : world) : Prop :=
  (r = (400, Errors) /\ valid = false /\ w' = w) \/
  (r = (400, ErrorMessage "No valid fields to update") /\ valid = true /\
   no_values body = true /\ w' = w) \/
  (r = (404, ErrorMessage "Menu item not found") /\ valid = true /\
   Forall (fun m => mi_id m <> itemId) (menu_items (rows (db w))) /\
   db w' = db w) \/
  (r = (200, Message "Menu item updated successfully") /\ valid = true /\
   no_values body = false /\
   rows (db w') = menu_item_updated body (new_price body) itemId
                    (rows (db w))) \/
  (r = (500, ErrorMessage "Internal server error") /\ valid = true /\
   db w' = db w).

End MenuEffects.

Module Tickets.

Import Orders.

(** The automatic print is on: the setting [kot_auto_print] exists and
    its value is the text [true]. *)
Definition auto_print_on (t : tables) : bool :=
  match select_setting "kot_auto_print" t with
  | s :: _ => (setting_value s =? "true")%string
  | [] => false
  end.

(** A line of a ticket is the copy of a line of the request: its
    quantity, its instructions once they are trimmed (the empty text is
    NULL), and the name of a menu item with its identifier. *)
Definition ticket_line_of (trim : string -> string) (t : tables)
    (item : order_line) (ki : kot_item) : Prop :=
  ki_quantity ki = quantity item /\
  ki_special_instructions ki
  = match special_instructions item with
    | Some text => if (trim text =? "")%string then None else Some (trim text)
    | None => None
    end /\
  ki_status ki = "Pending" /\
  exists m, In m (menu_items t) /\ mi_id m = menu_item_id item /\
            ki_menu_item_name ki = mi_name m.

End Tickets.

Module Amounts.

Import Orders.


(** The amount fits a [DECIMAL(10,2)] column with a cent to spare: the
    handler computes its amounts in floating point, and what it stores
    can be a cent off the exact amount. *)
Definition clear (x : Q) : Prop :=
  Z.abs (Money.to_cents x) < Money.max_decimal_10_2.



End Amounts.

Module Categories.

Import Orders.

(** [name] is the name of the category of menu item [id]: of the
    category of the subcategory of a menu item with that identifier. *)
Definition category_of (t : tables) (id : Z) (name : string) : Prop :=
  exists mi sc c,
    In mi (menu_items t) /\ mi_id mi = id /\
    In sc (subcategories t) /\ sc_id sc = mi_subcategory_id mi /\
    In c (categories t) /\ c_id c = sc_category_id sc /\
    c_name c = name.

(** [name] is a category name of the order: the name of the category
    of the menu item of one of its lines. *)
Definition ordered_category (t : tables) (items : list order_line)
    (name : string) : Prop :=
  exists item, In item items /\ category_of t (menu_item_id item) name.

End Categories.

Module PrintRoutes.

Import PrinterService.

(** The response of a route that hands a print to the service: status
    200 with the result of the service, or status 500 with the message
    of the error that the service has thrown. *)
Definition answered {A} (ok : A -> json) (outcome : result A) (r : reply)
  : Prop :=
  match outcome with
  | Ok a => r = (200, ok a)
  | Throw e => r = (500, ErrorMessage (error_message e))
  end.

End PrintRoutes.

Module Taxes.

Import Doubles.




(** An amount in cents. *)
Definition cents (x : Q) : Q := (x * 100)%Q.


End Taxes.

Module Migrated.

(** The database after the statements of a migration: a statement that
    fails, by an injected fault or because the database refuses it, is
    left out, and those after it run. *)
Fixpoint migrated (sql : string -> database -> option (unit * database))
    (statements : list string) (fs : list bool) (d : database) : database :=
  match statements with
  | [] => d
  | statement :: rest =>
      migrated sql rest (tl fs)
        (if hd false fs then d
         else
           match sql statement d with
           | Some (_, d') => d'
           | None => d
           end)
  end.

(** The character occurs in the text. *)
Fixpoint occurs (c : ascii) (s : string) : Prop :=
  match s with
  | EmptyString => False
  | String c' rest => c' = c \/ occurs c rest
  end.

End Migrated.

(** * Rounding to cents *)

Module MoneyFacts.

Import Money.

Lemma div_same_ratio (a b a' b' : Z) :
  0 < b -> 0 < b' -> a * b' = a' * b -> a / b = a' / b'.
Proof.
  intros Hb Hb' E.
  rewrite <- (Z.div_mul_cancel_r a b b') by lia.
  rewrite <- (Z.div_mul_cancel_r a' b' b) by lia.
  rewrite E. f_equal. lia.
Qed.

(** The rounded value depends on the number only, not on the fraction
    that denotes it. *)
Lemma round_half_away_Qeq (x y : Q) :
  (x == y)%Q -> round_half_away x = round_half_away y.
Proof.
  unfold Qeq, round_half_away.
  destruct x as [n d], y as [n' d']; cbn [Qnum Qden].
  intros E.
  assert (Hs : Z.sgn n = Z.sgn n').
  { apply (f_equal Z.sgn) in E. rewrite !Z.sgn_mul in E. simpl in E.
    rewrite !Z.mul_1_r in E. exact E. }
  assert (Ha : Z.abs n * Zpos d' = Z.abs n' * Zpos d).
  { apply (f_equal Z.abs) in E. rewrite !Z.abs_mul in E. exact E. }
  rewrite Hs. f_equal.
  set (a := Z.abs n) in *. set (a' := Z.abs n') in *. clearbody a a'.
  apply div_same_ratio; lia.
Qed.




Lemma round_half_away_nonneg (x : Q) :
  (0 <= x)%Q -> 0 <= round_half_away x.
Proof.
  unfold Qle, round_half_away. destruct x as [n d]; cbn [Qnum Qden].
  intros H. rewrite Z.mul_1_r in H. change (0 * Zpos d) with 0 in H.
  assert (0 <= (2 * Z.abs n + Zpos d) / (2 * Zpos d))
    by (apply Z.div_pos; lia).
  nia.
Qed.

(** Exactly half-way the value goes away from zero, where truncation
    drops the half. *)
Lemma round_half_away_tie (k : Z) :
  0 <= k ->
  round_half_away (inject_Z k + (1 # 2)) = k + 1 /\
  round_half_away (- (inject_Z k + (1 # 2))) = - (k + 1) /\
  truncate (inject_Z k + (1 # 2)) = k.
Proof.
  intros Hk.
  assert (E1 : (inject_Z k + (1 # 2) == (2 * k + 1) # 2)%Q)
    by (unfold Qeq, Qplus, inject_Z; cbn [Qnum Qden]; lia).
  assert (E2 : (- (inject_Z k + (1 # 2)) == (- (2 * k + 1)) # 2)%Q)
    by (unfold Qeq, Qplus, Qopp, inject_Z; cbn [Qnum Qden]; lia).
  apply round_half_away_Qeq in E1, E2. rewrite E1, E2.
  unfold round_half_away, truncate, Qplus, inject_Z; cbn [Qnum Qden].
  rewrite Z.sgn_pos, Z.sgn_neg by lia.
  rewrite Z.abs_opp, Z.abs_eq by lia.
  replace (2 * (2 * k + 1) + 2) with ((k + 1) * (2 * 2)) by lia.
  rewrite Z.div_mul by lia.
  repeat split; try lia.
  change (Z.pos (1 * 2)) with 2.
  symmetry. apply Z.quot_unique with (r := 1); lia.
Qed.

(** Truncation depends on the number only. *)
Lemma truncate_half (x : Q) (k : Z) :
  0 <= k -> (x == inject_Z k + (1 # 2))%Q -> truncate x = k.
Proof.
  intros Hk E. unfold truncate.
  unfold Qeq, Qplus, inject_Z in E; cbn [Qnum Qden] in E.
  change (Z.pos (1 * 2)) with 2 in E.
  symmetry.
  apply Z.quot_unique with (r := Qnum x - k * Z.pos (Qden x)); nia.
Qed.




Lemma to_cents_nonneg (x : Q) : (0 <= x)%Q -> 0 <= to_cents x.
Proof.
  intros H. apply round_half_away_nonneg.
  apply Qmult_le_0_compat; [exact H | discriminate].
Qed.



Lemma decimal_10_2_Some (x : option Q) (c : Z) :
  decimal_10_2 x = Some c ->
  exists q, x = Some q /\ c = to_cents q /\ Z.abs c <= max_decimal_10_2.
Proof.
  unfold decimal_10_2. destruct x as [q |]; [| discriminate].
  destruct (Z.leb_spec (Z.abs (to_cents q)) max_decimal_10_2);
    [| discriminate].
  intros [= <-]. exists q. auto.
Qed.

End MoneyFacts.

(** * How a handler runs *)

Module RunFacts.

Import Run.

Lemma same_session_refl w : same_session w w.
Proof. split; reflexivity. Qed.

Lemma only_faults_refl w : only_faults w w.
Proof. repeat split. Qed.

Lemma only_faults_pop w w' :
  only_faults (pop_fault w) w' -> only_faults w w'.
Proof. exact (fun H => H). Qed.

Lemma no_faults_next w : faults w = [] -> next_fault w = false.
Proof. unfold next_fault. intros ->. reflexivity. Qed.

Lemma execute_run {A} (stmt : database -> option (A * database)) w r w' :
  execute stmt w = (r, w') ->
  same_session w w' /\ faults w' = tl (faults w) /\
  match r with
  | Ok a => next_fault w = false /\ stmt (db w) = Some (a, db w')
  | Throw e => e = DbError /\ db w' = db w
  end.
Proof.
  unfold execute, same_session. destruct (next_fault w).
  - intros [= <- <-]. simpl. auto.
  - destruct (stmt (db w)) as [[a d] |]; intros [= <- <-]; simpl; auto.
Qed.

Lemma query_run {A} (q : tables -> A) w r w' :
  query q w = (r, w') ->
  same_session w w' /\ faults w' = tl (faults w) /\ db w' = db w /\
  match r with
  | Ok a => next_fault w = false /\ a = q (rows (db w))
  | Throw e => e = DbError
  end.
Proof.
  unfold query. intros H. apply execute_run in H.
  destruct H as (S & F & H). split; [exact S | split; [exact F |]].
  destruct r as [a | e]; destruct H as [H1 H2].
  - injection H2 as <- <-. auto.
  - auto.
Qed.

Lemma update_run (f : tables -> tables) w r w' :
  update f w = (r, w') ->
  same_session w w' /\ faults w' = tl (faults w) /\
  match r with
  | Ok _ =>
      next_fault w = false /\
      db w' = {| rows := f (rows (db w));
                 auto_increment := auto_increment (db w) |}
  | Throw e => e = DbError /\ db w' = db w
  end.
Proof.
  unfold update. intros H. apply execute_run in H.
  destruct H as (S & F & H). split; [exact S | split; [exact F |]].
  destruct r as [a | e]; destruct H as [H1 H2].
  - injection H2 as <-. auto.
  - auto.
Qed.

Lemma rollback_run w r w' :
  rollback w = (r, w') ->
  r = Ok tt /\ transaction w' = None /\ wire w' = wire w /\
  faults w' = faults w /\
  auto_increment (db w') = auto_increment (db w) /\
  rows (db w') =
    match transaction w with
    | Some t => t
    | None => rows (db w)
    end.
Proof.
  unfold rollback. destruct (transaction w) eqn:T; intros [= <- <-];
    simpl; auto 10.
Qed.

(** Without injected faults a statement succeeds. *)
Lemma update_no_faults (f : tables -> tables) w :
  faults w = [] ->
  update f w =
    (Ok tt,
     set_db {| rows := f (rows (db w));
               auto_increment := auto_increment (db w) |} w).
Proof.
  intros F. unfold update, execute. rewrite (no_faults_next w F).
  unfold pop_fault, set_db. rewrite F. simpl. destruct w; simpl in *.
  subst. reflexivity.
Qed.

Lemma query_no_faults {A} (q : tables -> A) w :
  faults w = [] -> query q w = (Ok (q (rows (db w))), w).
Proof.
  intros F. unfold query, execute. rewrite (no_faults_next w F).
  unfold pop_fault, set_db. rewrite F. simpl. destruct w; simpl in *.
  subst. reflexivity.
Qed.

(** The rules of [post], one for each construct of the handlers. *)

Lemma post_weaken {A} (m : M A) w (K K' : A -> world -> Prop)
    (E E' : error -> world -> Prop) :
  post m w K E ->
  (forall a w', K a w' -> K' a w') ->
  (forall e w', E e w' -> E' e w') ->
  post m w K' E'.
Proof.
  unfold post. destruct (m w) as [[a | e] w']; auto.
Qed.

Lemma post_ret {A} (a : A) w (K : A -> world -> Prop) E :
  K a w -> post (ret a) w K E.
Proof. exact (fun H => H). Qed.

Lemma post_throw {A} (e : error) w (K : A -> world -> Prop)
    (E : error -> world -> Prop) :
  E e w -> post (throw e : M A) w K E.
Proof. exact (fun H => H). Qed.

Lemma post_bind {A B} (m : M A) (k : A -> M B) w
    (K : B -> world -> Prop) E :
  post m w (fun a w1 => post (k a) w1 K E) E -> post (bind m k) w K E.
Proof.
  unfold post, bind. destruct (m w) as [[a | e] w1]; auto.
Qed.

Lemma post_try_catch {A} (m : M A) (h : error -> M A) w
    (K : A -> world -> Prop) E :
  post m w K (fun e w1 => post (h e) w1 K E) -> post (try_catch m h) w K E.
Proof.
  unfold post, try_catch. destruct (m w) as [[a | e] w1]; auto.
Qed.

Lemma post_execute {A} (stmt : database -> option (A * database)) w
    (K : A -> world -> Prop) (E : error -> world -> Prop) :
  E DbError (pop_fault w) ->
  (forall a d, next_fault w = false -> stmt (db w) = Some (a, d) ->
               K a (set_db d (pop_fault w))) ->
  post (execute stmt) w K E.
Proof.
  intros HE HK. unfold post, execute.
  destruct (next_fault w); [exact HE |].
  destruct (stmt (db w)) as [[a d] |]; auto.
Qed.

Lemma post_query {A} (q : tables -> A) w
    (K : A -> world -> Prop) (E : error -> world -> Prop) :
  E DbError (pop_fault w) ->
  (next_fault w = false -> K (q (rows (db w))) (pop_fault w)) ->
  post (query q) w K E.
Proof.
  intros HE HK. unfold post, query, execute.
  destruct (next_fault w); auto.
Qed.

Lemma post_update (f : tables -> tables) w
    (K : unit -> world -> Prop) (E : error -> world -> Prop) :
  E DbError (pop_fault w) ->
  (next_fault w = false ->
   K tt (set_db {| rows := f (rows (db w));
                   auto_increment := auto_increment (db w) |}
           (pop_fault w))) ->
  post (update f) w K E.
Proof.
  intros HE HK. unfold post, update, execute.
  destruct (next_fault w); auto.
Qed.

Lemma post_beginTransaction w
    (K : unit -> world -> Prop) (E : error -> world -> Prop) :
  E DbError (pop_fault w) ->
  (next_fault w = false ->
   K tt (set_transaction (Some (rows (db w))) (pop_fault w))) ->
  post beginTransaction w K E.
Proof.
  intros HE HK. unfold post, beginTransaction.
  destruct (next_fault w); auto.
Qed.

Lemma post_commit w (K : unit -> world -> Prop) (E : error -> world -> Prop) :
  E DbError (pop_fault w) ->
  (next_fault w = false -> K tt (set_transaction None (pop_fault w))) ->
  post commit w K E.
Proof.
  intros HE HK. unfold post, commit. destruct (next_fault w); auto.
Qed.

Lemma post_rollback w (K : unit -> world -> Prop)
    (E : error -> world -> Prop) :
  (forall w',
      transaction w' = None -> wire w' = wire w -> faults w' = faults w ->
      auto_increment (db w') = auto_increment (db w) ->
      rows (db w') = match transaction w with
                     | Some t => t
                     | None => rows (db w)
                     end ->
      K tt w') ->
  post rollback w K E.
Proof.
  intros HK. unfold post.
  destruct (rollback w) as [r w'] eqn:R. apply rollback_run in R.
  destruct R as (-> & R1 & R2 & R3 & R4 & R5). apply HK; assumption.
Qed.

Lemma post_isPrinterConnected ip port w
    (K : bool -> world -> Prop) (E : error -> world -> Prop) :
  (forall b, K b w) -> (forall e, E e w) ->
  post (isPrinterConnected ip port) w K E.
Proof.
  intros HK HE. unfold post, isPrinterConnected.
  destruct (wire w ip port); auto.
Qed.

Lemma post_printer_execute ip port w
    (K : unit -> world -> Prop) (E : error -> world -> Prop) :
  K tt w -> (forall e, E e w) ->
  post (printer_execute ip port) w K E.
Proof.
  intros HK HE. unfold post, printer_execute.
  destruct (wire w ip port); auto.
Qed.

End RunFacts.

(** * Status updates *)

Module StatusFacts.

Import Status Kots.

Lemma update_where_statuses {A} (addressed : A -> bool) (f : A -> A)
    (status_of : A -> string) (s : string) (l : list A) :
  (forall r, status_of (f r) = s) ->
  map status_of (update_where addressed f l)
  = statuses_after addressed status_of s l.
Proof.
  intros Hf. unfold update_where, statuses_after. rewrite map_map.
  apply map_ext. intros r. destruct (addressed r); auto.
Qed.

Lemma update_where_Forall {A} (addressed : A -> bool) (f : A -> A)
    (P : A -> Prop) (l : list A) :
  (forall r, addressed r = true -> P (f r)) ->
  (forall r, addressed r = false -> P r) ->
  Forall P (update_where addressed f l).
Proof.
  intros Hy Hn. unfold update_where. apply Forall_forall.
  intros x Hx. apply in_map_iff in Hx. destruct Hx as (r & <- & _).
  destruct (addressed r) eqn:E; auto.
Qed.

(** The count of the handler is zero exactly when all lines of the
    ticket are [Ready]. *)
Lemma count_not_ready_zero kotId t :
  count_not_ready kotId t = 0 <-> all_lines_ready kotId t.
Proof.
  unfold count_not_ready, all_lines_ready.
  induction (kot_items t) as [| i l IH]; simpl.
  - split; [intros _ j [] | reflexivity].
  - destruct (Z.eqb_spec (ki_kot_id i) kotId) as [E | E];
      destruct (String.eqb_spec (ki_status i) "Ready") as [R | R]; simpl.
    + rewrite IH. split.
      * intros H j [<- | Hj] Hk; auto.
      * intros H j Hj; apply H; auto.
    + split; [lia |]. intros H. exfalso. apply R, H; auto.
    + rewrite IH. split.
      * intros H j [<- | Hj] Hk; [contradiction | auto].
      * intros H j Hj; apply H; auto.
    + rewrite IH. split.
      * intros H j [<- | Hj] Hk; [contradiction | auto].
      * intros H j Hj; apply H; auto.
Qed.

End StatusFacts.

Module StatusTheorems.

Import Run RunFacts Status StatusFacts Orders Kots Sample.

(** C9.  Each of the three status updates answers a value outside its
    enumerated set with the validation errors and runs no statement (the
    world is untouched); a value inside the set is accepted, and every
    row the request addresses carries it afterwards whatever its status
    was: no transition is refused. *)
Theorem status_updates_check_the_value_only
    (now : Z) (status : string) (w : world) :
  (forall orderId,
      (includes order_statuses status = false ->
       update_order_status orderId status w = (Ok ValidationErrors, w)) /\
      (includes order_statuses status = true -> faults w = [] ->
       exists w',
         update_order_status orderId status w
         = (Ok (Success "Order status updated successfully"), w') /\
         map o_status (orders (rows (db w')))
         = statuses_after (fun o => o_id o =? orderId) o_status status
             (orders (rows (db w))))) /\
  (forall kotId,
      (includes kot_statuses status = false ->
       update_kot_status now kotId status w = (Ok ValidationErrors, w)) /\
      (includes kot_statuses status = true -> faults w = [] ->
       exists w',
         update_kot_status now kotId status w
         = (Ok (Success "KOT status updated successfully"), w') /\
         map k_status (kots (rows (db w')))
         = statuses_after (fun k => k_id k =? kotId) k_status status
             (kots (rows (db w))))) /\
  (forall kotId itemId,
      (includes kot_item_statuses status = false ->
       update_kot_item_status now kotId itemId status w
       = (Ok ValidationErrors, w)) /\
      (includes kot_item_statuses status = true -> faults w = [] ->
       exists w',
         update_kot_item_status now kotId itemId status w
         = (Ok (Success "KOT item status updated successfully"), w') /\
         map ki_status (kot_items (rows (db w')))
         = statuses_after
             (fun i => (ki_id i =? itemId) && (ki_kot_id i =? kotId))
             ki_status status (kot_items (rows (db w))))).
Proof.
  split; [| split].
  - intros orderId. split.
    + intros V. unfold update_order_status, try_catch. rewrite V.
      reflexivity.
    + intros V F. unfold update_order_status, try_catch, bind.
      rewrite V. cbn [negb]. cbv beta iota.
      rewrite (update_no_faults _ w F).
      eexists. split; [reflexivity |]. simpl.
      apply update_where_statuses. reflexivity.
  - intros kotId. split.
    + intros V. unfold update_kot_status, try_catch. rewrite V.
      reflexivity.
    + intros V F. unfold update_kot_status, try_catch, bind.
      rewrite V. cbn [negb]. cbv beta iota.
      rewrite (update_no_faults _ w F).
      destruct (status =? "Ready")%string.
      * rewrite update_no_faults by exact F.
        eexists. split; [reflexivity |]. simpl.
        apply update_where_statuses. reflexivity.
      * eexists. split; [reflexivity |]. simpl.
        apply update_where_statuses. reflexivity.
  - intros kotId itemId. split.
    + intros V. unfold update_kot_item_status, try_catch. rewrite V.
      reflexivity.
    + intros V F. unfold update_kot_item_status, try_catch, bind.
      rewrite V. cbn [negb]. cbv beta iota.
      rewrite (update_no_faults _ w F).
      destruct (status =? "Ready")%string.
      * rewrite query_no_faults by exact F.
        match goal with
        | |- context [if ?c then _ else _] => destruct c
        end.
        -- rewrite update_no_faults by exact F.
           eexists. split; [reflexivity |]. simpl.
           apply update_where_statuses. reflexivity.
        -- eexists. split; [reflexivity |]. simpl.
           apply update_where_statuses. reflexivity.
      * eexists. split; [reflexivity |]. simpl.
        apply update_where_statuses. reflexivity.
Qed.

(** A ticket that is [Ready] goes back to [Pending]. *)
Lemma status_updates_check_the_value_only_witness :
  includes kot_statuses "Pending" = true /\
  faults (world_of ready_shop [] LinkUp) = [] /\
  map k_status (kots (rows ready_shop)) = ["Ready"] /\
  exists w',
    update_kot_status 1700000000400 1 "Pending"
      (world_of ready_shop [] LinkUp)
    = (Ok (Success "KOT status updated successfully"), w') /\
    map k_status (kots (rows (db w'))) = ["Pending"].
Proof.
  split; [reflexivity |]. split; [reflexivity |]. split; [reflexivity |].
  destruct (status_updates_check_the_value_only 1700000000400 "Pending"
              (world_of ready_shop [] LinkUp)) as (_ & H & _).
  destruct (proj2 (H 1) eq_refl eq_refl) as (w' & H1 & H2).
  exists w'. split; [exact H1 |]. rewrite H2. reflexivity.
Defined.

(** C10.  Setting a ticket to [Ready] sets every line of that ticket to
    [Ready], whatever the line was (also [Served]), and gives the ticket
    its completion time; the lines of other tickets keep their status.
    For any other requested status no ticket line changes. *)
Theorem kot_ready_sets_every_line_ready
    (now kotId : Z) (status : string) (w : world) :
  (status = "Ready" -> faults w = [] ->
   exists w',
     update_kot_status now kotId status w
     = (Ok (Success "KOT status updated successfully"), w') /\
     kot_items (rows (db w'))
     = update_where (fun i => ki_kot_id i =? kotId)
         (set_status_kot_item "Ready") (kot_items (rows (db w))) /\
     Forall (fun i => ki_kot_id i = kotId -> ki_status i = "Ready")
       (kot_items (rows (db w'))) /\
     Forall (fun k => k_id k = kotId ->
               k_status k = "Ready" /\ k_completed_at k = Some now)
       (kots (rows (db w')))) /\
  (status <> "Ready" ->
   kot_items (rows (db (snd (update_kot_status now kotId status w))))
   = kot_items (rows (db w))).
Proof.
  split.
  - intros -> F. unfold update_kot_status, try_catch, bind.
    cbn [includes kot_statuses existsb String.eqb Ascii.eqb Bool.eqb orb
         negb].
    cbv beta iota. rewrite (update_no_faults _ w F).
    rewrite update_no_faults by exact F.
    eexists. split; [reflexivity |]. simpl. split; [reflexivity |]. split.
    + apply update_where_Forall.
      * reflexivity.
      * intros i E H. apply Z.eqb_neq in E. contradiction.
    + apply update_where_Forall.
      * intros k _ _. split; reflexivity.
      * intros k E H. apply Z.eqb_neq in E. contradiction.
  - intros N. apply String.eqb_neq in N.
    unfold update_kot_status, try_catch, bind. rewrite N.
    destruct (includes kot_statuses status); cbn [negb]; cbv beta iota.
    + unfold update, execute. destruct (next_fault w); reflexivity.
    + reflexivity.
Qed.

(** Ticket 1 has a line that is [Served] and two that are [Pending]; all
    three are [Ready] once the ticket is set to [Ready]. *)
Lemma kot_ready_sets_every_line_ready_witness :
  faults (world_of served_shop [] LinkUp) = [] /\
  map ki_status (kot_items (rows served_shop))
  = ["Served"; "Pending"; "Pending"] /\
  exists w',
    update_kot_status 1700000000400 1 "Ready"
      (world_of served_shop [] LinkUp)
    = (Ok (Success "KOT status updated successfully"), w') /\
    map ki_status (kot_items (rows (db w'))) = ["Ready"; "Ready"; "Ready"].
Proof.
  split; [reflexivity |]. split; [reflexivity |].
  destruct (proj1 (kot_ready_sets_every_line_ready 1700000000400 1 "Ready"
                     (world_of served_shop [] LinkUp)) eq_refl eq_refl)
    as (w' & H1 & H2 & _).
  exists w'. split; [exact H1 |]. rewrite H2. reflexivity.
Defined.

(** C2.  An update of a ticket line that leaves all lines of the ticket
    [Ready] makes the ticket [Ready] and sets its completion time, when
    the request asked for [Ready] or addressed a line of the ticket (it
    then asked for [Ready]); an update that leaves a line of the ticket
    not [Ready] leaves every ticket row as it was. *)
Theorem last_ready_line_makes_ticket_ready
    (now kotId itemId : Z) (status : string) (w : world) :
  includes kot_item_statuses status = true ->
  let w' := snd (update_kot_item_status now kotId itemId status w) in
  (faults w = [] ->
   fst (update_kot_item_status now kotId itemId status w)
   = Ok (Success "KOT item status updated successfully") /\
   kot_items (rows (db w'))
   = update_where (fun i => (ki_id i =? itemId) && (ki_kot_id i =? kotId))
       (set_status_kot_item status) (kot_items (rows (db w))) /\
   (all_lines_ready kotId (rows (db w')) ->
    status = "Ready" \/
    (exists i, In i (kot_items (rows (db w))) /\
               ki_id i = itemId /\ ki_kot_id i = kotId) ->
    kots (rows (db w'))
    = update_where (fun k => k_id k =? kotId)
        (fun k => set_completed_at (Some now) (set_status_kot "Ready" k))
        (kots (rows (db w))) /\
    Forall (fun k => k_id k = kotId ->
              k_status k = "Ready" /\ k_completed_at k = Some now)
      (kots (rows (db w'))))) /\
  (~ all_lines_ready kotId (rows (db w')) ->
   kots (rows (db w')) = kots (rows (db w))).
Proof.
  intros V w'. split.
  - intros F. subst w'.
    unfold update_kot_item_status, try_catch, bind. rewrite V.
    cbn [negb]. cbv beta iota. rewrite (update_no_faults _ w F).
    destruct (String.eqb_spec status "Ready") as [R | R].
    + rewrite query_no_faults by exact F.
      match goal with
      | |- context [if ?c =? 0 then _ else _] =>
          destruct (Z.eqb_spec c 0) as [C | C]
      end.
      * rewrite update_no_faults by exact F. cbn [fst snd].
        split; [reflexivity |]. split; [reflexivity |].
        intros _ _. split; [reflexivity |]. simpl.
        apply update_where_Forall.
        -- intros k _ _. split; reflexivity.
        -- intros k E H. apply Z.eqb_neq in E. contradiction.
      * cbn [fst snd]. split; [reflexivity |]. split; [reflexivity |].
        intros A. exfalso. apply C. apply count_not_ready_zero. exact A.
    + cbn [fst snd]. split; [reflexivity |]. split; [reflexivity |].
      intros A [-> | (i & Hi & <- & <-)]; [contradiction |].
      exfalso. apply R.
      specialize (A (set_status_kot_item status i)). simpl in A.
      apply A; [| reflexivity].
      unfold update_where. apply in_map_iff. exists i.
      rewrite !Z.eqb_refl. auto.
  - subst w'. unfold update_kot_item_status, try_catch, bind, ret.
    rewrite V. cbn [negb]. cbv beta iota.
    destruct (update (set_kot_item_status status itemId kotId) w)
      as [[[] | e] w1] eqn:E1;
      apply update_run in E1; destruct E1 as (_ & _ & _ & D1);
      [| cbn [snd]; intros _; rewrite D1; reflexivity].
    destruct (status =? "Ready")%string.
    + destruct (query (count_not_ready kotId) w1) as [[c | e] w2] eqn:E2;
        apply query_run in E2; destruct E2 as (_ & _ & D2 & E2).
      * destruct E2 as [_ ->].
        destruct (Z.eqb_spec (count_not_ready kotId (rows (db w1))) 0)
          as [C | C].
        -- destruct (update (set_kot_ready now kotId) w2)
             as [[[] | e] w3] eqn:E3;
             apply update_run in E3; destruct E3 as (_ & _ & _ & D3);
             cbn [fst snd]; rewrite D3, D2.
           ++ intros N. exfalso. apply N. simpl.
              apply count_not_ready_zero in C. exact C.
           ++ intros _. rewrite D1. reflexivity.
        -- cbn [fst snd]. intros _. rewrite D2, D1. reflexivity.
      * cbn [fst snd]. intros _. rewrite D2, D1. reflexivity.
    + cbn [fst snd]. intros _. rewrite D1. reflexivity.
Qed.

(** A ticket of three lines, two of them [Ready]: when the third becomes
    [Ready] the ticket is [Ready] and has its completion time. *)
Lemma last_ready_line_makes_ticket_ready_witness :
  let w := world_of two_ready_shop [] LinkUp in
  let w' := snd (update_kot_item_status 1700000000400 1 3 "Ready" w) in
  includes kot_item_statuses "Ready" = true /\
  faults w = [] /\
  map ki_status (kot_items (rows two_ready_shop))
  = ["Ready"; "Ready"; "Pending"] /\
  map k_status (kots (rows two_ready_shop)) = ["Pending"] /\
  all_lines_ready 1 (rows (db w')) /\
  Forall (fun k => k_id k = 1 ->
            k_status k = "Ready" /\ k_completed_at k = Some 1700000000400)
    (kots (rows (db w'))).
Proof.
  intros w w'.
  assert (A : all_lines_ready 1 (rows (db w')))
    by (apply count_not_ready_zero; reflexivity).
  split; [reflexivity |]. split; [reflexivity |]. split; [reflexivity |].
  split; [reflexivity |]. split; [exact A |].
  destruct (last_ready_line_makes_ticket_ready 1700000000400 1 3 "Ready" w
              eq_refl) as [H _].
  destruct (H eq_refl) as (_ & _ & H').
  apply H'; [exact A | left; reflexivity].
Defined.

(** C6, as the specification has it, fails.  Order 1 of the busy shop has a
    ticket that is [Pending]; were completion guarded, the request to
    complete the order would not be answered with success and the order
    would stay as it is.  The request is answered with success. *)
Lemma order_completed_despite_active_ticket :
  let w := world_of busy_shop [] LinkUp in
  ~ (has_active_ticket 1 (rows (db w)) = true ->
     (forall message,
         fst (update_order_status 1 "Completed" w) <> Ok (Success message)) /\
     orders (rows (db (snd (update_order_status 1 "Completed" w))))
     = orders (rows (db w))).
Proof.
  intros w H. destruct (H eq_refl) as [A _].
  apply (A "Order status updated successfully"). reflexivity.
Qed.

(** C6, amended.  A request to set an order to [Completed] is accepted
    whether or not the order has an active ticket: the order row takes
    the status, and no ticket and no ticket line is read or changed. *)
Theorem order_completion_ignores_tickets (orderId : Z) (w : world) :
  faults w = [] ->
  exists w',
    update_order_status orderId "Completed" w
    = (Ok (Success "Order status updated successfully"), w') /\
    orders (rows (db w'))
    = update_where (fun o => o_id o =? orderId)
        (set_status_order "Completed") (orders (rows (db w))) /\
    kots (rows (db w')) = kots (rows (db w)) /\
    kot_items (rows (db w')) = kot_items (rows (db w)) /\
    has_active_ticket orderId (rows (db w'))
    = has_active_ticket orderId (rows (db w)).
Proof.
  intros F. unfold update_order_status, try_catch, bind.
  cbn [includes order_statuses existsb String.eqb Ascii.eqb Bool.eqb orb
       negb].
  cbv beta iota. rewrite (update_no_faults _ w F).
  eexists. split; [reflexivity |]. repeat split.
Qed.

Lemma order_completion_ignores_tickets_witness :
  let w := world_of busy_shop [] LinkUp in
  faults w = [] /\
  exists w',
    update_order_status 1 "Completed" w
    = (Ok (Success "Order status updated successfully"), w') /\
    map o_status (orders (rows (db w'))) = ["Completed"] /\
    has_active_ticket 1 (rows (db w')) = true.
Proof.
  intros w. split; [reflexivity |].
  destruct (order_completion_ignores_tickets 1 w eq_refl)
    as (w' & H1 & H2 & _ & _ & H5).
  exists w'. split; [exact H1 |]. rewrite H2, H5. split; reflexivity.
Defined.

End StatusTheorems.

(** * Printing *)

Module PrinterFacts.

Import Run RunFacts Routing PrinterService Orders Sample.

Lemma initializePrinter_post printerId w
    (K : printer -> world -> Prop) (E : error -> world -> Prop) :
  (forall e, E e (pop_fault w)) ->
  (forall p, next_fault w = false ->
             In p (printers (rows (db w))) -> p_id p = printerId ->
             K p (pop_fault w)) ->
  post (initializePrinter printerId) w K E.
Proof.
  intros HE HK. unfold initializePrinter. apply post_bind, post_query.
  - apply HE.
  - intros F.
    destruct (select_active_printer printerId (rows (db w)))
      as [| p l] eqn:S.
    + apply post_throw, HE.
    + apply post_ret.
      assert (H : In p (select_active_printer printerId (rows (db w))))
        by (rewrite S; left; reflexivity).
      unfold select_active_printer in H. apply filter_In in H.
      destruct H as [H1 H2]. apply andb_true_iff in H2.
      apply HK; auto. apply Z.eqb_eq, H2.
Qed.

(** A print of a ticket either succeeds, and the only change is that the
    ticket is marked as printed, or it throws, and the database is what
    it was: neither the ticket nor a printer row is written. *)
Lemma printKOT_post now kotId w :
  post (printKOT now kotId) w
    (fun _ w' => same_session w w' /\ db w' = printed now kotId (db w))
    (fun _ w' => same_session w w' /\ db w' = db w).
Proof.
  unfold printKOT.
  apply post_bind, post_query; [split; [split |]; reflexivity |]. intros _.
  destruct (select_kot_details kotId (rows (db w))) as [| kd l];
    [apply post_throw; split; [split |]; reflexivity |].
  apply post_bind, post_query; [split; [split |]; reflexivity |]. intros _.
  apply post_bind, post_query; [split; [split |]; reflexivity |]. intros _.
  apply post_bind.
  match goal with
  | |- post (match ?l with [] => _ | _ :: _ => _ end) ?w0 _ _ =>
      apply post_weaken with
        (K := fun (_ : Z) w1 => same_session w w1 /\ db w1 = db w)
        (E := fun (_ : error) w1 => same_session w w1 /\ db w1 = db w);
      [destruct l as [| p ps] | |]
  end.
  - apply post_bind, post_query; [split; [split |]; reflexivity |].
    intros _.
    match goal with
    | |- post (match ?l with [] => _ | _ :: _ => _ end) _ _ _ =>
        destruct l
    end.
    + apply post_throw; split; [split |]; reflexivity.
    + apply post_ret; split; [split |]; reflexivity.
  - apply post_ret; split; [split |]; reflexivity.
  - intros printerId w1 [S1 D1].
    apply post_bind, initializePrinter_post.
    + intros _. split; [exact S1 | exact D1].
    + intros p _ _ _.
      apply post_bind, post_isPrinterConnected;
        [| intros _; split; [exact S1 | exact D1]].
      intros [|].
      * apply post_bind, post_printer_execute;
          [| intros _; split; [exact S1 | exact D1]].
        apply post_bind, post_update; [split; [exact S1 | exact D1] |].
        intros _. apply post_ret. split; [exact S1 |].
        unfold printed. simpl. simpl in D1. rewrite D1. reflexivity.
      * apply post_throw. split; [exact S1 | exact D1].
  - auto.
Qed.

(** Without an available printer the print throws. *)
Lemma printKOT_no_printer now kotId w :
  no_printer_available kotId (rows (db w)) ->
  post (printKOT now kotId) w (fun _ _ => False) (fun _ _ => True).
Proof.
  intros [N1 N2]. unfold printKOT.
  apply post_bind, post_query; [exact I |]. intros _.
  destruct (select_kot_details kotId (rows (db w))) as [| kd l];
    [apply post_throw; exact I |].
  apply post_bind, post_query; [exact I |]. intros _.
  apply post_bind, post_query; [exact I |]. intros _.
  change (rows (db (pop_fault (pop_fault w)))) with (rows (db w)).
  rewrite N1.
  apply post_bind, post_bind, post_query; [exact I |]. intros _.
  change (rows (db (pop_fault (pop_fault (pop_fault w)))))
    with (rows (db w)).
  rewrite N2. apply post_throw. exact I.
Qed.

(** The step after the commit throws only when the read of the
    [kot_auto_print] setting fails; otherwise the database is left as it
    was or the ticket is marked as printed. *)
Lemma auto_print_kot_post now kotId w :
  post (auto_print_kot now kotId) w
    (fun _ w' =>
       next_fault w = false /\ same_session w w' /\
       (db w' = db w \/
        (db w' = printed now kotId (db w) /\
         exists pid wp, printKOT now kotId (pop_fault w) = (Ok pid, wp))))
    (fun _ w' => next_fault w = true /\ same_session w w' /\ db w' = db w).
Proof.
  unfold auto_print_kot. apply post_bind.
  unfold post at 1, query, execute.
  destruct (next_fault w) eqn:F.
  { split; [reflexivity |]. split; [split |]; reflexivity. }
  set (w1 := set_db (db w) (pop_fault w)).
  assert (E1 : w1 = pop_fault w) by reflexivity.
  destruct (select_setting "kot_auto_print" (rows (db w))) as [| s l].
  { apply post_ret. split; [reflexivity |].
    split; [split; reflexivity |]. left. reflexivity. }
  destruct (setting_value s =? "true")%string.
  2:{ apply post_ret. split; [reflexivity |].
      split; [split; reflexivity |]. left. reflexivity. }
  apply post_try_catch, post_bind.
  pose proof (printKOT_post now kotId w1) as H.
  unfold post in H |- *.
  destruct (printKOT now kotId w1) as [[pid | e0] wp] eqn:R.
  - destruct H as [S D]. apply post_ret. split; [reflexivity |].
    split; [exact S |]. right. split; [exact D |].
    exists pid, wp. rewrite <- E1. exact R.
  - destruct H as [S D]. apply post_ret. split; [reflexivity |].
    split; [exact S |]. left. exact D.
Qed.

Lemma printed_keeps_rows now kotId d :
  orders (rows (printed now kotId d)) = orders (rows d) /\
  order_items (rows (printed now kotId d)) = order_items (rows d) /\
  kot_items (rows (printed now kotId d)) = kot_items (rows d) /\
  printers (rows (printed now kotId d)) = printers (rows d) /\
  map k_id (kots (rows (printed now kotId d))) = map k_id (kots (rows d)).
Proof.
  repeat split; cbn; unfold update_where; rewrite map_map;
    apply map_ext; intros k; destruct (k_id k =? kotId); reflexivity.
Qed.

(** C8.  The print of ticket 1 of the busy shop on its kitchen printer,
    the link to the printer being down: [printKOT] throws, the ticket is
    untouched, and the printer is still marked online.  A test print on
    the same printer, in the same state, marks it offline. *)
Theorem failed_print_leaves_printer_online :
  let w := world_of busy_shop [] LinkDown in
  fst (printKOT 1700000000200 1 w)
  = Throw (JsError "Printer not connected") /\
  kots (rows (db (snd (printKOT 1700000000200 1 w))))
  = kots (rows busy_shop) /\
  map p_is_online (printers (rows busy_shop)) = [true] /\
  map p_is_online (printers (rows (db (snd (printKOT 1700000000200 1 w)))))
  = [true] /\
  fst (testPrinter 1700000000200 1 w)
  = Throw (JsError "Test print failed: Printer not connected") /\
  map p_is_online
    (printers (rows (db (snd (testPrinter 1700000000200 1 w)))))
  = [false].
Proof. repeat split. Qed.

(** The same with a link that refuses the connection and with one that
    times out while the ticket is sent. *)
Lemma failed_print_on_any_broken_link :
  forallb (fun l =>
    let w := world_of busy_shop [] l in
    forallb p_is_online
      (printers (rows (db (snd (printKOT 1700000000200 1 w))))) &&
    forallb (fun k => (k_status k =? "Pending")%string)
      (kots (rows (db (snd (printKOT 1700000000200 1 w))))) &&
    forallb (fun p => negb (p_is_online p))
      (printers (rows (db (snd (testPrinter 1700000000200 1 w))))))
    [LinkDown; LinkBroken; LinkStalls] = true.
Proof. reflexivity. Qed.

(** On a link that is up the ticket becomes [Printed] and gets its print
    time. *)
Lemma successful_print_marks_ticket :
  let w := world_of busy_shop [] LinkUp in
  fst (printKOT 1700000000200 1 w) = Ok 1 /\
  map (fun k => (k_status k, k_printed_at k))
    (kots (rows (db (snd (printKOT 1700000000200 1 w)))))
  = [("Printed", Some 1700000000200)].
Proof. repeat split. Qed.

End PrinterFacts.

(** * Placing an order *)

Module OrderFacts.

Import Run RunFacts Routing Orders Placement MoneyFacts PrinterFacts
  Categories.

(** ** The three loops *)

Lemma calculate_totals_post items :
  forall subtotal acc w
         (K : Z + Q * list priced_line -> world -> Prop)
         (E : error -> world -> Prop),
    (forall w', only_faults w w' -> E DbError w') ->
    (forall id w', only_faults w w' ->
                   price_lines (rows (db w)) items = inl id ->
                   K (inl id) w') ->
    (forall lines w', only_faults w w' ->
                      price_lines (rows (db w)) items = inr lines ->
                      K (inr (sum_totals lines subtotal, acc ++ lines)) w') ->
    post (calculate_totals items subtotal acc) w K E.
Proof.
  induction items as [| item rest IH]; intros subtotal acc w K E HE Hl Hr.
  - apply post_ret. specialize (Hr [] w (only_faults_refl w) eq_refl).
    rewrite app_nil_r in Hr. exact Hr.
  - cbn [calculate_totals]. apply post_bind, post_query.
    + apply HE, only_faults_pop, only_faults_refl.
    + intros _.
      destruct (select_available_menu_item (menu_item_id item)
                  (rows (db w))) as [| menuItem others] eqn:S.
      * apply post_ret. apply Hl.
        -- apply only_faults_pop, only_faults_refl.
        -- cbn [price_lines]. rewrite S. reflexivity.
      * apply IH.
        -- intros w' H. apply HE, H.
        -- intros id w' H P. apply Hl; [exact H |].
           cbn [price_lines]. rewrite S.
           change (rows (db (pop_fault w))) with (rows (db w)) in P.
           rewrite P. reflexivity.
        -- intros lines w' H P.
           change (rows (db (pop_fault w))) with (rows (db w)) in P.
           rewrite <- app_assoc.
           apply (Hr (priced menuItem item :: lines) w' H).
           cbn [price_lines]. rewrite S, P. reflexivity.
Qed.

Lemma with_order_items_same t : with_order_items (order_items t) t = t.
Proof. destruct t; reflexivity. Qed.

Lemma with_kot_items_same t : with_kot_items (kot_items t) t = t.
Proof. destruct t; reflexivity. Qed.

Lemma with_next_order_item_id_same c :
  with_next_order_item_id (next_order_item_id c) c = c.
Proof. destruct c; reflexivity. Qed.

Lemma with_next_kot_item_id_same c :
  with_next_kot_item_id (next_kot_item_id c) c = c.
Proof. destruct c; reflexivity. Qed.

Lemma database_eta d :
  {| rows := rows d; auto_increment := auto_increment d |} = d.
Proof. destruct d; reflexivity. Qed.

Lemma create_order_items_post orderId lines :
  forall w (K : unit -> world -> Prop) (E : error -> world -> Prop),
    (forall w', same_session w w' -> E DbError w') ->
    (forall w',
        same_session w w' ->
        db w' =
          {| rows :=
               with_order_items
                 (order_items (rows (db w)) ++
                  order_item_rows
                    (next_order_item_id (auto_increment (db w))) orderId
                    lines)
                 (rows (db w));
             auto_increment :=
               with_next_order_item_id
                 (next_order_item_id (auto_increment (db w))
                  + Z.of_nat (List.length lines))
                 (auto_increment (db w)) |} ->
        K tt w') ->
    post (create_order_items orderId lines) w K E.
Proof.
  induction lines as [| l rest IH]; intros w K E HE HK.
  - apply post_ret, HK; [apply same_session_refl |].
    cbn [order_item_rows List.length Z.of_nat].
    rewrite app_nil_r, Z.add_0_r, with_order_items_same,
      with_next_order_item_id_same, database_eta.
    reflexivity.
  - cbn [create_order_items]. apply post_bind, post_execute.
    + apply HE. split; reflexivity.
    + intros [] d _ I. unfold insert_order_item in I.
      destruct (Money.decimal_10_2 (Some (pl_total_price l)))
        as [total |] eqn:T; [| discriminate].
      apply decimal_10_2_Some in T.
      destruct T as (q & [= <-] & -> & _).
      injection I as <-.
      apply IH.
      * intros w' [S1 S2]. apply HE. split; [exact S1 | exact S2].
      * intros w' [S1 S2] D. apply HK; [split; [exact S1 | exact S2] |].
        rewrite D. cbn. rewrite <- app_assoc. cbn [app].
        f_equal. unfold with_next_order_item_id. cbn. f_equal. lia.
Qed.

Lemma kot_item_rows_menu t t' first kotId ois :
  menu_items t' = menu_items t ->
  kot_item_rows t' first kotId ois = kot_item_rows t first kotId ois.
Proof.
  intros M. revert first.
  induction ois as [| oi rest IH]; intros first; cbn [kot_item_rows].
  - reflexivity.
  - unfold select_menu_item_name. rewrite M, IH. reflexivity.
Qed.

Lemma create_kot_items_post kotId ois :
  forall w (K : unit -> world -> Prop) (E : error -> world -> Prop),
    (forall e w', same_session w w' -> E e w') ->
    (forall w',
        same_session w w' ->
        db w' =
          {| rows :=
               with_kot_items
                 (kot_items (rows (db w)) ++
                  kot_item_rows (rows (db w))
                    (next_kot_item_id (auto_increment (db w))) kotId ois)
                 (rows (db w));
             auto_increment :=
               with_next_kot_item_id
                 (next_kot_item_id (auto_increment (db w))
                  + Z.of_nat (List.length ois))
                 (auto_increment (db w)) |} ->
        K tt w') ->
    post (create_kot_items kotId ois) w K E.
Proof.
  induction ois as [| oi rest IH]; intros w K E HE HK.
  - apply post_ret, HK; [apply same_session_refl |].
    cbn [kot_item_rows List.length Z.of_nat].
    rewrite app_nil_r, Z.add_0_r, with_kot_items_same,
      with_next_kot_item_id_same, database_eta.
    reflexivity.
  - cbn [create_kot_items]. apply post_bind, post_query.
    + apply HE. split; reflexivity.
    + intros _.
      destruct (select_menu_item_name (oi_menu_item_id oi) (rows (db w)))
        as [| name others] eqn:S.
      * apply post_throw, HE. split; reflexivity.
      * apply post_bind, post_execute.
        -- apply HE. split; reflexivity.
        -- intros [] d _ I. unfold insert_kot_item in I.
           injection I as <-.
           apply IH.
           ++ intros e w' [S1 S2]. apply HE. split; [exact S1 | exact S2].
           ++ intros w' [S1 S2] D.
              apply HK; [split; [exact S1 | exact S2] |].
              rewrite D. cbn [kot_item_rows]. rewrite S. cbn [hd].
              cbn [db rows auto_increment set_db pop_fault kot_items
                   with_kot_items next_kot_item_id with_next_kot_item_id].
              rewrite <- app_assoc. cbn [app].
              rewrite (kot_item_rows_menu (rows (db w))) by reflexivity.
              f_equal. unfold with_next_kot_item_id.
              cbn [next_order_id next_order_item_id next_kot_id
                   next_kot_item_id List.length].
              f_equal. lia.
Qed.

(** ** The transaction *)

Section Transaction.

Variable parseFloat : string -> option Q.
Variables (e : entropy) (user_id : Z) (body : order_request).

Lemma order_transaction_post w :
  transaction w = None ->
  post (order_transaction parseFloat e user_id body) w
    (transaction_ended parseFloat e user_id body w)
    (fun _ w' => transaction_thrown w w').
Proof.
  intros T0. unfold order_transaction.
  apply post_bind, post_beginTransaction.
  { split; [reflexivity |]. right. split; [exact T0 | reflexivity]. }
  intros _.
  set (w1 := set_transaction (Some (rows (db w))) (pop_fault w)).
  assert (T1 : transaction w1 = Some (rows (db w))) by reflexivity.
  assert (W1 : wire w1 = wire w) by reflexivity.
  assert (D1 : db w1 = db w) by reflexivity.
  clearbody w1.
  destruct (valid_order_request body) eqn:V; cbn [negb].
  2:{ apply post_bind, post_rollback. intros w' T W _ _ R.
      apply post_ret. split; [congruence |]. split; [exact T |].
      rewrite T1 in R. split; [exact R |]. left. auto. }
  apply post_bind, calculate_totals_post.
  { intros w' (D & T & W). split; [congruence |]. left. congruence. }
  { intros id w' (D & T & W) P.
    apply post_bind, post_rollback. intros w'' T' W' _ _ R.
    apply post_ret. split; [congruence |]. split; [exact T' |].
    rewrite T, T1 in R. split; [exact R |]. right. exists id.
    rewrite D1 in P. auto. }
  intros lines w2 (D2 & T2 & W2) P. rewrite D1 in P.
  cbn [app].
  apply post_bind, post_query.
  { split; [cbn; congruence |]. left. cbn. congruence. }
  intros _.
  apply post_bind, post_execute.
  { split; [cbn; congruence |]. left. cbn. congruence. }
  intros orderId d _ I.
  cbn [db pop_fault] in I. rewrite D2, D1 in I.
  unfold insert_order in I.
  destruct (existsb _ (orders (rows (db w)))); [discriminate |].
  destruct (Money.decimal_10_2 (Some (sum_totals lines 0)))
    as [s |] eqn:Es; [| discriminate].
  destruct (tax_rate_of parseFloat
              (select_setting "tax_rate" (rows (db w))))
    as [rate |] eqn:Er; [| discriminate].
  cbn [option_map] in I.
  destruct (Money.decimal_10_2 (Some (sum_totals lines 0 * rate / 100)%Q))
    as [tx |] eqn:Et; [| discriminate].
  destruct (Money.decimal_10_2
              (Some (sum_totals lines 0
                     + sum_totals lines 0 * rate / 100)%Q))
    as [tot |] eqn:Eo; [| discriminate].
  apply decimal_10_2_Some in Es, Et, Eo.
  destruct Es as (? & [= <-] & -> & _).
  destruct Et as (? & [= <-] & -> & _).
  destruct Eo as (? & [= <-] & -> & _).
  injection I as <- <-.
  match goal with
  | |- post _ (set_db ?d ?w0) _ _ =>
      set (dA := d); set (wA := set_db dA w0)
  end.
  assert (TA : transaction wA = Some (rows (db w)))
    by (cbn; congruence).
  assert (WA : wire wA = wire w) by (cbn; congruence).
  assert (DA : db wA = dA) by reflexivity.
  clearbody wA.
  apply post_bind, create_order_items_post.
  { intros w' [S1 S2]. split; [congruence |]. left. congruence. }
  intros w3 [T3 W3] D3. rewrite DA in D3.
  apply post_bind, post_query.
  { split; [cbn; congruence |]. left. cbn. congruence. }
  intros _.
  apply post_bind, post_execute.
  { split; [cbn; congruence |]. left. cbn. congruence. }
  intros kotId d' _ I. cbn [db pop_fault] in I.
  unfold insert_kot in I.
  destruct (existsb _ (kots (rows (db w3)))); [discriminate |].
  injection I as <- <-.
  match goal with
  | |- post _ (set_db ?d ?w0) _ _ =>
      set (dB := d); set (wB := set_db dB w0)
  end.
  assert (TB : transaction wB = Some (rows (db w)))
    by (cbn; congruence).
  assert (WB : wire wB = wire w) by (cbn; congruence).
  assert (DB : db wB = dB) by reflexivity.
  clearbody wB.
  apply post_bind, post_query.
  { split; [cbn; congruence |]. left. cbn. congruence. }
  intros _.
  set (wC := pop_fault wB).
  assert (TC : transaction wC = Some (rows (db w)))
    by (cbn; congruence).
  assert (WC : wire wC = wire w) by (cbn; congruence).
  assert (DC : db wC = dB) by (cbn; congruence).
  clearbody wC.
  apply post_bind, create_kot_items_post.
  { intros e0 w' [S1 S2]. split; [congruence |]. left. congruence. }
  intros w4 [T4 W4] D4. rewrite DC in D4.
  apply post_bind, post_commit.
  { split; [cbn; congruence |]. left. cbn. congruence. }
  intros _. apply post_ret.
  split; [cbn; congruence |]. split; [reflexivity |].
  split; [exact V |]. exists lines, rate.
  split; [exact P |]. split; [exact Er |].
  split.
  - change (db (set_transaction None (pop_fault w4))) with (db w4).
    rewrite D4, DB.
    rewrite (kot_item_rows_menu (rows (db w)))
      by (subst dB; rewrite D3; reflexivity).
    subst dB. rewrite D3. subst dA. reflexivity.
  - rewrite D3, D2, D1, Er. subst dA. reflexivity.
Qed.

(** A success response comes from a committed transaction: the rows
    are those of the placement, possibly with the ticket marked as
    printed. *)
Lemma create_order_created now w id number kot_no amount w' :
  transaction w = None ->
  create_order parseFloat e now user_id body w
  = (Ok (Created id number kot_no amount), w') ->
  exists lines rate,
    valid_order_request body = true /\
    price_lines (rows (db w)) (items body) = inr lines /\
    tax_rate_of parseFloat (select_setting "tax_rate" (rows (db w)))
    = Some rate /\
    (rows (db w') = rows_after e user_id body (db w) lines rate \/
     rows (db w')
     = PrinterService.mark_printed now
         (next_kot_id (auto_increment (db w)))
         (rows_after e user_id body (db w) lines rate)) /\
    id = next_order_id (auto_increment (db w)) /\
    number = order_number e /\ kot_no = kot_number e /\
    amount = Some (total lines rate).
Proof.
  intros T0 H. unfold create_order, try_catch, bind in H.
  destruct (order_transaction parseFloat e user_id body w)
    as [[t | err] wc] eqn:R;
    pose proof (order_transaction_post w T0) as X;
    unfold post in X; rewrite R in X.
  - destruct t as [resp | p].
    + destruct X as (_ & _ & _ & [[-> _] | (i & -> & _)]);
        unfold ret, unavailable in H; discriminate.
    + destruct X as (_ & _ & V & lines & rate & P & Er & D & ->).
      pose proof (auto_print_kot_post now
                    (kotId (placed_order e (db w) lines rate)) wc) as A.
      unfold post in A.
      destruct (auto_print_kot now
                  (kotId (placed_order e (db w) lines rate)) wc)
        as [[[] | e0] w1] eqn:RA.
      * unfold ret in H. injection H as <- <- <- <- <-.
        exists lines, rate. destruct A as (_ & _ & A).
        repeat split; try assumption.
        destruct A as [A | [A _]]; rewrite A, ?D; [left | right];
          reflexivity.
      * destruct (rollback w1) as [[[] | ?] ?]; unfold ret in H;
          discriminate.
  - destruct (rollback wc) as [[[] | ?] ?]; unfold ret in H; discriminate.
Qed.

End Transaction.

(** ** The rows of a placement *)

Lemma filter_none {A} (f : A -> bool) (l : list A) :
  Forall (fun x => f x = false) l -> filter f l = [].
Proof.
  induction 1 as [| x l H _ IH]; cbn; [reflexivity |].
  rewrite H. exact IH.
Qed.

Lemma filter_all {A} (f : A -> bool) (l : list A) :
  Forall (fun x => f x = true) l -> filter f l = l.
Proof.
  induction 1 as [| x l H _ IH]; cbn; [reflexivity |].
  rewrite H, IH. reflexivity.
Qed.


Lemma Forall_lt_neq {A} (f : A -> Z) (n : Z) (l : list A) :
  Forall (fun x => f x < n) l -> Forall (fun x => (f x =? n) = false) l.
Proof.
  apply Forall_impl. intros x H. apply Z.eqb_neq. lia.
Qed.

Lemma Forall_eq_eqb {A} (f : A -> Z) (n : Z) (l : list A) :
  Forall (fun x => f x = n) l -> Forall (fun x => (f x =? n) = true) l.
Proof.
  apply Forall_impl. intros x H. apply Z.eqb_eq. exact H.
Qed.


Lemma price_lines_lines t items :
  forall lines,
    price_lines t items = inr lines -> Forall2 (line_of t) items lines.
Proof.
  induction items as [| item rest IH]; cbn [price_lines]; intros lines H.
  - injection H as <-. constructor.
  - destruct (select_available_menu_item (menu_item_id item) t)
      as [| m others] eqn:S; [discriminate |].
    destruct (price_lines t rest) as [| ls]; [discriminate |].
    injection H as <-. constructor; [| apply IH; reflexivity].
    assert (M : In m (select_available_menu_item (menu_item_id item) t))
      by (rewrite S; left; reflexivity).
    unfold select_available_menu_item in M. apply filter_In in M.
    destruct M as [M1 M2]. apply andb_true_iff in M2.
    destruct M2 as [M2 M3]. apply Z.eqb_eq in M2.
    repeat split. exists m. auto.
Qed.


Lemma order_item_rows_order orderId lines :
  forall first,
    Forall (fun i => oi_order_id i = orderId)
      (order_item_rows first orderId lines).
Proof.
  induction lines as [| l rest IH]; intros first; cbn; constructor;
    [reflexivity | apply IH].
Qed.



Lemma kot_item_rows_kot t kotId ois :
  forall first,
    Forall (fun i => ki_kot_id i = kotId) (kot_item_rows t first kotId ois).
Proof.
  induction ois as [| oi rest IH]; intros first; cbn; constructor;
    [reflexivity | apply IH].
Qed.



Section InPlace.

Variables (e : entropy) (user_id : Z) (body : order_request).
Variables (d : database) (lines : list priced_line) (rate : Q).
Hypothesis C : consistent d.
Hypothesis P : price_lines (rows d) (items body) = inr lines.

Lemma created_order_items_new :
  created_order_items d lines = new_order_items d lines.
Proof.
  destruct C as (_ & C2 & _).
  unfold created_order_items. rewrite filter_app.
  rewrite filter_none by (apply Forall_lt_neq, C2).
  apply filter_all, Forall_eq_eqb, order_item_rows_order.
Qed.


End InPlace.


(** The order, the order items and the ticket that a success response
    stands for: the rows the request has added. *)
Lemma created_rows parseFloat e now user_id body w id number kot_no amount
    w' :
  transaction w = None ->
  create_order parseFloat e now user_id body w
  = (Ok (Created id number kot_no amount), w') ->
  exists lines rate,
    valid_order_request body = true /\
    Forall2 (line_of (rows (db w))) (items body) lines /\
    tax_rate_of parseFloat (select_setting "tax_rate" (rows (db w)))
    = Some rate /\
    orders (rows (db w'))
    = orders (rows (db w)) ++ [new_order e user_id body (db w) lines rate]
    /\
    order_items (rows (db w'))
    = order_items (rows (db w)) ++ new_order_items (db w) lines /\
    map k_category_type (kots (rows (db w')))
    = map k_category_type (kots (rows (db w)) ++ [new_kot e body (db w)])
    /\
    map k_order_id (kots (rows (db w')))
    = map k_order_id (kots (rows (db w)) ++ [new_kot e body (db w)]) /\
    id = next_order_id (auto_increment (db w)) /\
    amount = Some (total lines rate).
Proof.
  intros T0 H. apply create_order_created in H; [| exact T0].
  destruct H as (lines & rate & V & P & Er & D & -> & _ & _ & ->).
  exists lines, rate. apply price_lines_lines in P.
  split; [exact V |]. split; [exact P |]. split; [exact Er |].
  destruct D as [-> | ->]; repeat split; try reflexivity.
  - cbn. unfold update_where. rewrite map_map. apply map_ext.
    intros k. destruct (k_id k =? _); reflexivity.
  - cbn. unfold update_where. rewrite map_map. apply map_ext.
    intros k. destruct (k_id k =? _); reflexivity.
Qed.


(** ** The category type *)

Lemma includes_In values s : includes values s = true <-> In s values.
Proof.
  unfold includes. rewrite existsb_exists. split.
  - intros (x & H & E). apply String.eqb_eq in E. subst. exact H.
  - intros H. exists s. split; [exact H | apply String.eqb_refl].
Qed.

Lemma every_In (values categories : list string) :
  forallb (includes values) categories = true
  <-> (forall c, In c categories -> In c values).
Proof.
  rewrite forallb_forall. split; intros H c Hc; apply includes_In, H, Hc.
Qed.

Lemma select_item_categories_same_ids ids ids' t :
  (forall i, In i ids <-> In i ids') ->
  select_item_categories ids t = select_item_categories ids' t.
Proof.
  intros H. unfold select_item_categories. f_equal.
  apply flat_map_ext. intros mi.
  assert (E : existsb (Z.eqb (mi_id mi)) ids
              = existsb (Z.eqb (mi_id mi)) ids').
  { apply eq_true_iff_eq. rewrite !existsb_exists.
    split; intros (x & Hx & Ex); exists x; split; try exact Ex;
      apply H; exact Hx. }
  rewrite E. reflexivity.
Qed.

(** The rows of [SELECT DISTINCT c.name ...]: the names of the
    categories of the menu items, each once. *)
Lemma select_item_categories_In ids t name :
  In name (select_item_categories ids t)
  <-> exists id, In id ids /\ category_of t id name.
Proof.
  unfold select_item_categories, category_of. rewrite nodup_In, in_flat_map.
  split.
  - intros (mi & Hmi & H).
    destruct (existsb (Z.eqb (mi_id mi)) ids) eqn:X; [| destruct H].
    apply existsb_exists in X. destruct X as (id & Hid & E).
    apply Z.eqb_eq in E. apply in_flat_map in H.
    destruct H as (sc & Hsc & H).
    destruct (Z.eqb_spec (mi_subcategory_id mi) (sc_id sc)) as [E1 | E1];
      [| destruct H].
    apply in_flat_map in H. destruct H as (c & Hc & H).
    destruct (Z.eqb_spec (sc_category_id sc) (c_id c)) as [E2 | E2];
      [| destruct H].
    destruct H as [<- | []].
    exists id. split; [exact Hid |]. exists mi, sc, c. auto 10.
  - intros (id & Hid & mi & sc & c & Hmi & E & Hsc & E1 & Hc & E2 & <-).
    exists mi. split; [exact Hmi |].
    assert (X : existsb (Z.eqb (mi_id mi)) ids = true).
    { apply existsb_exists. exists id. split; [exact Hid |].
      apply Z.eqb_eq, E. }
    rewrite X. apply in_flat_map. exists sc. split; [exact Hsc |].
    rewrite <- E1, Z.eqb_refl. apply in_flat_map. exists c.
    split; [exact Hc |]. rewrite <- E2, Z.eqb_refl. left. reflexivity.
Qed.

Lemma ordered_category_ids t items name :
  ordered_category t items name
  <-> exists id, In id (map menu_item_id items) /\ category_of t id name.
Proof.
  unfold ordered_category. split.
  - intros (item & H & C). exists (menu_item_id item).
    split; [apply in_map, H | exact C].
  - intros (id & H & C). apply in_map_iff in H.
    destruct H as (item & <- & H). exists item. auto.
Qed.

End OrderFacts.

Module OrderTheorems.

Import Run RunFacts Routing Orders Placement MoneyFacts PrinterFacts
  OrderFacts Categories Sample.



(** Once the transaction of "Create new order" is committed and
    the [kot_auto_print] setting has been read, the response is the
    success response with the identifiers and the total of the order,
    whatever the print attempt does.  No order, order item, ticket or
    ticket line is removed; when no printer is available, or when the
    print attempt fails in any other way, the database is exactly the
    committed one. *)
Theorem printing_never_fails_the_order
    (parseFloat : string -> option Q) (e : entropy) (now user_id : Z)
    (body : order_request) (w wc : world) (p : placed) :
  order_transaction parseFloat e user_id body w = (Ok (Committed p), wc) ->
  next_fault wc = false ->
  exists w',
    create_order parseFloat e now user_id body w
    = (Ok (Created (orderId p) (orderNumber p) (kotNumber p)
             (totalAmount p)), w') /\
    orders (rows (db w')) = orders (rows (db wc)) /\
    order_items (rows (db w')) = order_items (rows (db wc)) /\
    kot_items (rows (db w')) = kot_items (rows (db wc)) /\
    map k_id (kots (rows (db w'))) = map k_id (kots (rows (db wc))) /\
    (no_printer_available (kotId p) (rows (db wc)) -> db w' = db wc) /\
    ((forall pid wp,
         PrinterService.printKOT now (kotId p) (pop_fault wc)
         <> (Ok pid, wp)) ->
     db w' = db wc).
Proof.
  intros H F. unfold create_order, try_catch, bind. rewrite H.
  pose proof (auto_print_kot_post now (kotId p) wc) as A.
  unfold post in A.
  destruct (auto_print_kot now (kotId p) wc) as [[[] | e0] w'] eqn:R.
  2:{ destruct A as [A _]. congruence. }
  destruct A as (_ & _ & A). exists w'. split; [reflexivity |].
  destruct A as [D | [D (pid & wp & X)]].
  - rewrite D. repeat split; reflexivity.
  - rewrite D.
    destruct (printed_keeps_rows now (kotId p) (db wc))
      as (P1 & P2 & P3 & _ & P5).
    split; [exact P1 |]. split; [exact P2 |]. split; [exact P3 |].
    split; [exact P5 |]. split.
    + intros N. exfalso.
      pose proof (@printKOT_no_printer now (kotId p) (pop_fault wc) N) as Q.
      unfold post in Q. rewrite X in Q. exact Q.
    + intros N. exfalso. exact (N pid wp X).
Qed.

(** An order placed in the shop whose only printer is offline, with
    auto-print on: [NoPrinterAvailable], and the order is created. *)
Lemma printing_never_fails_the_order_witness :
  let w := world_of no_printer_shop [] LinkUp in
  exists p wc,
    order_transaction decimal_literal the_entropy 7 (request [line 1 1]) w
    = (Ok (Committed p), wc) /\
    next_fault wc = false /\
    no_printer_available (kotId p) (rows (db wc)) /\
    exists w',
      place [line 1 1] w
      = (Ok (Created (orderId p) (orderNumber p) (kotNumber p)
               (totalAmount p)), w') /\
      db w' = db wc.
Proof.
  intros w.
  destruct (order_transaction decimal_literal the_entropy 7
              (request [line 1 1]) w) as [r wc] eqn:R.
  assert (Hr : r = Ok (Committed
                         (placed_order the_entropy no_printer_shop
                            [priced (nth 0 menu kitchen_item) (line 1 1)]
                            (85 # 10))))
    by (pose proof (f_equal fst R) as R1; cbn [fst] in R1; rewrite <- R1;
        vm_compute; reflexivity).
  assert (F : next_fault wc = false)
    by (pose proof (f_equal snd R) as R2; cbn [snd] in R2; rewrite <- R2;
        reflexivity).
  assert (N : no_printer_available 1 (rows (db wc)))
    by (pose proof (f_equal snd R) as R2; cbn [snd] in R2; rewrite <- R2;
        split; reflexivity).
  subst r.
  destruct (printing_never_fails_the_order decimal_literal the_entropy
              1700000000100 7 (request [line 1 1]) w R F)
    as (w' & H1 & _ & _ & _ & _ & H2 & _).
  eexists. exists wc. split; [reflexivity |]. split; [exact F |].
  split; [exact N |]. exists w'. split; [exact H1 | exact (H2 N)].
Defined.



(** C4.  The category type is [Food] when every category name of the
    order is a food category, [Beverages] when the names are not all food
    categories (so for every non-empty list) and every one is a drink
    category, and [Mixed] otherwise.  It depends on the set of the names
    only.  The names that the handler classifies are the names of the
    categories of the menu items of the request, each once, so that
    neither the order of the lines nor a repetition changes the type;
    the ticket of a created order carries the type of exactly these
    names. *)
Theorem category_type_depends_on_the_set_of_names
    (parseFloat : string -> option Q) (e : entropy) (now user_id : Z)
    (body : order_request) :
  (forall categories,
      (forall c, In c categories -> In c foodCategories) ->
      categoryType categories = "Food") /\
  (forall categories,
      categories <> [] ->
      (forall c, In c categories -> In c drinkCategories) ->
      categoryType categories = "Beverages") /\
  (forall categories,
      ~ (forall c, In c categories -> In c foodCategories) ->
      ~ (forall c, In c categories -> In c drinkCategories) ->
      categoryType categories = "Mixed") /\
  (forall categories categories',
      (forall c, In c categories <-> In c categories') ->
      categoryType categories = categoryType categories') /\
  (forall ids t,
      NoDup (select_item_categories ids t) /\
      forall name,
        In name (select_item_categories ids t)
        <-> exists id, In id ids /\ category_of t id name) /\
  (forall ids ids' t,
      (forall i, In i ids <-> In i ids') ->
      categoryType (select_item_categories ids t)
      = categoryType (select_item_categories ids' t)) /\
  (forall w id number kot_no amount w',
      transaction w = None ->
      create_order parseFloat e now user_id body w
      = (Ok (Created id number kot_no amount), w') ->
      exists k,
        In k (kots (rows (db w'))) /\ k_order_id k = id /\
        ((forall name,
             ordered_category (rows (db w)) (items body) name ->
             In name foodCategories) ->
         k_category_type k = "Food") /\
        (~ (forall name,
               ordered_category (rows (db w)) (items body) name ->
               In name foodCategories) ->
         (forall name,
             ordered_category (rows (db w)) (items body) name ->
             In name drinkCategories) ->
         k_category_type k = "Beverages") /\
        (~ (forall name,
               ordered_category (rows (db w)) (items body) name ->
               In name foodCategories) ->
         ~ (forall name,
               ordered_category (rows (db w)) (items body) name ->
               In name drinkCategories) ->
         k_category_type k = "Mixed")).
Proof.
  assert (Food : forall categories,
             (forall c, In c categories -> In c foodCategories) ->
             categoryType categories = "Food").
  { intros categories H. unfold categoryType.
    apply every_In in H. rewrite H. reflexivity. }
  assert (Drink : forall categories,
             ~ (forall c, In c categories -> In c foodCategories) ->
             (forall c, In c categories -> In c drinkCategories) ->
             categoryType categories = "Beverages").
  { intros categories N H. unfold categoryType.
    destruct (forallb (includes foodCategories) categories) eqn:F;
      [exfalso; apply N, every_In, F |].
    apply every_In in H. rewrite H. reflexivity. }
  assert (Mixed : forall categories,
             ~ (forall c, In c categories -> In c foodCategories) ->
             ~ (forall c, In c categories -> In c drinkCategories) ->
             categoryType categories = "Mixed").
  { intros categories F D. unfold categoryType.
    destruct (forallb (includes foodCategories) categories) eqn:F1;
      [exfalso; apply F, every_In, F1 |].
    destruct (forallb (includes drinkCategories) categories) eqn:D1;
      [exfalso; apply D, every_In, D1 |].
    reflexivity. }
  split; [exact Food |]. split; [| split; [exact Mixed |]].
  { intros categories N H. apply Drink; [| exact H].
    intros F. destruct categories as [| c l]; [congruence |].
    specialize (F c (or_introl eq_refl)).
    specialize (H c (or_introl eq_refl)).
    cbn in F, H. destruct F as [<- | []].
    destruct H as [H | [H | []]]; discriminate. }
  split; [| split; [| split]].
  - intros categories categories' H. unfold categoryType.
    assert (X : forall values,
               forallb (includes values) categories
               = forallb (includes values) categories').
    { intros values. apply eq_true_iff_eq. rewrite !every_In.
      split; intros A c Hc; apply A, H, Hc. }
    rewrite !X. reflexivity.
  - intros ids t. split; [apply NoDup_nodup |].
    intros name. apply select_item_categories_In.
  - intros ids ids' t H.
    rewrite (@select_item_categories_same_ids ids ids' t H).
    reflexivity.
  - intros w id number kot_no amount w' T0 H.
    apply created_rows in H; [| exact T0].
    destruct H as (lines & rate & _ & _ & _ & _ & _ & K1 & K2 & -> & _).
    rewrite !map_app in K1, K2. cbn [map] in K1, K2.
    assert (L : List.length (kots (rows (db w')))
                = S (List.length (kots (rows (db w))))).
    { rewrite <- (length_map k_order_id), K2, length_app, !length_map.
      cbn. lia. }
    destruct (nth_error (kots (rows (db w')))
                (List.length (kots (rows (db w))))) as [k |] eqn:N.
    2:{ apply nth_error_None in N. lia. }
    exists k. split; [eapply nth_error_In; exact N |].
    pose proof (map_nth_error k_order_id _ _ N) as N1.
    pose proof (map_nth_error k_category_type _ _ N) as N2.
    rewrite K2 in N1. rewrite K1 in N2.
    rewrite nth_error_app2 in N1, N2 by (rewrite length_map; lia).
    rewrite length_map, Nat.sub_diag in N1, N2. cbn in N1, N2.
    injection N1 as <-. injection N2 as <-. split; [reflexivity |].
    assert (S : forall values,
               (forall name,
                   ordered_category (rows (db w)) (items body) name ->
                   In name values)
               <-> (forall c,
                       In c (select_item_categories
                               (map menu_item_id (items body))
                               (rows (db w))) ->
                       In c values)).
    { intros values. split; intros A c Hc.
      - apply A, ordered_category_ids, select_item_categories_In, Hc.
      - apply A, select_item_categories_In, ordered_category_ids, Hc. }
    split; [| split].
    + intros A. apply Food, S, A.
    + intros A B. apply Drink; [rewrite <- S; exact A | apply S, B].
    + intros A B. apply Mixed; rewrite <- S; assumption.
Qed.

(** In the seeded shop pizza is food and espresso is a drink: two
    pizzas make a [Food] ticket, three espressos a [Beverages] ticket,
    and a pizza, three espressos and a pizza again a [Mixed] one. *)
Lemma category_type_depends_on_the_set_of_names_witness :
  let w := world_of empty_shop [] LinkDown in
  let ticket lines := kots (rows (db (snd (place lines w)))) in
  transaction w = None /\
  (forall name,
      ordered_category (rows (db w)) [line 1 2] name <-> name = "Food") /\
  (forall name,
      ordered_category (rows (db w)) [line 2 3] name <-> name = "Drinks") /\
  map k_category_type (ticket [line 1 2]) = ["Food"] /\
  map k_category_type (ticket [line 2 3]) = ["Beverages"] /\
  map k_category_type (ticket [line 1 1; line 2 3; line 1 2]) = ["Mixed"] /\
  (exists k, In k (ticket [line 1 2]) /\ k_category_type k = "Food") /\
  (exists k, In k (ticket [line 2 3]) /\ k_category_type k = "Beverages").
Proof.
  intros w ticket.
  assert (C : forall lines name,
             ordered_category (rows (db w)) lines name
             <-> In name (select_item_categories (map menu_item_id lines)
                            (rows (db w)))).
  { intros lines name.
    destruct (category_type_depends_on_the_set_of_names decimal_literal
                the_entropy 1700000000100 7 (request lines))
      as (_ & _ & _ & _ & H & _).
    rewrite (proj2 (H _ _)). apply ordered_category_ids. }
  assert (C1 : forall name,
             ordered_category (rows (db w)) [line 1 2] name
             <-> name = "Food").
  { intros name. rewrite C. cbn. split; [intros [<- | []] | intros <-]; auto. }
  assert (C2 : forall name,
             ordered_category (rows (db w)) [line 2 3] name
             <-> name = "Drinks").
  { intros name. rewrite C. cbn. split; [intros [<- | []] | intros <-]; auto. }
  split; [reflexivity |]. split; [exact C1 |]. split; [exact C2 |].
  split; [reflexivity |]. split; [reflexivity |]. split; [reflexivity |].
  split.
  - destruct (category_type_depends_on_the_set_of_names decimal_literal
                the_entropy 1700000000100 7 (request [line 1 2]))
      as (_ & _ & _ & _ & _ & _ & H).
    assert (R : place [line 1 2] w
                = (Ok (Created 1 "ORD-1700000000000-417"
                         "KOT-1700000000003-12"
                         (Some (total [priced (nth 0 menu kitchen_item)
                                         (line 1 2)] (85 # 10)))),
                   snd (place [line 1 2] w)))
      by (vm_compute; reflexivity).
    destruct (H w 1 _ _ _ _ eq_refl R) as (k & K1 & _ & K2 & _).
    exists k. split; [exact K1 |]. apply K2. intros name N.
    apply C1 in N. subst. left. reflexivity.
  - destruct (category_type_depends_on_the_set_of_names decimal_literal
                the_entropy 1700000000100 7 (request [line 2 3]))
      as (_ & _ & _ & _ & _ & _ & H).
    assert (R : place [line 2 3] w
                = (Ok (Created 1 "ORD-1700000000000-417"
                         "KOT-1700000000003-12"
                         (Some (total [priced (nth 1 menu kitchen_item)
                                         (line 2 3)] (85 # 10)))),
                   snd (place [line 2 3] w)))
      by (vm_compute; reflexivity).
    destruct (H w 1 _ _ _ _ eq_refl R) as (k & K1 & _ & _ & K2 & _).
    exists k. split; [exact K1 |]. apply K2.
    + intros A. specialize (A "Drinks" (proj2 (C2 _) eq_refl)).
      destruct A as [A | []]. discriminate.
    + intros name N. apply C2 in N. subst. left. reflexivity.
Defined.

(** C5.  A failure after the commit is reported as a failed order.
    The read of [kot_auto_print] comes after the commit and outside the
    inner [try] whose comment is "Don't fail the order creation if
    printing fails": when that statement fails (here the twelfth call
    of the request) the response is the server error, the rollback of the
    handler finds no transaction, and the order and its ticket are in
    the database all the same. *)
Lemma settings_read_failure_after_commit :
  let w := world_of empty_shop (repeat false 11 ++ [true]) LinkUp in
  let r := create_order decimal_literal the_entropy 1700000000100 7
             (full_request [line 1 1]) w in
  fst r = Ok InternalServerError /\
  transaction (snd r) = None /\
  map o_id (orders (rows (db (snd r)))) = [1] /\
  map k_order_id (kots (rows (db (snd r)))) = [1] /\
  map ki_kot_id (kot_items (rows (db (snd r)))) = [1].
Proof. repeat split. Qed.

End OrderTheorems.

(** * Printers, menu, migration: what the other routes do *)

Module NoFaults.

Import Run RunFacts.

(** How the statements run when no fault is injected. *)

Lemma pop_no_faults w : faults w = [] -> pop_fault w = w.
Proof. intros F. unfold pop_fault. rewrite F. destruct w; cbn in *. subst. reflexivity. Qed.

Lemma execute_no_faults {A} (stmt : database -> option (A * database)) w a d :
  faults w = [] -> stmt (db w) = Some (a, d) ->
  execute stmt w = (Ok a, set_db d w).
Proof.
  intros F S. unfold execute. rewrite (no_faults_next w F), S.
  rewrite (pop_no_faults w F). reflexivity.
Qed.

Lemma execute_refused {A} (stmt : database -> option (A * database)) w :
  faults w = [] -> stmt (db w) = None ->
  execute stmt w = (Throw DbError, w).
Proof.
  intros F S. unfold execute. rewrite (no_faults_next w F), S.
  rewrite (pop_no_faults w F). reflexivity.
Qed.

Lemma beginTransaction_no_faults w :
  faults w = [] ->
  beginTransaction w = (Ok tt, set_transaction (Some (rows (db w))) w).
Proof.
  intros F. unfold beginTransaction. rewrite (no_faults_next w F).
  rewrite (pop_no_faults w F). reflexivity.
Qed.

Lemma commit_no_faults w :
  faults w = [] -> commit w = (Ok tt, set_transaction None w).
Proof.
  intros F. unfold commit. rewrite (no_faults_next w F).
  rewrite (pop_no_faults w F). reflexivity.
Qed.

End NoFaults.

Module ServiceFacts.

Import Run RunFacts StatusFacts PrinterService PrinterFacts Effects.

Lemma initializePrinter_no_faults printerId w :
  faults w = [] ->
  initializePrinter printerId w
  = match select_active_printer printerId (rows (db w)) with
    | [] => (Throw (JsError "Printer not found or inactive"), w)
    | p :: _ => (Ok p, w)
    end.
Proof.
  intros F. unfold initializePrinter, bind.
  rewrite (query_no_faults _ w F).
  destruct (select_active_printer printerId (rows (db w))); reflexivity.
Qed.

(** A printer that is initialised is an active row with the identifier
    asked for. *)
Lemma initializePrinter_active printerId w
    (K : printer -> world -> Prop) (E : error -> world -> Prop) :
  (forall e, E e (pop_fault w)) ->
  (forall p, next_fault w = false ->
             In p (printers (rows (db w))) -> p_id p = printerId ->
             p_is_active p = true ->
             K p (pop_fault w)) ->
  post (initializePrinter printerId) w K E.
Proof.
  intros HE HK. unfold initializePrinter. apply post_bind, post_query.
  - apply HE.
  - intros F.
    destruct (select_active_printer printerId (rows (db w)))
      as [| p l] eqn:S.
    + apply post_throw, HE.
    + apply post_ret.
      assert (H : In p (select_active_printer printerId (rows (db w))))
        by (rewrite S; left; reflexivity).
      unfold select_active_printer in H. apply filter_In in H.
      destruct H as [H1 H2]. apply andb_true_iff in H2.
      apply HK; auto; [apply Z.eqb_eq |]; apply H2.
Qed.

(** The body of the [try] of [testPrinter] writes once, after the page
    is sent; its [catch] writes once as well. *)
Lemma testPrinter_post now printerId w :
  post (testPrinter now printerId) w
    (fun message w' =>
       message = "Test print successful" /\ same_session w w' /\
       db w' = tested now printerId (db w))
    (fun e w' =>
       same_session w w' /\
       match e with
       | JsError message =>
           (exists cause,
               message = ("Test print failed: " ++ cause)%string) /\
           db w' = offline printerId (db w)
       | DbError => db w' = db w
       end).
Proof.
  unfold testPrinter. apply post_try_catch.
  assert (H : forall (e : error) w1,
             same_session w w1 -> db w1 = db w ->
             post (update (mark_offline printerId) ;;
                   (throw (JsError ("Test print failed: "
                                    ++ error_message e)) : M string))
               w1
               (fun message w' =>
                  message = "Test print successful" /\ same_session w w' /\
                  db w' = tested now printerId (db w))
               (fun e w' =>
                  same_session w w' /\
                  match e with
                  | JsError message =>
                      (exists cause,
                          message = ("Test print failed: " ++ cause)%string)
                      /\ db w' = offline printerId (db w)
                  | DbError => db w' = db w
                  end)).
  { intros e w1 [S1 S2] D. apply post_bind, post_update.
    - split; [split; cbn; congruence | cbn; congruence].
    - intros _. apply post_throw. split; [split; cbn; congruence |].
      split; [eexists; reflexivity |]. cbn. rewrite D. reflexivity. }
  apply post_bind, initializePrinter_post.
  - intros e. apply H; [split |]; reflexivity.
  - intros p _ _ _.
    apply post_bind, post_isPrinterConnected.
    + intros [|].
      * apply post_bind, post_printer_execute.
        -- apply post_bind, post_update.
           ++ apply H; [split |]; reflexivity.
           ++ intros _. apply post_ret. split; [reflexivity |].
              split; [split |]; reflexivity.
        -- intros e. apply H; [split |]; reflexivity.
      * apply post_throw. apply H; [split |]; reflexivity.
    + intros e. apply H; [split |]; reflexivity.
Qed.

Lemma tested_flags now printerId d :
  Forall (fun p => p_id p = printerId ->
            p_is_online p = true /\ p_last_test_print p = Some now)
    (printers (rows (tested now printerId d))).
Proof.
  cbn. apply update_where_Forall.
  - intros q _ _. split; reflexivity.
  - intros q E H. apply Z.eqb_neq in E. contradiction.
Qed.

Lemma offline_flags printerId d :
  Forall (fun p => p_id p = printerId -> p_is_online p = false)
    (printers (rows (offline printerId d))).
Proof.
  cbn. apply update_where_Forall.
  - reflexivity.
  - intros q E H. apply Z.eqb_neq in E. contradiction.
Qed.

(** ** The choice of the printer *)

Lemma firstn_1_In {A} (x : A) (l : list A) : In x (firstn 1 l) -> In x l.
Proof. destruct l as [| y l]; cbn; tauto. Qed.

Lemma firstn_1_nil {A} (l : list A) : firstn 1 l = [] -> l = [].
Proof. destruct l; [reflexivity | discriminate]. Qed.

Lemma in_flat_map_if {A B} (c : A -> bool) (f : A -> list B) (l : list A)
    (y : B) :
  In y (flat_map (fun x => if c x then f x else []) l)
  <-> exists x, In x l /\ c x = true /\ In y (f x).
Proof.
  rewrite in_flat_map. split; intros (x & H1 & H2); exists x.
  - destruct (c x); [auto | contradiction].
  - destruct H2 as [-> H2]. auto.
Qed.

(** The rows of the routing query, before [LIMIT 1]. *)
Lemma mapped_printers_serve kotId t p :
  In p (select_mapped_printers kotId t) ->
  In p (printers t) /\ usable p /\ serves kotId t p.
Proof.
  unfold select_mapped_printers. intros H. apply firstn_1_In in H.
  apply in_flat_map_if in H. destruct H as (p0 & Hp & Cp & H).
  apply in_flat_map_if in H. destruct H as (pcm & Hpcm & Cpcm & H).
  apply in_flat_map_if in H. destruct H as (sc & Hsc & Csc & H).
  apply in_flat_map_if in H. destruct H as (mi & Hmi & Cmi & H).
  apply in_flat_map_if in H. destruct H as (oi & Hoi & Coi & H).
  apply in_flat_map_if in H. destruct H as (ki & Hki & Cki & H).
  destruct H as [<- | []].
  apply andb_true_iff in Cp, Cki. destruct Cki as [Cki1 Cki2].
  apply Z.eqb_eq in Cpcm, Cmi, Coi, Cki1, Cki2.
  unfold same_subcategory in Csc.
  destruct (pcm_subcategory_id pcm) as [s |] eqn:Es; [| discriminate].
  apply Z.eqb_eq in Csc. subst s.
  split; [exact Hp |]. split; [exact Cp |].
  exists pcm, sc, mi, oi, ki. repeat split; auto.
Qed.

Lemma no_mapped_printer kotId t :
  select_mapped_printers kotId t = [] ->
  forall p, In p (printers t) -> usable p -> ~ serves kotId t p.
Proof.
  unfold select_mapped_printers. intros H p Hp [A O] S.
  apply firstn_1_nil in H.
  assert (X : In p [] ); [| contradiction].
  rewrite <- H. clear H.
  destruct S as (pcm & sc & mi & oi & ki & H1 & H2 & H3 & H4 & H5 & E1
                 & E2 & E3 & E4 & E5 & E6).
  apply in_flat_map_if. exists p. split; [exact Hp |].
  split; [rewrite A, O; reflexivity |].
  apply in_flat_map_if. exists pcm. split; [exact H1 |].
  split; [apply Z.eqb_eq; auto |].
  apply in_flat_map_if. exists sc. split; [exact H2 |].
  split; [unfold same_subcategory; rewrite E2; apply Z.eqb_refl |].
  apply in_flat_map_if. exists mi. split; [exact H3 |].
  split; [apply Z.eqb_eq; auto |].
  apply in_flat_map_if. exists oi. split; [exact H4 |].
  split; [apply Z.eqb_eq; auto |].
  apply in_flat_map_if. exists ki. split; [exact H5 |].
  split; [| left; reflexivity].
  apply andb_true_iff. split; apply Z.eqb_eq; auto.
Qed.

Lemma default_printers_kitchen t p :
  In p (select_default_printers t) ->
  In p (printers t) /\ usable p /\ p_type p = "Kitchen".
Proof.
  unfold select_default_printers. intros H. apply firstn_1_In in H.
  apply filter_In in H. destruct H as [H1 H2].
  apply andb_true_iff in H2. destruct H2 as [H2 O].
  apply andb_true_iff in H2. destruct H2 as [K A].
  apply String.eqb_eq in K. repeat split; auto.
Qed.

Lemma printKOT_chosen now kotId w :
  post (printKOT now kotId) w
    (fun id _ => chosen kotId (rows (db w)) id)
    (fun _ _ => True).
Proof.
  unfold printKOT.
  apply post_bind, post_query; [exact I |]. intros _.
  destruct (select_kot_details kotId (rows (db w))) as [| kd l];
    [apply post_throw; exact I |].
  apply post_bind, post_query; [exact I |]. intros _.
  apply post_bind, post_query; [exact I |]. intros _.
  change (rows (db (pop_fault (pop_fault w)))) with (rows (db w)).
  apply post_bind.
  apply post_weaken with
    (K := fun id (_ : world) => chosen kotId (rows (db w)) id)
    (E := fun (_ : error) (_ : world) => True).
  - destruct (select_mapped_printers kotId (rows (db w))) as [| p ps] eqn:S.
    + apply post_bind, post_query; [exact I |]. intros _.
      change (rows (db (pop_fault (pop_fault (pop_fault w)))))
        with (rows (db w)).
      destruct (select_default_printers (rows (db w))) as [| p ps] eqn:S2.
      * apply post_throw. exact I.
      * apply post_ret.
        assert (H : In p (select_default_printers (rows (db w))))
          by (rewrite S2; left; reflexivity).
        apply default_printers_kitchen in H. destruct H as (H1 & H2 & H3).
        exists p. repeat split; try apply H2; auto.
        right. split; [exact H3 |]. apply no_mapped_printer. exact S.
    + apply post_ret.
      assert (H : In p (select_mapped_printers kotId (rows (db w))))
        by (rewrite S; left; reflexivity).
      apply mapped_printers_serve in H. destruct H as (H1 & H2 & H3).
      exists p. repeat split; try apply H2; auto.
  - intros id w1 C.
    apply post_bind.
    apply post_weaken with
      (K := fun (_ : printer) (_ : world) => True)
      (E := fun (_ : error) (_ : world) => True).
    + unfold post. destruct (initializePrinter id w1) as [[? | ?] ?]; exact I.
    + intros p w2 _. apply post_bind, post_isPrinterConnected; [| auto].
      intros [|]; [| apply post_throw; exact I].
      apply post_bind, post_printer_execute; [| auto].
      apply post_bind, post_update; [exact I |]. intros _.
      apply post_ret. exact C.
    + auto.
  - auto.
Qed.

Lemma printReceipt_post orderId w :
  post (printReceipt orderId) w
    (fun message w' =>
       db w' = db w /\ message = "Receipt printed successfully" /\
       select_order orderId (rows (db w)) <> [] /\
       exists p, In p (printers (rows (db w))) /\ p_type p = "Receipt" /\
                 usable p)
    (fun _ w' => db w' = db w).
Proof.
  unfold printReceipt.
  apply post_bind, post_query; [reflexivity |]. intros _.
  destruct (select_order orderId (rows (db w))) as [| o os] eqn:So;
    [apply post_throw; reflexivity |].
  apply post_bind, post_query; [reflexivity |]. intros _.
  apply post_bind, post_query; [reflexivity |]. intros _.
  change (rows (db (pop_fault (pop_fault w)))) with (rows (db w)).
  destruct (select_receipt_printers (rows (db w))) as [| p ps] eqn:Sp;
    [apply post_throw; reflexivity |].
  assert (P : In p (printers (rows (db w))) /\ p_type p = "Receipt" /\
              usable p).
  { assert (H : In p (select_receipt_printers (rows (db w))))
      by (rewrite Sp; left; reflexivity).
    unfold select_receipt_printers in H. apply firstn_1_In in H.
    apply filter_In in H. destruct H as [H1 H2].
    apply andb_true_iff in H2. destruct H2 as [H2 O].
    apply andb_true_iff in H2. destruct H2 as [K A].
    apply String.eqb_eq in K. repeat split; auto. }
  apply post_bind, initializePrinter_post; [reflexivity |].
  intros q _ _ _.
  apply post_bind, post_query; [reflexivity |]. intros _.
  apply post_bind, post_isPrinterConnected; [| reflexivity].
  intros [|]; [| apply post_throw; reflexivity].
  apply post_bind, post_printer_execute; [| reflexivity].
  apply post_ret. split; [reflexivity |]. split; [reflexivity |].
  split; [discriminate |]. exists p. exact P.
Qed.

End ServiceFacts.

Module ServiceTheorems.

Import Run RunFacts StatusFacts PrinterService PrinterFacts Effects
  ServiceFacts Sample.

(** X1. A test print ends in one of three ways, whatever statement of the
    database fails: it succeeds, and the printer is marked online with
    the time of the test; it throws "Test print failed: ...", and the
    printer is marked offline; or it throws the error of the database,
    when the statement of the [catch] has failed, and nothing is
    written.  When no statement fails it succeeds exactly when the
    printer is active and its link is up. *)
Theorem test_print_sets_the_online_flag (now printerId : Z) (w : world) :
  let r := testPrinter now printerId w in
  match fst r with
  | Ok message =>
      message = "Test print successful" /\
      db (snd r) = tested now printerId (db w) /\
      Forall (fun p => p_id p = printerId ->
                p_is_online p = true /\ p_last_test_print p = Some now)
        (printers (rows (db (snd r))))
  | Throw (JsError message) =>
      (exists cause, message = ("Test print failed: " ++ cause)%string) /\
      db (snd r) = offline printerId (db w) /\
      Forall (fun p => p_id p = printerId -> p_is_online p = false)
        (printers (rows (db (snd r))))
  | Throw DbError => db (snd r) = db w
  end /\
  (faults w = [] ->
   fst r <> Throw DbError /\
   (fst r = Ok "Test print successful" <->
    exists p l,
      select_active_printer printerId (rows (db w)) = p :: l /\
      wire w (p_ip_address p) (p_port p) = LinkUp)).
Proof.
  intros r. split.
  - pose proof (testPrinter_post now printerId w) as H. unfold post in H.
    subst r. destruct (testPrinter now printerId w) as [[m | e] w'].
    + cbn [fst snd]. destruct H as (-> & _ & D).
      split; [reflexivity |]. split; [exact D |]. rewrite D.
      apply tested_flags.
    + cbn [fst snd]. destruct H as (_ & H). destruct e as [| m].
      * exact H.
      * destruct H as [C D]. split; [exact C |]. split; [exact D |].
        rewrite D. apply offline_flags.
  - intros F. subst r. unfold testPrinter, try_catch, bind.
    rewrite (initializePrinter_no_faults printerId w F).
    destruct (select_active_printer printerId (rows (db w)))
      as [| p l] eqn:S.
    + rewrite (update_no_faults _ w F). cbn [fst snd throw].
      split; [discriminate |].
      split; [discriminate | intros (p & l & H & _); discriminate].
    + unfold isPrinterConnected, printer_execute.
      destruct (wire w (p_ip_address p) (p_port p)) eqn:L; cbn [throw];
        cbv beta iota; rewrite ?L; cbv beta iota;
        rewrite (update_no_faults _ w F); cbn [fst snd ret];
        (split; [discriminate |]).
      * split; [intros _; exists p, l; auto | reflexivity].
      * split; [discriminate
               | intros (p' & l' & [= <- <-] & H); congruence].
      * split; [discriminate
               | intros (p' & l' & [= <- <-] & H); congruence].
      * split; [discriminate
               | intros (p' & l' & [= <- <-] & H); congruence].
Qed.

(** X2. A print of a ticket that succeeds has gone to a printer that is
    active and marked online: to one that is mapped to the subcategory
    of an item of the ticket, or, when there is no such printer, to a
    kitchen printer. *)
Theorem print_goes_to_a_usable_printer (now kotId : Z) (w : world)
    (id : Z) (w' : world) :
  printKOT now kotId w = (Ok id, w') -> chosen kotId (rows (db w)) id.
Proof.
  intros R. pose proof (printKOT_chosen now kotId w) as H.
  unfold post in H. rewrite R in H. exact H.
Qed.

(** Ticket 1 has a line of espresso, a hot drink: it goes to the bar
    printer, not to the kitchen printer. *)
Lemma print_goes_to_a_usable_printer_witness :
  let w := world_of office_shop [] LinkUp in
  fst (printKOT 1700000000200 1 w) = Ok 3 /\
  chosen 1 (rows office_shop) 3.
Proof.
  intros w. split; [reflexivity |].
  apply (@print_goes_to_a_usable_printer 1700000000200 1 w 3
           (snd (printKOT 1700000000200 1 w))).
  reflexivity.
Defined.

(** X3. A mapping of a printer to a whole category (its subcategory is
    NULL) routes nothing: a printer that has only such mappings gets a
    ticket only as a kitchen printer. *)
Theorem category_wide_mapping_routes_nothing (now kotId : Z) (w : world)
    (id : Z) (w' : world) :
  (forall pcm, In pcm (printer_category_mappings (rows (db w))) ->
               pcm_printer_id pcm = id -> pcm_subcategory_id pcm = None) ->
  printKOT now kotId w = (Ok id, w') ->
  exists p, In p (printers (rows (db w))) /\ p_id p = id /\
            p_type p = "Kitchen".
Proof.
  intros N R. pose proof (printKOT_chosen now kotId w) as H.
  unfold post in H. rewrite R in H.
  destruct H as (p & H1 & H2 & _ & [S | [K _]]).
  - exfalso.
    destruct S as (pcm & sc & _ & _ & _ & P & _ & _ & _ & _ & E1 & E2 & _).
    rewrite (N pcm P) in E2; [discriminate | congruence].
  - exists p. auto.
Qed.

(** The bar printer is mapped to the category of drinks as a whole: the
    ticket with the espresso goes to the kitchen printer. *)
Lemma category_wide_mapping_routes_nothing_witness :
  let w := world_of category_wide_shop [] LinkUp in
  map pcm_printer_id (printer_category_mappings (rows (db w))) = [3] /\
  fst (printKOT 1700000000200 1 w) = Ok 1 /\
  exists p, In p (printers (rows (db w))) /\ p_id p = 1 /\
            p_type p = "Kitchen".
Proof.
  intros w. split; [reflexivity |]. split; [reflexivity |].
  apply (@category_wide_mapping_routes_nothing 1700000000200 1 w 1
           (snd (printKOT 1700000000200 1 w))).
  - intros pcm [<- | []] E. discriminate.
  - reflexivity.
Defined.

(** X4. A print of a receipt writes nothing, whether it succeeds or
    throws.  It succeeds only for an order that exists and with a
    printer of type Receipt that is active and marked online: a missing
    order is "Order not found", and without such a printer the print
    throws, whatever other printers there are. *)
Theorem receipt_print_is_read_only (orderId : Z) (w : world) :
  let r := printReceipt orderId w in
  db (snd r) = db w /\
  (forall message,
      fst r = Ok message ->
      message = "Receipt printed successfully" /\
      select_order orderId (rows (db w)) <> [] /\
      exists p, In p (printers (rows (db w))) /\ p_type p = "Receipt" /\
                usable p) /\
  (faults w = [] ->
   (select_order orderId (rows (db w)) = [] ->
    fst r = Throw (JsError "Order not found")) /\
   (select_order orderId (rows (db w)) <> [] ->
    select_receipt_printers (rows (db w)) = [] ->
    fst r = Throw (JsError "No active receipt printer found"))).
Proof.
  intros r. pose proof (printReceipt_post orderId w) as H.
  unfold post in H. subst r.
  split; [| split].
  - destruct (printReceipt orderId w) as [[m | e] w']; cbn [snd];
      [apply H | exact H].
  - intros m E. destruct (printReceipt orderId w) as [[m' | e] w'];
      cbn [fst] in E; [| discriminate].
    injection E as ->. destruct H as (_ & H). exact H.
  - intros F. unfold printReceipt, bind.
    rewrite (query_no_faults _ w F). split.
    + intros ->. reflexivity.
    + intros N1 N2.
      destruct (select_order orderId (rows (db w))); [contradiction |].
      rewrite (query_no_faults _ w F). rewrite (query_no_faults _ w F).
      rewrite N2. reflexivity.
Qed.

(** X5. The status of a ticket does not hold a print back: a ticket that
    was set to [Ready] and is printed again is [Printed] afterwards,
    with its completion time and with all its lines [Ready]. *)
Theorem reprint_takes_a_ready_ticket_back (ready_at now kotId : Z)
    (w : world) (id : Z) (w2 : world) :
  faults w = [] ->
  printKOT now kotId (snd (Kots.update_kot_status ready_at kotId "Ready" w))
  = (Ok id, w2) ->
  Forall (fun k => k_id k = kotId ->
            k_status k = "Printed" /\ k_printed_at k = Some now /\
            k_completed_at k = Some ready_at)
    (kots (rows (db w2))) /\
  Forall (fun i => ki_kot_id i = kotId -> ki_status i = "Ready")
    (kot_items (rows (db w2))).
Proof.
  intros F R.
  pose proof (printKOT_post now kotId
                (snd (Kots.update_kot_status ready_at kotId "Ready" w)))
    as H.
  unfold post in H. rewrite R in H. destruct H as [_ D]. rewrite D.
  clear R D. unfold Kots.update_kot_status, try_catch, bind.
  cbn [includes Kots.kot_statuses existsb String.eqb Ascii.eqb Bool.eqb orb
       negb].
  cbv beta iota. rewrite (update_no_faults _ w F).
  rewrite update_no_faults by exact F.
  cbn. split.
  - unfold update_where. rewrite map_map. apply Forall_forall.
    intros k Hk. apply in_map_iff in Hk. destruct Hk as (k0 & <- & _).
    destruct (k_id k0 =? kotId) eqn:E; cbn; rewrite ?E; cbn.
    + intros _. repeat split.
    + intros E'. apply Z.eqb_neq in E. contradiction.
  - apply update_where_Forall.
    + reflexivity.
    + intros i E H. apply Z.eqb_neq in E. contradiction.
Qed.

(** Ticket 1 of the busy shop is set to [Ready] and printed again. *)
Lemma reprint_takes_a_ready_ticket_back_witness :
  let w := world_of busy_shop [] LinkUp in
  let w1 := snd (Kots.update_kot_status 1700000000200 1 "Ready" w) in
  let w2 := snd (printKOT 1700000000300 1 w1) in
  faults w = [] /\
  map k_status (kots (rows (db w1))) = ["Ready"] /\
  map k_status (kots (rows (db w2))) = ["Printed"] /\
  Forall (fun k => k_id k = 1 ->
            k_status k = "Printed" /\ k_printed_at k = Some 1700000000300 /\
            k_completed_at k = Some 1700000000200)
    (kots (rows (db w2))).
Proof.
  intros w w1 w2. split; [reflexivity |]. split; [reflexivity |].
  split; [reflexivity |].
  apply (@reprint_takes_a_ready_ticket_back 1700000000200 1700000000300 1
           w 1 w2 eq_refl).
  reflexivity.
Defined.

End ServiceTheorems.

Module RequestedPrintFacts.

Import Run RunFacts NoFaults StatusFacts PrinterService PrinterFacts Effects
  ServiceFacts.

Lemma fault_is_a_fault w : next_fault w = true -> faults w <> [].
Proof. unfold next_fault. intros H F. rewrite F in H. discriminate. Qed.

(** What a print is asked for does not exist: the service throws,
    whatever statement fails, and writes nothing. *)
Lemma printKOT_missing now kotId w :
  select_kot_details kotId (rows (db w)) = [] ->
  post (printKOT now kotId) w
    (fun _ _ => False)
    (fun e w' =>
       db w' = db w /\
       (faults w = [] -> e = JsError "KOT not found" /\ w' = w)).
Proof.
  intros S. unfold post, printKOT, bind, query, execute.
  destruct (next_fault w) eqn:N.
  - split; [reflexivity |]. intros F. destruct (fault_is_a_fault w N F).
  - cbn. rewrite S. cbn. split; [reflexivity |]. intros F.
    rewrite (pop_no_faults w F). destruct w; split; reflexivity.
Qed.

Lemma printReceipt_missing orderId w :
  select_order orderId (rows (db w)) = [] ->
  post (printReceipt orderId) w
    (fun _ _ => False)
    (fun e w' =>
       db w' = db w /\
       (faults w = [] -> e = JsError "Order not found" /\ w' = w)).
Proof.
  intros S. unfold post, printReceipt, bind, query, execute.
  destruct (next_fault w) eqn:N.
  - split; [reflexivity |]. intros F. destruct (fault_is_a_fault w N F).
  - cbn. rewrite S. cbn. split; [reflexivity |]. intros F.
    rewrite (pop_no_faults w F). destruct w; split; reflexivity.
Qed.

Lemma initializePrinter_missing printerId w :
  select_active_printer printerId (rows (db w)) = [] ->
  post (initializePrinter printerId) w
    (fun _ _ => False)
    (fun e w' =>
       db w' = db w /\
       (faults w = [] ->
        e = JsError "Printer not found or inactive" /\ w' = w)).
Proof.
  intros S. unfold post, initializePrinter, bind, query, execute.
  destruct (next_fault w) eqn:N.
  - split; [reflexivity |]. intros F. destruct (fault_is_a_fault w N F).
  - cbn. rewrite S. cbn. split; [reflexivity |]. intros F.
    rewrite (pop_no_faults w F). destruct w; split; reflexivity.
Qed.

Lemma testPrinter_missing now printerId w :
  select_active_printer printerId (rows (db w)) = [] ->
  post (testPrinter now printerId) w
    (fun _ _ => False)
    (fun e w' =>
       faults w = [] ->
       e = JsError "Test print failed: Printer not found or inactive").
Proof.
  intros S. pose proof (initializePrinter_missing printerId w S) as I.
  unfold post in *. unfold testPrinter, try_catch.
  unfold bind at 1.
  destruct (initializePrinter printerId w) as [[p | e] w1]; [destruct I |].
  destruct I as [D I]. unfold bind, update, execute.
  destruct (next_fault w1) eqn:N.
  - intros F. destruct (I F) as [_ ->]. destruct (fault_is_a_fault w N F).
  - cbn. intros F. destruct (I F) as [-> _]. reflexivity.
Qed.

(** The handler of a route that prints: the result of the service with
    status 200, its error with status 500. *)
Lemma route_answers {A} (service : M A) (ok : A -> json) w :
  try_catch (a <- service ;; ret (200, ok a))
    (fun error => ret (500, ErrorMessage (error_message error))) w
  = (Ok match fst (service w) with
        | Ok a => (200, ok a)
        | Throw e => (500, ErrorMessage (error_message e))
        end,
     snd (service w)).
Proof.
  unfold try_catch, bind. destruct (service w) as [[a | e] w']; reflexivity.
Qed.

End RequestedPrintFacts.

Module RequestedPrintTheorems.

Import Run RunFacts NoFaults StatusFacts PrinterService PrinterFacts Effects
  ServiceFacts PrintRoutes RequestedPrintFacts.

(** X6. Four routes print on request.  The three that are given the
    identifier of what they print ("Print KOT" of a ticket, "Print
    receipt" of an order, "Test printer") always answer, with status 200
    or with status 500 and never with 404: an error of the service,
    whatever it is, is answered with 500 and its message.  So a ticket,
    an order or a printer that does not exist is a 500, whatever
    statement fails, and with no fault injected the message says what is
    missing.  The fourth, "Print KOT" of an order, looks the ticket of
    the order up first: it answers 404, and writes nothing, exactly when
    that statement passes and the order has no ticket; when the
    statement fails it answers 500, and otherwise it answers for the
    last ticket of the order as the route of the ticket does. *)
Theorem print_routes_report_the_cause (now : Z) (w : world) :
  (forall kotId,
      exists r w',
        Kots.print_kot now kotId w = (Ok r, w') /\
        (fst r = 200 \/ fst r = 500) /\
        answered (KotPrinted "KOT printed successfully")
          (fst (printKOT now kotId w)) r /\
        (select_kot_details kotId (rows (db w)) = [] ->
         fst r = 500 /\ db w' = db w /\
         (faults w = [] -> r = (500, ErrorMessage "KOT not found")))) /\
  (forall orderId,
      exists r w',
        Orders.print_receipt orderId w = (Ok r, w') /\
        (fst r = 200 \/ fst r = 500) /\
        answered Message (fst (printReceipt orderId w)) r /\
        (select_order orderId (rows (db w)) = [] ->
         fst r = 500 /\ db w' = db w /\
         (faults w = [] -> r = (500, ErrorMessage "Order not found")))) /\
  (forall printerId,
      exists r w',
        Printers.test_printer now printerId w = (Ok r, w') /\
        (fst r = 200 \/ fst r = 500) /\
        answered Message (fst (testPrinter now printerId w)) r /\
        (select_active_printer printerId (rows (db w)) = [] ->
         fst r = 500 /\
         (faults w = [] ->
          r = (500, ErrorMessage
                      "Test print failed: Printer not found or inactive")))) /\
  (forall orderId,
      exists r w',
        Orders.print_kot now orderId w = (Ok r, w') /\
        (fst r = 200 \/ fst r = 404 \/ fst r = 500) /\
        (fst r = 404 <->
         next_fault w = false /\
         Orders.select_last_kot orderId (rows (db w)) = []) /\
        (fst r = 404 ->
         r = (404, ErrorMessage "KOT not found for this order") /\
         db w' = db w) /\
        (next_fault w = true ->
         r = (500, ErrorMessage (error_message DbError)) /\ db w' = db w) /\
        (forall kotId others,
            next_fault w = false ->
            Orders.select_last_kot orderId (rows (db w)) = kotId :: others ->
            answered (KotPrinted "KOT printed successfully")
              (fst (printKOT now kotId (pop_fault w))) r)).
Proof.
  split; [| split; [| split]].
  - intros kotId. unfold Kots.print_kot. rewrite route_answers.
    eexists. eexists. split; [reflexivity |].
    pose proof (printKOT_missing now kotId w) as M. unfold post in M.
    destruct (printKOT now kotId w) as [[id | e] w1]; cbn [fst snd].
    + split; [left; reflexivity |]. split; [reflexivity |].
      intros S. destruct (M S).
    + split; [right; reflexivity |]. split; [reflexivity |].
      intros S. destruct (M S) as [D F]. split; [reflexivity |].
      split; [exact D |]. intros F0. destruct (F F0) as [-> _]. reflexivity.
  - intros orderId. unfold Orders.print_receipt. rewrite route_answers.
    eexists. eexists. split; [reflexivity |].
    pose proof (printReceipt_missing orderId w) as M. unfold post in M.
    destruct (printReceipt orderId w) as [[m | e] w1]; cbn [fst snd].
    + split; [left; reflexivity |]. split; [reflexivity |].
      intros S. destruct (M S).
    + split; [right; reflexivity |]. split; [reflexivity |].
      intros S. destruct (M S) as [D F]. split; [reflexivity |].
      split; [exact D |]. intros F0. destruct (F F0) as [-> _]. reflexivity.
  - intros printerId. unfold Printers.test_printer. rewrite route_answers.
    eexists. eexists. split; [reflexivity |].
    pose proof (testPrinter_missing now printerId w) as M. unfold post in M.
    destruct (testPrinter now printerId w) as [[m | e] w1]; cbn [fst snd].
    + split; [left; reflexivity |]. split; [reflexivity |].
      intros S. destruct (M S).
    + split; [right; reflexivity |]. split; [reflexivity |].
      intros S. split; [reflexivity |]. intros F0. rewrite (M S F0).
      reflexivity.
  - intros orderId. unfold Orders.print_kot, try_catch, bind, query, execute.
    destruct (next_fault w) eqn:N.
    + eexists. eexists. split; [reflexivity |]. cbn [fst snd].
      split; [right; right; reflexivity |].
      split; [split; [discriminate | intros [X _]; discriminate X] |].
      split; [discriminate |].
      split; [intros _; split; reflexivity |].
      intros kotId others X. discriminate X.
    + change (set_db (db w) (pop_fault w)) with (pop_fault w).
      destruct (Orders.select_last_kot orderId (rows (db w)))
        as [| kotId others] eqn:S.
      * eexists. eexists. split; [reflexivity |]. cbn [fst snd].
        split; [right; left; reflexivity |].
        split; [split; [intros _; split; reflexivity | reflexivity] |].
        split; [intros _; split; reflexivity |].
        split; [discriminate |].
        intros k o _ X. discriminate X.
      * destruct (printKOT now kotId (pop_fault w)) as [[id | e] w1] eqn:P;
          eexists; eexists; (split; [reflexivity |]); cbn [fst snd].
        -- split; [left; reflexivity |].
           split; [split; [discriminate | intros [_ X]; discriminate X] |].
           split; [discriminate |]. split; [discriminate |].
           intros k o _ [= <- _]. rewrite P. reflexivity.
        -- split; [right; right; reflexivity |].
           split; [split; [discriminate | intros [_ X]; discriminate X] |].
           split; [discriminate |]. split; [discriminate |].
           intros k o _ [= <- _]. rewrite P. reflexivity.
Qed.

End RequestedPrintTheorems.

Module PrinterRouteFacts.

Import Run RunFacts NoFaults StatusFacts PrinterService PrinterFacts Effects
  ServiceFacts Printers PrinterEffects Placement.

(** The [catch] of a transaction: [rollback] and the error again. *)
Lemma rolled_back {A} (e : error) w w1
    (K : A -> world -> Prop) (E : error -> world -> Prop) :
  transaction_thrown w w1 ->
  (forall w2, wire w2 = wire w -> transaction w2 = None ->
              rows (db w2) = rows (db w) -> E e w2) ->
  post (rollback ;; (throw e : M A)) w1 K E.
Proof.
  intros (W & T) H. apply post_bind, post_rollback.
  intros w2 T2 W2 _ _ R. apply post_throw. apply H; [congruence | exact T2 |].
  destruct T as [T | [T D]]; rewrite T in R; congruence.
Qed.

Lemma existsb_eqb_In {A} (f : A -> Z) (n : Z) (l : list A) :
  existsb (fun x => f x =? n) l = true <-> exists x, In x l /\ f x = n.
Proof.
  rewrite existsb_exists. split; intros (x & H & E); exists x;
    (split; [exact H |]); apply Z.eqb_eq; exact E.
Qed.

Lemma insert_mapping_Some printerId m d u d' :
  insert_mapping printerId m d = Some (u, d') ->
  known (rows d) m /\
  (exists p, In p (printers (rows d)) /\ p_id p = printerId) /\
  d' = {| rows :=
            with_printer_category_mappings
              (printer_category_mappings (rows d)
               ++ [mapping_row printerId m]) (rows d);
          auto_increment := auto_increment d |}.
Proof.
  unfold insert_mapping. cbn zeta.
  destruct (existsb (fun p => p_id p =? printerId) (printers (rows d)))
    eqn:E1; [| discriminate].
  destruct (existsb _ (categories (rows d))) eqn:E2; [| discriminate].
  cbn [andb].
  destruct (match pcm_subcategory_id (mapping_row printerId m) with
            | Some s => _
            | None => true
            end) eqn:E3; [| discriminate].
  intros [= _ <-]. apply existsb_eqb_In in E1, E2.
  split; [| split; [exact E1 | reflexivity]].
  split; [exact E2 |]. intros s Hs.
  cbn [pcm_subcategory_id mapping_row] in E3. rewrite Hs in E3.
  apply existsb_eqb_In in E3. exact E3.
Qed.

Lemma add_mappings_post printerId ms :
  forall w (K : unit -> world -> Prop) (E : error -> world -> Prop),
    (forall w', same_session w w' -> E DbError w') ->
    (forall w',
        same_session w w' ->
        db w' =
          {| rows :=
               with_printer_category_mappings
                 (printer_category_mappings (rows (db w))
                  ++ map (mapping_row printerId) ms) (rows (db w));
             auto_increment := auto_increment (db w) |} ->
        Forall (known (rows (db w))) ms ->
        K tt w') ->
    post (add_mappings printerId ms) w K E.
Proof.
  induction ms as [| m rest IH]; intros w K E HE HK.
  - apply post_ret, HK; [apply same_session_refl | | constructor].
    cbn [map]. rewrite app_nil_r.
    destruct (db w) as [t c]; destruct t; reflexivity.
  - cbn [add_mappings]. apply post_bind, post_execute.
    + apply HE. split; reflexivity.
    + intros [] d _ I. apply insert_mapping_Some in I.
      destruct I as (Kn & _ & ->). apply IH.
      * intros w' [S1 S2]. apply HE. split; [exact S1 | exact S2].
      * intros w' [S1 S2] D F. apply HK.
        -- split; [exact S1 | exact S2].
        -- rewrite D. cbn. rewrite <- app_assoc. reflexivity.
        -- constructor; [exact Kn |]. revert F. apply Forall_impl.
           intros m' [H1 H2]. split; [exact H1 | exact H2].
Qed.


Lemma insert_mapping_known printerId m d :
  (exists p, In p (printers (rows d)) /\ p_id p = printerId) ->
  known (rows d) m ->
  insert_mapping printerId m d
  = Some (tt,
          {| rows :=
               with_printer_category_mappings
                 (printer_category_mappings (rows d)
                  ++ [mapping_row printerId m]) (rows d);
             auto_increment := auto_increment d |}).
Proof.
  intros P [K1 K2]. unfold insert_mapping. cbn zeta.
  apply existsb_eqb_In in P. rewrite P.
  cbn [pcm_category_id mapping_row pcm_subcategory_id].
  apply existsb_eqb_In in K1. rewrite K1. cbn [andb].
  destruct (or_null (subcategory_id m)) as [s |] eqn:E; [| reflexivity].
  specialize (K2 s eq_refl). apply existsb_eqb_In in K2. rewrite K2.
  reflexivity.
Qed.

Lemma add_mappings_no_faults printerId ms :
  forall w,
    faults w = [] ->
    (exists p, In p (printers (rows (db w))) /\ p_id p = printerId) ->
    Forall (known (rows (db w))) ms ->
    add_mappings printerId ms w
    = (Ok tt,
       set_db
         {| rows :=
              with_printer_category_mappings
                (printer_category_mappings (rows (db w))
                 ++ map (mapping_row printerId) ms) (rows (db w));
            auto_increment := auto_increment (db w) |} w).
Proof.
  induction ms as [| m rest IH]; intros w F P Kn.
  - cbn [add_mappings map]. rewrite app_nil_r. unfold ret. f_equal.
    destruct w as [[t c] tr fs wi]; destruct t; reflexivity.
  - cbn [add_mappings]. unfold bind.
    inversion Kn as [| ? ? K1 K2]; subst.
    rewrite (execute_no_faults _ w F (@insert_mapping_known printerId m (db w) P K1)).
    rewrite IH; [| exact F | exact P |].
    + cbn. rewrite <- app_assoc. reflexivity.
    + revert K2. apply Forall_impl. intros m' [H1 H2].
      split; [exact H1 | exact H2].
Qed.

Section Validated.

Variable isIP : string -> bool.
Variable trim : string -> string.

(** "Add new printer" answers 400 and does nothing, answers 201 and has
    added the printer with its mappings, or answers 500 and has rolled
    back. *)
Lemma add_printer_post insertId body w :
  transaction w = None ->
  post (add_printer isIP trim insertId body) w
    (add_printer_outcome (valid_printer_body isIP body) insertId
       (trim (name body)) body w)
    (fun _ _ => False).
Proof.
  intros T0. unfold add_printer. apply post_try_catch.
  destruct (valid_printer_body isIP body) eqn:V; cbn [negb].
  2:{ apply post_ret. split; [reflexivity |]. split; [exact T0 |].
      left. auto. }
  apply post_try_catch.
  set (K := add_printer_outcome true insertId (trim (name body)) body w).
  assert (Back : forall e w1,
             transaction_thrown w w1 ->
             post (rollback ;; (throw e : M reply)) w1 K
               (fun e1 w2 =>
                  post (ret (500, ErrorMessage "Internal server error")
                        : M reply) w2 K (fun _ _ => False))).
  { intros e w1 Th. apply rolled_back with (w := w); [exact Th |].
    intros w2 W2 T2 R2. apply post_ret. split; [exact W2 |].
    split; [exact T2 |]. right. right. auto. }
  apply post_bind, post_beginTransaction.
  { apply Back. split; [reflexivity |]. right. split; [exact T0 | reflexivity]. }
  intros _.
  set (w1 := set_transaction (Some (rows (db w))) (pop_fault w)).
  assert (T1 : transaction w1 = Some (rows (db w))) by reflexivity.
  assert (W1 : wire w1 = wire w) by reflexivity.
  assert (D1 : db w1 = db w) by reflexivity.
  clearbody w1.
  apply post_bind, post_execute.
  { apply Back. split; [cbn; congruence |]. left. cbn. congruence. }
  intros printerId d _ I. unfold insert_printer in I. rewrite D1 in I.
  destruct (existsb (fun p => p_id p =? insertId) (printers (rows (db w))))
    eqn:Fresh; [discriminate |].
  injection I as <- <-.
  assert (Fr : Forall (fun p => p_id p <> insertId) (printers (rows (db w)))).
  { apply Forall_forall. intros p Hp E.
    assert (X : existsb (fun p => p_id p =? insertId)
                  (printers (rows (db w))) = true)
      by (apply existsb_eqb_In; exists p; auto).
    congruence. }
  match goal with
  | |- post _ (set_db ?d ?w0) _ _ =>
      set (dA := d); set (wA := set_db dA w0)
  end.
  assert (TA : transaction wA = Some (rows (db w))) by (cbn; congruence).
  assert (WA : wire wA = wire w) by (cbn; congruence).
  assert (DA : db wA = dA) by reflexivity.
  clearbody wA.
  apply post_bind, add_mappings_post.
  { intros w' [S1 S2]. apply Back. split; [congruence |]. left. congruence. }
  intros w2 [T2 W2] D2 Kn. rewrite DA in D2, Kn.
  apply post_bind, post_commit.
  { apply Back. split; [cbn; congruence |]. left. cbn. congruence. }
  intros _. apply post_ret.
  split; [cbn; congruence |]. split; [reflexivity |].
  right. left. split; [reflexivity |]. split; [reflexivity |].
  split; [exact Fr |]. split.
  - revert Kn. apply Forall_impl. intros m [H1 H2].
    split; [exact H1 | exact H2].
  - change (db (set_transaction None (pop_fault w2))) with (db w2).
    rewrite D2. subst dA. reflexivity.
Qed.

(** With no fault injected, a valid request with a fresh identifier and
    mappings to known categories is answered with 201. *)
Lemma add_printer_no_faults insertId body w :
  faults w = [] ->
  valid_printer_body isIP body = true ->
  Forall (fun p => p_id p <> insertId) (printers (rows (db w))) ->
  Forall (known (rows (db w))) (category_mappings body) ->
  fst (add_printer isIP trim insertId body w)
  = Ok (201, Added "Printer added successfully" insertId).
Proof.
  intros F V Fr Kn. unfold add_printer, try_catch, bind. rewrite V.
  cbn [negb]. rewrite (beginTransaction_no_faults w F). cbv beta iota.
  assert (I : insert_printer insertId (trim (name body)) (type body)
                (ip_address body) (port body) (db w)
              = Some (insertId,
                      {| rows :=
                           with_printers
                             (printers (rows (db w))
                              ++ [printer_row insertId (trim (name body))
                                    (type body) (ip_address body)
                                    (port body)]) (rows (db w));
                         auto_increment := auto_increment (db w) |})).
  { unfold insert_printer.
    destruct (existsb (fun p => p_id p =? insertId)
                (printers (rows (db w)))) eqn:E; [| reflexivity].
    apply existsb_eqb_In in E. destruct E as (p & Hp & E).
    rewrite Forall_forall in Fr. elim (Fr p Hp E). }
  rewrite (execute_no_faults _ (set_transaction (Some (rows (db w))) w) F I).
  cbv beta iota.
  rewrite add_mappings_no_faults; [| exact F | |].
  - cbv beta iota. rewrite commit_no_faults by exact F. reflexivity.
  - cbn. exists (printer_row insertId (trim (name body)) (type body)
                   (ip_address body) (port body)).
    split; [apply in_or_app; right; left; reflexivity | reflexivity].
  - revert Kn. apply Forall_impl. intros m [H1 H2].
    split; [exact H1 | exact H2].
Qed.

Lemma update_printer_post printerId body w :
  transaction w = None ->
  post (update_printer isIP trim printerId body) w
    (update_printer_outcome (valid_printer_update isIP body) printerId
       (sanitized trim body) w)
    (fun _ _ => False).
Proof.
  intros T0. unfold update_printer. apply post_try_catch.
  destruct (valid_printer_update isIP body) eqn:V; cbn [negb].
  2:{ apply post_ret. split; [reflexivity |]. split; [exact T0 |].
      left. auto. }
  cbv zeta. set (b := sanitized trim body).
  apply post_try_catch.
  set (K := update_printer_outcome true printerId b w).
  assert (Back : forall e w1,
             transaction_thrown w w1 ->
             post (rollback ;; (throw e : M reply)) w1 K
               (fun e1 w2 =>
                  post (ret (500, ErrorMessage "Internal server error")
                        : M reply) w2 K (fun _ _ => False))).
  { intros e w1 Th. apply rolled_back with (w := w); [exact Th |].
    intros w2 W2 T2 R2. apply post_ret. split; [exact W2 |].
    split; [exact T2 |]. right. right. auto. }
  apply post_bind, post_beginTransaction.
  { apply Back. split; [reflexivity |]. right. split; [exact T0 | reflexivity]. }
  intros _.
  set (w1 := set_transaction (Some (rows (db w))) (pop_fault w)).
  assert (T1 : transaction w1 = Some (rows (db w))) by reflexivity.
  assert (W1 : wire w1 = wire w) by reflexivity.
  assert (D1 : db w1 = db w) by reflexivity.
  clearbody w1.
  set (t1 := if has_values b then update_printer_row b printerId (rows (db w))
             else rows (db w)).
  apply post_bind.
  apply post_weaken with
    (K := fun (_ : unit) w2 =>
            transaction w2 = Some (rows (db w)) /\ wire w2 = wire w /\
            rows (db w2) = t1)
    (E := fun (_ : error) w2 => transaction_thrown w w2).
  { unfold t1. destruct (has_values b).
    - apply post_update.
      + split; [cbn; congruence |]. left. cbn. congruence.
      + intros _. cbn. rewrite D1. auto.
    - apply post_ret. rewrite D1. auto. }
  2:{ intros e w2 Th. apply Back, Th. }
  intros [] w2 (T2 & W2 & D2).
  apply post_bind.
  apply post_weaken with
    (K := fun (_ : unit) w3 =>
            transaction w3 = Some (rows (db w)) /\ wire w3 = wire w /\
            rows (db w3) = printer_updated printerId b (rows (db w)))
    (E := fun (_ : error) w3 => transaction_thrown w w3).
  { unfold printer_updated. fold t1.
    destruct (new_category_mappings b) as [ms |].
    - apply post_bind, post_update.
      + split; [cbn; congruence |]. left. cbn. congruence.
      + intros _. apply add_mappings_post.
        * intros w' [S1 S2]. split; [cbn in *; congruence |]. left.
          cbn in *. congruence.
        * intros w' [S1 S2] D _. cbn in S1, S2.
          split; [congruence |]. split; [congruence |].
          rewrite D. cbn. rewrite D2. reflexivity.
    - apply post_ret. auto. }
  2:{ intros e w3 Th. apply Back, Th. }
  intros [] w3 (T3 & W3 & D3).
  apply post_bind, post_commit.
  { apply Back. split; [cbn; congruence |]. left. cbn. congruence. }
  intros _. apply post_ret.
  split; [cbn; congruence |]. split; [reflexivity |].
  right. left. auto.
Qed.

(** With no fault injected, a valid update is answered with 200 when it
    leaves the mappings alone, also for a printer that does not exist;
    with mappings, when the printer exists and the mappings refer to
    known categories. *)
Lemma update_printer_no_faults printerId body w :
  faults w = [] ->
  valid_printer_update isIP body = true ->
  match new_category_mappings body with
  | Some mappings =>
      (exists p, In p (printers (rows (db w))) /\ p_id p = printerId) /\
      Forall (known (rows (db w))) mappings
  | None => True
  end ->
  fst (update_printer isIP trim printerId body w)
  = Ok (200, Message "Printer updated successfully").
Proof.
  intros F V H. unfold update_printer, try_catch, bind. rewrite V.
  cbn [negb]. cbv zeta.
  rewrite (beginTransaction_no_faults w F). cbv beta iota.
  set (b := sanitized trim body).
  set (w1 := set_transaction (Some (rows (db w))) w).
  assert (F1 : faults w1 = []) by exact F.
  assert (X : exists w2,
             (if has_values b then update (update_printer_row b printerId)
              else ret tt) w1 = (Ok tt, w2) /\
             faults w2 = [] /\
             map p_id (printers (rows (db w2)))
             = map p_id (printers (rows (db w))) /\
             categories (rows (db w2)) = categories (rows (db w)) /\
             subcategories (rows (db w2)) = subcategories (rows (db w))).
  { destruct (has_values b).
    - rewrite update_no_faults by exact F1. eexists. split; [reflexivity |].
      split; [exact F |]. cbn. split; [| split; reflexivity].
      unfold update_where. rewrite map_map. apply map_ext.
      intros p. destruct (p_id p =? printerId); reflexivity.
    - eexists. split; [reflexivity |]. split; [exact F |]. auto. }
  destruct X as (w2 & -> & F2 & P2 & C2 & S2). cbv beta iota.
  change (new_category_mappings b) with (new_category_mappings body).
  destruct (new_category_mappings body) as [ms |].
  - destruct H as [(p & Hp & Ep) Kn].
    rewrite update_no_faults by exact F2. cbv beta iota.
    rewrite add_mappings_no_faults.
    + cbv beta iota. rewrite commit_no_faults by exact F2. reflexivity.
    + exact F2.
    + cbn. apply (in_map p_id) in Hp. rewrite <- P2 in Hp.
      apply in_map_iff in Hp. destruct Hp as (q & E & Hq).
      exists q. split; [exact Hq | congruence].
    + revert Kn. apply Forall_impl. intros m [(c & Hc & Ec) K2]. split.
      * exists c. cbn. rewrite C2. auto.
      * intros s Hs. cbn. rewrite S2. apply K2, Hs.
  - cbv beta iota. unfold ret at 1. cbv beta iota.
    rewrite commit_no_faults by exact F2. reflexivity.
Qed.

End Validated.

Lemma affectedRows_zero {A} (cond : A -> bool) (l : list A) :
  affectedRows cond l = 0 <-> filter cond l = [].
Proof.
  unfold affectedRows. destruct (filter cond l); cbn; split; intros H;
    try reflexivity; try discriminate; lia.
Qed.

Lemma delete_where_twice {A} (cond : A -> bool) (l : list A) :
  delete_where cond (delete_where cond l) = delete_where cond l.
Proof.
  unfold delete_where. induction l as [| x l IH]; cbn; [reflexivity |].
  destruct (cond x) eqn:C; cbn; rewrite ?C; cbn; rewrite IH; reflexivity.
Qed.

Lemma delete_mappings_twice printerId t :
  delete_mappings printerId (delete_mappings printerId t)
  = delete_mappings printerId t.
Proof.
  unfold delete_mappings. cbn -[delete_where].
  rewrite delete_where_twice. reflexivity.
Qed.

Lemma delete_printer_post printerId w :
  transaction w = None ->
  post (delete_printer printerId) w (delete_printer_outcome printerId w)
    (fun _ _ => False).
Proof.
  intros T0. unfold delete_printer. apply post_try_catch, post_try_catch.
  set (K := delete_printer_outcome printerId w).
  assert (Back : forall e w1,
             transaction_thrown w w1 ->
             post (rollback ;; (throw e : M reply)) w1 K
               (fun e1 w2 =>
                  post (ret (500, ErrorMessage "Internal server error")
                        : M reply) w2 K (fun _ _ => False))).
  { intros e w1 Th. apply rolled_back with (w := w); [exact Th |].
    intros w2 W2 T2 R2. apply post_ret. split; [exact W2 |].
    split; [exact T2 |]. right. right. auto. }
  apply post_bind, post_beginTransaction.
  { apply Back. split; [reflexivity |]. right. split; [exact T0 | reflexivity]. }
  intros _.
  apply post_bind, post_update.
  { apply Back. split; [reflexivity |]. left. reflexivity. }
  intros _.
  apply post_bind, post_execute.
  { apply Back. split; [reflexivity |]. left. reflexivity. }
  intros affected d _ I. cbn in I. injection I as <- <-.
  destruct (Z.eqb_spec
              (affectedRows (fun p => p_id p =? printerId)
                 (printers (rows (db w)))) 0) as [Z0 | Z0].
  - apply post_bind, post_rollback. intros w2 T2 W2 _ _ R2.
    apply post_ret. split; [exact W2 |]. split; [exact T2 |]. left.
    split; [reflexivity |]. split; [apply affectedRows_zero, Z0 | exact R2].
  - apply post_bind, post_commit.
    { apply Back. split; [reflexivity |]. left. reflexivity. }
    intros _. apply post_ret. split; [reflexivity |].
    split; [reflexivity |]. right. left. split; [reflexivity |].
    split; [intros N; apply Z0, affectedRows_zero, N |].
    cbn -[delete_where delete_mappings]. rewrite delete_mappings_twice.
    reflexivity.
Qed.

Lemma delete_printer_no_faults printerId w :
  faults w = [] ->
  fst (delete_printer printerId w)
  = match select_printer printerId (rows (db w)) with
    | [] => Ok (404, ErrorMessage "Printer not found")
    | _ :: _ => Ok (200, Message "Printer deleted successfully")
    end.
Proof.
  intros F. unfold delete_printer, try_catch, bind.
  rewrite (beginTransaction_no_faults w F). cbv beta iota.
  rewrite update_no_faults by exact F. cbv beta iota.
  erewrite execute_no_faults; [| exact F | reflexivity].
  cbv beta iota. cbn [rows db set_db set_transaction printers delete_mappings
                      with_printer_category_mappings].
  unfold select_printer, affectedRows.
  destruct (filter (fun p => p_id p =? printerId) (printers (rows (db w))))
    as [| p l].
  - reflexivity.
  - cbn [List.length].
    destruct (Z.of_nat (S (List.length l)) =? 0) eqn:E;
      [apply Z.eqb_eq in E; lia |].
    rewrite commit_no_faults by exact F. reflexivity.
Qed.

(** The status check, for any pattern of faults. *)
Lemma check_printer_status_post printerId w :
  post (check_printer_status printerId) w
    (fun r w' =>
       same_session w w' /\
       ((r = (404, ErrorMessage "Printer not found") /\
         select_printer printerId (rows (db w)) = [] /\ db w' = db w) \/
        (exists printer others is_online error,
            select_printer printerId (rows (db w)) = printer :: others /\
            r = (200, PrinterStatus (status_of printer is_online error)) /\
            rows (db w') = set_online is_online printerId (rows (db w)) /\
            (is_online = true ->
             error = None /\
             exists p, In p (printers (rows (db w))) /\ p_id p = printerId
                       /\ p_is_active p = true /\
                       answers (wire w (p_ip_address p) (p_port p)) = true))
        \/
        (r = (500, ErrorMessage "Internal server error") /\ db w' = db w)))
    (fun _ _ => False).
Proof.
  unfold check_printer_status. apply post_try_catch.
  apply post_bind, post_query.
  { apply post_ret. split; [split; reflexivity |]. right. right. auto. }
  intros _.
  destruct (select_printer printerId (rows (db w))) as [| printer others]
    eqn:S.
  { apply post_ret. split; [split; reflexivity |]. left. auto. }
  apply post_bind.
  apply post_weaken with
    (K := fun s w' =>
            same_session w w' /\
            exists is_online error,
              s = status_of printer is_online error /\
              rows (db w') = set_online is_online printerId (rows (db w)) /\
              (is_online = true ->
               error = None /\
               exists p, In p (printers (rows (db w))) /\ p_id p = printerId
                         /\ p_is_active p = true /\
                         answers (wire w (p_ip_address p) (p_port p)) = true))
    (E := fun (_ : error) w' => same_session w w' /\ db w' = db w).
  - apply post_try_catch.
    assert (H : forall (e : error) w1,
               same_session w w1 -> db w1 = db w ->
               post (update (mark_offline printerId) ;;
                     ret (status_of printer false
                            (Some (error_message e))))
                 w1
                 (fun s w' =>
                    same_session w w' /\
                    exists is_online error,
                      s = status_of printer is_online error /\
                      rows (db w')
                      = set_online is_online printerId (rows (db w)) /\
                      (is_online = true ->
                       error = None /\
                       exists p,
                         In p (printers (rows (db w))) /\
                         p_id p = printerId /\ p_is_active p = true /\
                         answers (wire w (p_ip_address p) (p_port p))
                         = true))
                 (fun (_ : error) w' => same_session w w' /\ db w' = db w)).
    { intros e w1 [S1 S2] D. apply post_bind, post_update.
      - split; [split; cbn; congruence | cbn; congruence].
      - intros _. apply post_ret. split; [split; cbn; congruence |].
        exists false, (Some (error_message e)).
        split; [reflexivity |]. split; [cbn; rewrite D; reflexivity |].
        discriminate. }
    apply post_bind, initializePrinter_active.
    + intros e. apply H; [split |]; reflexivity.
    + intros p _ Hp Ep Ap.
      apply post_bind. unfold post at 1, isPrinterConnected.
      change (wire (pop_fault (pop_fault w))) with (wire w).
      destruct (wire w (p_ip_address p) (p_port p)) eqn:L.
      * apply post_bind, post_update.
        -- apply H; [split |]; reflexivity.
        -- intros _. apply post_ret. split; [split; reflexivity |].
           exists true, None. split; [reflexivity |].
           split; [reflexivity |]. intros _. split; [reflexivity |].
           exists p. rewrite L. auto.
      * apply post_bind, post_update.
        -- apply H; [split |]; reflexivity.
        -- intros _. apply post_ret. split; [split; reflexivity |].
           exists false, None. split; [reflexivity |].
           split; [reflexivity |]. discriminate.
      * apply H; [split |]; reflexivity.
      * apply post_bind, post_update.
        -- apply H; [split |]; reflexivity.
        -- intros _. apply post_ret. split; [split; reflexivity |].
           exists true, None. split; [reflexivity |].
           split; [reflexivity |]. intros _. split; [reflexivity |].
           exists p. rewrite L. auto.
  - intros s w' (Ss & b & err & -> & D & H). apply post_ret.
    split; [exact Ss |]. right. left.
    exists printer, others, b, err. auto.
  - intros e w' [Ss D]. apply post_ret. split; [exact Ss |].
    right. right. auto.
Qed.

(** The status check when no statement fails. *)
Lemma check_printer_status_no_faults printerId w :
  faults w = [] ->
  check_printer_status printerId w
  = match select_printer printerId (rows (db w)) with
    | [] => (Ok (404, ErrorMessage "Printer not found"), w)
    | printer :: _ =>
        (Ok (200,
             PrinterStatus
               (status_of printer (reachable printerId w)
                  match select_active_printer printerId (rows (db w)) with
                  | [] => Some "Printer not found or inactive"
                  | p :: _ =>
                      match wire w (p_ip_address p) (p_port p) with
                      | LinkBroken => Some "connect ECONNREFUSED"
                      | _ => None
                      end
                  end)),
         set_db
           {| rows := set_online (reachable printerId w) printerId
                        (rows (db w));
              auto_increment := auto_increment (db w) |} w)
    end.
Proof.
  intros F. unfold check_printer_status, try_catch, bind.
  rewrite (query_no_faults _ w F).
  destruct (select_printer printerId (rows (db w))) as [| printer others];
    [reflexivity |].
  rewrite (initializePrinter_no_faults printerId w F). unfold reachable.
  destruct (select_active_printer printerId (rows (db w))) as [| p l].
  - rewrite (update_no_faults _ w F). reflexivity.
  - unfold isPrinterConnected.
    destruct (wire w (p_ip_address p) (p_port p));
      rewrite (update_no_faults _ w F); reflexivity.
Qed.

End PrinterRouteFacts.

Module PrinterRouteTheorems.

Import Run RunFacts NoFaults StatusFacts PrinterService PrinterFacts Effects
  ServiceFacts Printers PrinterEffects PrinterRouteFacts Sample.

Section Validated.

Variable isIP : string -> bool.
Variable trim : string -> string.

(** X7. "Add new printer" is all or nothing.  It answers 400 and runs
    no statement; or 201, and the printer is there with all the mappings
    of the request, its name trimmed, active and marked offline; or 500,
    and no row has changed.  A mapping to a category or a subcategory
    that does not exist makes it answer 500.  With no fault injected, a
    valid request with mappings to known categories is answered with
    201. *)
Theorem add_printer_is_all_or_nothing (insertId : Z) (body : printer_body)
    (w : world) :
  transaction w = None ->
  (exists r w',
      add_printer isIP trim insertId body w = (Ok r, w') /\
      add_printer_outcome (valid_printer_body isIP body) insertId
        (trim (name body)) body w r w') /\
  (faults w = [] ->
   valid_printer_body isIP body = true ->
   Forall (fun p => p_id p <> insertId) (printers (rows (db w))) ->
   (Forall (known (rows (db w))) (category_mappings body) <->
    fst (add_printer isIP trim insertId body w)
    = Ok (201, Added "Printer added successfully" insertId))).
Proof.
  intros T0.
  pose proof (@add_printer_post isIP trim insertId body w T0) as H.
  unfold post in H. split.
  - destruct (add_printer isIP trim insertId body w) as [[r | e] w'];
      [| contradiction].
    exists r, w'. auto.
  - intros F V Fr. split.
    + intros Kn. apply add_printer_no_faults; assumption.
    + intros E.
      destruct (add_printer isIP trim insertId body w) as [[r | e] w'];
        [| contradiction].
      cbn [fst] in E. injection E as ->.
      destruct H as (_ & _ & [(E & _) | [(_ & _ & _ & Kn & _) | (E & _)]]);
        [discriminate | exact Kn | discriminate].
Qed.

(** X8. A printer that has just been added gets no ticket: it is marked
    offline, and the routing takes printers that are marked online. *)
Theorem new_printer_waits_for_a_test (insertId : Z) (body : printer_body)
    (w : world) (message : string) (id : Z) (w1 : world) :
  transaction w = None ->
  add_printer isIP trim insertId body w = (Ok (201, Added message id), w1) ->
  id = insertId /\
  Forall (fun p => p_id p = insertId -> p_is_online p = false)
    (printers (rows (db w1))) /\
  forall now kotId w2,
    db w2 = db w1 -> fst (printKOT now kotId w2) <> Ok insertId.
Proof.
  intros T0 R.
  pose proof (@add_printer_post isIP trim insertId body w T0) as H.
  unfold post in H. rewrite R in H.
  destruct H as (_ & _ & [(E & _) | [(E & _ & Fr & _ & D) | (E & _)]]);
    try discriminate.
  injection E as -> ->.
  assert (Off : Forall (fun p => p_id p = insertId -> p_is_online p = false)
                  (printers (rows (db w1)))).
  { rewrite D. cbn. apply Forall_app. split.
    - revert Fr. apply Forall_impl. intros p N E. contradiction.
    - constructor; [reflexivity | constructor]. }
  split; [reflexivity |]. split; [exact Off |].
  intros now kotId w2 D2 P.
  pose proof (printKOT_chosen now kotId w2) as C. unfold post in C.
  destruct (printKOT now kotId w2) as [[i | e] w3]; [| discriminate].
  cbn [fst] in P. injection P as ->.
  destruct C as (p & Hp & Ep & [_ O] & _).
  rewrite D2 in Hp. rewrite Forall_forall in Off.
  rewrite (Off p Hp Ep) in O. discriminate.
Qed.

(** X9. "Update printer" is all or nothing, and it does not look for
    the printer: a valid request that leaves the mappings alone is
    answered with 200 also when no printer has the identifier.  Mappings
    in the request replace those of the printer: afterwards the printer
    has the mappings of the request, in their order, and the mappings of
    the other printers are what they were. *)
Theorem update_printer_replaces_the_mappings (printerId : Z)
    (body : printer_update) (w : world) :
  transaction w = None ->
  (exists r w',
      update_printer isIP trim printerId body w = (Ok r, w') /\
      update_printer_outcome (valid_printer_update isIP body) printerId
        (sanitized trim body) w r w' /\
      (r = (200, Message "Printer updated successfully") ->
       forall mappings,
         new_category_mappings body = Some mappings ->
         filter (fun m => pcm_printer_id m =? printerId)
           (printer_category_mappings (rows (db w')))
         = map (mapping_row printerId) mappings /\
         delete_where (fun m => pcm_printer_id m =? printerId)
           (printer_category_mappings (rows (db w')))
         = delete_where (fun m => pcm_printer_id m =? printerId)
             (printer_category_mappings (rows (db w))))) /\
  (faults w = [] ->
   valid_printer_update isIP body = true ->
   new_category_mappings body = None ->
   fst (update_printer isIP trim printerId body w)
   = Ok (200, Message "Printer updated successfully")).
Proof.
  intros T0.
  pose proof (@update_printer_post isIP trim printerId body w T0) as H.
  unfold post in H. split.
  - destruct (update_printer isIP trim printerId body w) as [[r | e] w'];
      [| contradiction].
    exists r, w'. split; [reflexivity |]. split; [exact H |].
    intros -> ms Ems.
    destruct H as (_ & _ & [(E & _) | [(_ & _ & D) | (E & _)]]);
      try discriminate.
    rewrite D. unfold printer_updated.
    change (new_category_mappings (sanitized trim body))
      with (new_category_mappings body).
    rewrite Ems. unfold mappings_replaced.
    cbn [printer_category_mappings with_printer_category_mappings].
    assert (M : printer_category_mappings
                  (if has_values (sanitized trim body)
                   then update_printer_row (sanitized trim body) printerId
                          (rows (db w))
                   else rows (db w))
                = printer_category_mappings (rows (db w)))
      by (destruct (has_values (sanitized trim body)); reflexivity).
    rewrite M. unfold delete_where. rewrite !filter_app. split.
    + rewrite OrderFacts.filter_none.
      * cbn [app]. apply OrderFacts.filter_all. apply Forall_forall.
        intros m Hm. apply in_map_iff in Hm. destruct Hm as (m0 & <- & _).
        apply Z.eqb_refl.
      * apply Forall_forall. intros m Hm. apply filter_In in Hm.
        destruct Hm as [_ Hm]. apply negb_true_iff in Hm. exact Hm.
    + rewrite (@OrderFacts.filter_none _
                 (fun r => negb (pcm_printer_id r =? printerId))
                 (map (mapping_row printerId) ms)).
      * rewrite app_nil_r.
        apply OrderFacts.filter_all. apply Forall_forall.
        intros m Hm. apply filter_In in Hm. apply Hm.
      * apply Forall_forall. intros m Hm. apply in_map_iff in Hm.
        destruct Hm as (m0 & <- & _). cbn. rewrite Z.eqb_refl. reflexivity.
  - intros F V N.
    apply update_printer_no_faults; [exact F | exact V |].
    rewrite N. exact I.
Qed.

End Validated.

(** The bar printer is added to the busy shop, with the hot drinks
    mapped to it: it is stored with its name trimmed, and offline. *)
Lemma add_printer_is_all_or_nothing_witness :
  let w := world_of busy_shop [] LinkUp in
  let r := add_printer dotted_quad trim_blanks 2 bar_printer_body w in
  transaction w = None /\
  fst r = Ok (201, Added "Printer added successfully" 2) /\
  map (fun p => (p_id p, p_name p, p_is_online p))
    (printers (rows (db (snd r))))
  = [(1, "Kitchen Printer 1", true); (2, "Bar Printer", false)] /\
  map pcm_subcategory_id (printer_category_mappings (rows (db (snd r))))
  = [Some 5].
Proof.
  intros w r. split; [reflexivity |].
  assert (Fr : Forall (fun p => p_id p <> 2) (printers (rows (db w))))
    by (repeat constructor; discriminate).
  assert (Kn : Forall (known (rows (db w)))
                 (category_mappings bar_printer_body)).
  { constructor; [| constructor]. split.
    - exists {| c_id := 2; c_name := "Drinks" |}.
      split; [right; left; reflexivity | reflexivity].
    - intros s [= <-].
      exists {| sc_id := 5; sc_category_id := 2; sc_name := "Hot Drinks" |}.
      split; [right; right; left; reflexivity | reflexivity]. }
  split.
  - apply (proj1 (proj2 (@add_printer_is_all_or_nothing dotted_quad
                           trim_blanks 2 bar_printer_body w eq_refl)
                    eq_refl eq_refl Fr) Kn).
  - split; reflexivity.
Defined.

(** The bar printer has just been added: the ticket with the espresso
    goes to the kitchen printer. *)
Lemma new_printer_waits_for_a_test_witness :
  let w := world_of busy_shop [] LinkUp in
  let w1 := snd (add_printer dotted_quad trim_blanks 2 bar_printer_body w) in
  transaction w = None /\
  fst (printKOT 1700000000200 1 w1) = Ok 1 /\
  forall now kotId w2,
    db w2 = db w1 -> fst (printKOT now kotId w2) <> Ok 2.
Proof.
  intros w w1. split; [reflexivity |]. split; [reflexivity |].
  apply (@new_printer_waits_for_a_test dotted_quad trim_blanks 2
           bar_printer_body w "Printer added successfully" 2 w1 eq_refl).
  reflexivity.
Defined.

(** No printer of the busy shop has the identifier 99. *)
Lemma update_printer_replaces_the_mappings_witness :
  let w := world_of busy_shop [] LinkUp in
  transaction w = None /\
  select_printer 99 (rows (db w)) = [] /\
  fst (update_printer dotted_quad trim_blanks 99 no_update w)
  = Ok (200, Message "Printer updated successfully").
Proof.
  intros w. split; [reflexivity |]. split; [reflexivity |].
  apply (proj2 (@update_printer_replaces_the_mappings dotted_quad
                  trim_blanks 99 no_update w eq_refl));
    reflexivity.
Defined.

(** X10. The status check stores what it reports.  Whatever statement
    fails, it answers 404 for an identifier that no printer has, 500
    with the database as it was, or 200: then every printer with the
    identifier carries the reported flag, the status reads Online or
    Offline with it, and a printer is reported online only if it is
    active and its link has answered.  With no fault injected the flag
    is exactly that. *)
Theorem status_check_stores_what_it_reports (printerId : Z) (w : world) :
  exists r w',
    check_printer_status printerId w = (Ok r, w') /\
    (forall s,
        r = (200, PrinterStatus s) ->
        ps_status s = (if ps_is_online s then "Online" else "Offline") /\
        rows (db w') = set_online (ps_is_online s) printerId (rows (db w)) /\
        Forall (fun p => p_id p = printerId -> p_is_online p = ps_is_online s)
          (printers (rows (db w'))) /\
        (ps_is_online s = true ->
         exists p, In p (printers (rows (db w))) /\ p_id p = printerId /\
                   p_is_active p = true /\
                   answers (wire w (p_ip_address p) (p_port p)) = true)) /\
    (fst r <> 200 -> db w' = db w) /\
    (faults w = [] ->
     match select_printer printerId (rows (db w)) with
     | [] => r = (404, ErrorMessage "Printer not found")
     | _ :: _ =>
         exists s, r = (200, PrinterStatus s) /\
                   ps_is_online s = reachable printerId w
     end).
Proof.
  pose proof (check_printer_status_post printerId w) as H. unfold post in H.
  destruct (check_printer_status printerId w) as [[r | e] w'] eqn:R;
    [| contradiction].
  exists r, w'. split; [reflexivity |]. destruct H as (_ & H).
  split; [| split].
  - intros s ->.
    destruct H as [(E & _) | [(p & l & b & err & S & E & D & A) | (E & _)]];
      try discriminate.
    injection E as ->. cbn [ps_status ps_is_online status_of].
    split; [reflexivity |]. split; [exact D |]. split.
    + rewrite D. cbn. apply update_where_Forall.
      * reflexivity.
      * intros q E H. apply Z.eqb_neq in E. contradiction.
    + intros B. apply A, B.
  - intros N.
    destruct H as [(_ & _ & D) | [(p & l & b & err & _ & -> & _) | (_ & D)]];
      [exact D | | exact D].
    cbn in N. contradiction.
  - intros F. rewrite (check_printer_status_no_faults printerId w F) in R.
    destruct (select_printer printerId (rows (db w))) as [| p l].
    + injection R as <- _. reflexivity.
    + injection R as <- _. eexists. split; reflexivity.
Qed.

(** X11. A printer that the status check has reported offline, or on
    which a test print has failed, gets no ticket until it is marked
    online again: no print of a ticket goes to it. *)
Theorem dead_printer_gets_no_ticket (printerId : Z) (w w1 : world) :
  (exists s, check_printer_status printerId w
             = (Ok (200, PrinterStatus s), w1) /\
             ps_is_online s = false) \/
  (exists now message,
      testPrinter now printerId w = (Throw (JsError message), w1)) ->
  forall now kotId w2,
    db w2 = db w1 -> fst (printKOT now kotId w2) <> Ok printerId.
Proof.
  intros H.
  assert (Off : Forall (fun p => p_id p = printerId -> p_is_online p = false)
                  (printers (rows (db w1)))).
  { destruct H as [(s & R & B) | (now & m & R)].
    - pose proof (check_printer_status_post printerId w) as H.
      unfold post in H. rewrite R in H. destruct H as (_ & H).
      destruct H as [(E & _) | [(p & l & b & err & _ & E & D & _) | (E & _)]];
        try discriminate.
      injection E as ->. cbn in B. subst b. rewrite D. cbn.
      apply update_where_Forall.
      + reflexivity.
      + intros q E H. apply Z.eqb_neq in E. contradiction.
    - pose proof (testPrinter_post now printerId w) as H.
      unfold post in H. rewrite R in H. destruct H as (_ & _ & D).
      rewrite D. apply offline_flags. }
  intros now kotId w2 D2 P.
  pose proof (printKOT_chosen now kotId w2) as C. unfold post in C.
  destruct (printKOT now kotId w2) as [[i | e] w3]; [| discriminate].
  cbn [fst] in P. injection P as ->.
  destruct C as (p & Hp & Ep & [_ O] & _).
  rewrite D2 in Hp. rewrite Forall_forall in Off.
  rewrite (Off p Hp Ep) in O. discriminate.
Qed.

(** The kitchen printer of the busy shop is unplugged.  A print of
    ticket 1 tries it and fails; after the status check the print finds
    no printer at all. *)
Lemma dead_printer_gets_no_ticket_witness :
  let w := world_of busy_shop [] LinkDown in
  let w1 := snd (check_printer_status 1 w) in
  fst (printKOT 1700000000200 1 w)
  = Throw (JsError "Printer not connected") /\
  fst (printKOT 1700000000200 1 w1)
  = Throw (JsError "No active kitchen printer found") /\
  forall now kotId w2,
    db w2 = db w1 -> fst (printKOT now kotId w2) <> Ok 1.
Proof.
  intros w w1. split; [reflexivity |]. split; [reflexivity |].
  apply (@dead_printer_gets_no_ticket 1 w w1). left.
  eexists. split; reflexivity.
Defined.

(** X12. "Delete printer" is all or nothing: it answers 404 for an
    identifier that no printer has, 200 when the printer and all its
    mappings are gone, or 500; unless it answers 200 no row has changed.
    With no fault injected it answers 200 exactly when the printer
    exists. *)
Theorem delete_printer_is_all_or_nothing (printerId : Z) (w : world) :
  transaction w = None ->
  exists r w',
    delete_printer printerId w = (Ok r, w') /\
    delete_printer_outcome printerId w r w' /\
    (r = (200, Message "Printer deleted successfully") ->
     Forall (fun p => p_id p <> printerId) (printers (rows (db w'))) /\
     Forall (fun m => pcm_printer_id m <> printerId)
       (printer_category_mappings (rows (db w')))) /\
    (faults w = [] ->
     (r = (200, Message "Printer deleted successfully") <->
      exists p, In p (printers (rows (db w))) /\ p_id p = printerId)).
Proof.
  intros T0. pose proof (@delete_printer_post printerId w T0) as H.
  unfold post in H.
  destruct (delete_printer printerId w) as [[r | e] w'] eqn:R;
    [| contradiction].
  exists r, w'. split; [reflexivity |]. split; [exact H |]. split.
  - intros ->.
    destruct H as (_ & _ & [(E & _) | [(_ & _ & D) | (E & _)]]);
      try discriminate.
    rewrite D. cbn -[delete_where]. unfold delete_where.
    split; apply Forall_forall; intros x Hx; apply filter_In in Hx;
      destruct Hx as [_ Hx]; apply negb_true_iff, Z.eqb_neq in Hx; exact Hx.
  - intros F. pose proof (delete_printer_no_faults printerId w F) as N.
    rewrite R in N. cbn [fst] in N. unfold select_printer in N.
    split.
    + intros ->.
      destruct (filter (fun p => p_id p =? printerId)
                  (printers (rows (db w)))) as [| p l] eqn:S;
        [discriminate |].
      assert (Hp : In p (filter (fun p => p_id p =? printerId)
                           (printers (rows (db w)))))
        by (rewrite S; left; reflexivity).
      apply filter_In in Hp. destruct Hp as [Hp E].
      exists p. split; [exact Hp | apply Z.eqb_eq, E].
    + intros (p & Hp & E).
      destruct (filter (fun p => p_id p =? printerId)
                  (printers (rows (db w)))) as [| q l] eqn:S.
      * assert (X : In p []); [| contradiction].
        rewrite <- S. apply filter_In. split; [exact Hp |].
        apply Z.eqb_eq, E.
      * injection N as ->. reflexivity.
Qed.

(** The kitchen printer of the busy shop is deleted. *)
Lemma delete_printer_is_all_or_nothing_witness :
  let w := world_of busy_shop [] LinkUp in
  transaction w = None /\
  exists w',
    delete_printer 1 w
    = (Ok (200, Message "Printer deleted successfully"), w') /\
    printers (rows (db w')) = [].
Proof.
  intros w. split; [reflexivity |].
  destruct (@delete_printer_is_all_or_nothing 1 w eq_refl)
    as (r & w' & R & _ & _ & H).
  assert (E : r = (200, Message "Printer deleted successfully")).
  { apply (H eq_refl). exists kitchen_printer.
    split; [left; reflexivity | reflexivity]. }
  subst r. exists w'. split; [exact R |].
  assert (X : w' = snd (delete_printer 1 w)) by (rewrite R; reflexivity).
  rewrite X. reflexivity.
Defined.

End PrinterRouteTheorems.

Module MenuFacts.

Import Run RunFacts NoFaults StatusFacts MoneyFacts Menu MenuEffects
  PrinterRouteFacts Placement.

Lemma filter_nil_Forall {A} (c : A -> bool) (l : list A) :
  filter c l = [] <-> Forall (fun x => c x = false) l.
Proof.
  induction l as [| x l IH]; cbn.
  - split; [constructor | reflexivity].
  - destruct (c x) eqn:C; split.
    + discriminate.
    + intros H. inversion H. congruence.
    + intros H. constructor; [exact C | apply IH, H].
    + intros H. inversion H. apply IH. assumption.
Qed.

Lemma no_row_with_id {A} (f : A -> Z) (n : Z) (l : list A) :
  affectedRows (fun x => f x =? n) l = 0 <-> Forall (fun x => f x <> n) l.
Proof.
  rewrite affectedRows_zero, filter_nil_Forall. split; apply Forall_impl;
    intros x H; apply Z.eqb_neq; exact H.
Qed.

Lemma delete_where_Forall {A} (c : A -> bool) (l : list A) :
  Forall (fun x => c x = false) (delete_where c l).
Proof.
  unfold delete_where. apply Forall_forall. intros x H.
  apply filter_In in H. apply negb_true_iff, H.
Qed.

Lemma delete_where_incl {A} (c : A -> bool) (P : A -> Prop) (l : list A) :
  Forall P l -> Forall P (delete_where c l).
Proof.
  unfold delete_where. rewrite !Forall_forall. intros H x Hx.
  apply filter_In in Hx. apply H, Hx.
Qed.

Lemma update_where_preserves {A} (c : A -> bool) (f : A -> A)
    (P : A -> Prop) (l : list A) :
  Forall P l -> (forall r, P r -> P (f r)) ->
  Forall P (update_where c f l).
Proof.
  intros H Hf. unfold update_where. rewrite Forall_forall in *.
  intros x Hx. apply in_map_iff in Hx. destruct Hx as (r & <- & Hr).
  destruct (c r); auto.
Qed.

(** "Delete menu item", for any pattern of faults. *)
Lemma delete_menu_item_post itemId w :
  post (delete_menu_item itemId) w
    (fun r w' =>
       same_session w w' /\
       ((r = (404, ErrorMessage "Menu item not found") /\
         Forall (fun m => mi_id m <> itemId) (menu_items (rows (db w))) /\
         db w' = db w) \/
        (r = (200, Message "Menu item deleted successfully") /\
         ~ Forall (fun m => mi_id m <> itemId) (menu_items (rows (db w))) /\
         rows (db w') = menu_item_deleted itemId (rows (db w))) \/
        (r = (500, ErrorMessage "Internal server error") /\ db w' = db w)))
    (fun _ _ => False).
Proof.
  unfold delete_menu_item. apply post_try_catch, post_bind, post_execute.
  { apply post_ret. split; [split; reflexivity |]. right. right. auto. }
  intros affected d _ I. unfold delete_menu_item_row in I. cbv zeta in I.
  destruct (Z.eqb_spec
              (affectedRows (fun m => mi_id m =? itemId)
                 (menu_items (rows (db w)))) 0) as [Z0 | Z0].
  - injection I as <- <-. cbn [Z.eqb]. apply post_ret.
    split; [split; reflexivity |]. left. split; [reflexivity |].
    split; [apply no_row_with_id, Z0 | reflexivity].
  - injection I as <- <-. apply Z.eqb_neq in Z0. rewrite Z0.
    apply Z.eqb_neq in Z0. apply post_ret.
    split; [split; reflexivity |]. right. left. split; [reflexivity |].
    split; [| reflexivity]. intros N. apply Z0, no_row_with_id, N.
Qed.

Lemma delete_menu_item_no_faults itemId w :
  faults w = [] ->
  fst (delete_menu_item itemId w)
  = if affectedRows (fun m => mi_id m =? itemId) (menu_items (rows (db w)))
       =? 0
    then Ok (404, ErrorMessage "Menu item not found")
    else Ok (200, Message "Menu item deleted successfully").
Proof.
  intros F. unfold delete_menu_item, try_catch, bind.
  unfold execute. rewrite (no_faults_next w F).
  unfold delete_menu_item_row. cbv zeta.
  destruct (affectedRows (fun m => mi_id m =? itemId)
              (menu_items (rows (db w))) =? 0) eqn:E.
  - cbn [Z.eqb]. reflexivity.
  - rewrite E. reflexivity.
Qed.

Section Validated.

Variable trim : string -> string.

Lemma update_menu_item_post itemId body w :
  post (update_menu_item trim itemId body) w
    (update_menu_item_outcome (valid_item_update body) itemId
       (sanitized trim body) w)
    (fun _ _ => False).
Proof.
  unfold update_menu_item. apply post_try_catch.
  destruct (valid_item_update body) eqn:V; cbn [negb].
  2:{ apply post_ret. left. auto. }
  cbv zeta. set (b := sanitized trim body).
  destruct (no_values b) eqn:N.
  { apply post_ret. right. left. auto. }
  apply post_bind, post_execute.
  { apply post_ret. right. right. right. right. auto. }
  intros affected d _ I. unfold update_menu_item_row in I. cbv zeta in I.
  destruct (Z.eqb_spec
              (affectedRows (fun m => mi_id m =? itemId)
                 (menu_items (rows (db w)))) 0) as [Z0 | Z0].
  - injection I as <- <-. cbn [Z.eqb]. apply post_ret.
    right. right. left. split; [reflexivity |]. split; [reflexivity |].
    split; [apply no_row_with_id, Z0 |].
    destruct (db w); reflexivity.
  - assert (X : affected <> 0 /\
                rows d = menu_item_updated b (new_price b) itemId
                           (rows (db w))).
    { unfold new_price. destruct (price b) as [q |].
      - destruct (Money.decimal_10_2 (Some q)) as [c |] eqn:D;
          [| discriminate].
        apply decimal_10_2_Some in D. destruct D as (q' & [= <-] & -> & _).
        injection I as <- <-. split; [exact Z0 | reflexivity].
      - injection I as <- <-. split; [exact Z0 | reflexivity]. }
    destruct X as [X1 X2]. apply Z.eqb_neq in X1. rewrite X1.
    apply post_ret. right. right. right. left. auto.
Qed.

Lemma to_cents_price_nonneg q :
  isFloat_min_0 q = true -> 0 <= Money.to_cents q.
Proof.
  unfold isFloat_min_0. intros H. apply Qle_bool_iff in H.
  apply to_cents_nonneg, H.
Qed.

(** "Add new menu item", for any pattern of faults. *)
Lemma add_menu_item_post insertId subcategory_id name price prep w :
  post (add_menu_item trim insertId subcategory_id name price prep) w
    (fun r w' =>
       (r = (201, Added "Menu item created successfully" insertId) /\
        (exists sc, In sc (subcategories (rows (db w))) /\
                    sc_id sc = subcategory_id) /\
        Forall (fun m => mi_id m <> insertId) (menu_items (rows (db w))) /\
        0 <= Money.to_cents price /\
        rows (db w')
        = menu_item_added insertId subcategory_id (trim name) price
            (rows (db w))) \/
       (fst r <> 201 /\ db w' = db w))
    (fun _ _ => False).
Proof.
  unfold add_menu_item. apply post_try_catch.
  destruct (isLength_min_1 name) eqn:V1; cbn [andb negb];
    [| apply post_ret; right; split; [discriminate | reflexivity]].
  destruct (isFloat_min_0 price) eqn:V2; cbn [andb negb];
    [| apply post_ret; right; split; [discriminate | reflexivity]].
  destruct (optional (Z.leb 1) prep) eqn:V3; cbn [andb negb];
    [| apply post_ret; right; split; [discriminate | reflexivity]].
  apply post_bind, post_query.
  { apply post_ret. right. split; [discriminate | reflexivity]. }
  intros _.
  destruct (select_subcategory subcategory_id (rows (db w))) as [| i l];
    [apply post_ret; right; split; [discriminate | reflexivity] |].
  apply post_bind, post_execute.
  { apply post_ret. right. split; [discriminate | reflexivity]. }
  intros item_id d _ I. unfold insert_menu_item in I. cbv zeta in I.
  change (db (pop_fault w)) with (db w) in I.
  destruct (existsb (fun m => mi_id m =? insertId) (menu_items (rows (db w))))
    eqn:E1; [discriminate |].
  destruct (existsb (fun sc => sc_id sc =? subcategory_id)
              (subcategories (rows (db w)))) eqn:E2; [| discriminate].
  cbn [negb orb] in I.
  destruct (Money.decimal_10_2 (Some price)) as [c |] eqn:D;
    [| discriminate].
  apply decimal_10_2_Some in D. destruct D as (q' & [= <-] & -> & _).
  injection I as <- <-. apply post_ret. left.
  split; [reflexivity |]. split; [apply existsb_eqb_In, E2 |].
  split; [| split; [apply to_cents_price_nonneg, V2 | reflexivity]].
  apply Forall_forall. intros m Hm E.
  assert (X : existsb (fun m => mi_id m =? insertId)
                (menu_items (rows (db w))) = true)
    by (apply existsb_eqb_In; exists m; auto).
  congruence.
Qed.

(** "Add new subcategory", for any pattern of faults. *)
Lemma add_subcategory_post insertId category_id name w :
  post (add_subcategory trim insertId category_id name) w
    (fun r w' =>
       (r = (201, Added "Subcategory created successfully" insertId) /\
        (exists c, In c (categories (rows (db w))) /\
                   c_id c = category_id) /\
        Forall (fun sc => sc_id sc <> insertId)
          (subcategories (rows (db w))) /\
        rows (db w')
        = subcategory_added insertId category_id (trim name)
            (rows (db w))) \/
       (fst r <> 201 /\ db w' = db w))
    (fun _ _ => False).
Proof.
  unfold add_subcategory. apply post_try_catch.
  destruct (isLength_min_1 name) eqn:V1; cbn [andb negb];
    [| apply post_ret; right; split; [discriminate | reflexivity]].
  apply post_bind, post_query.
  { apply post_ret. right. split; [discriminate | reflexivity]. }
  intros _.
  destruct (select_category category_id (rows (db w))) as [| i l];
    [apply post_ret; right; split; [discriminate | reflexivity] |].
  apply post_bind, post_execute.
  { apply post_ret. right. split; [discriminate | reflexivity]. }
  intros item_id d _ I. unfold insert_subcategory in I. cbv zeta in I.
  change (db (pop_fault w)) with (db w) in I.
  destruct (existsb (fun sc => sc_id sc =? insertId)
              (subcategories (rows (db w)))) eqn:E1; [discriminate |].
  destruct (existsb (fun c => c_id c =? category_id)
              (categories (rows (db w)))) eqn:E2; [| discriminate].
  cbn [negb orb] in I. injection I as <- <-. apply post_ret. left.
  split; [reflexivity |]. split; [apply existsb_eqb_In, E2 |].
  split; [| reflexivity].
  apply Forall_forall. intros m Hm E.
  assert (X : existsb (fun sc => sc_id sc =? insertId)
                (subcategories (rows (db w))) = true)
    by (apply existsb_eqb_In; exists m; auto).
  congruence.
Qed.

Lemma update_menu_item_no_faults itemId body w :
  faults w = [] ->
  valid_item_update body = true ->
  no_values (sanitized trim body) = false ->
  fst (update_menu_item trim itemId body w)
  = if affectedRows (fun m => mi_id m =? itemId) (menu_items (rows (db w)))
       =? 0
    then Ok (404, ErrorMessage "Menu item not found")
    else
      match Money.decimal_10_2 (price body) with
      | None =>
          if defined (price body)
          then Ok (500, ErrorMessage "Internal server error")
          else Ok (200, Message "Menu item updated successfully")
      | Some _ => Ok (200, Message "Menu item updated successfully")
      end.
Proof.
  intros F V N. unfold update_menu_item, try_catch, bind. rewrite V.
  cbn [negb]. cbv zeta. rewrite N.
  unfold execute. rewrite (no_faults_next w F).
  unfold update_menu_item_row. cbv zeta.
  change (price (sanitized trim body)) with (price body).
  destruct (affectedRows (fun m => mi_id m =? itemId)
              (menu_items (rows (db w))) =? 0) eqn:E.
  - cbn [Z.eqb]. reflexivity.
  - destruct (price body) as [q |]; cbn [defined Money.decimal_10_2].
    + fold (Money.decimal_10_2 (Some q)).
      destruct (Money.decimal_10_2 (Some q)); [rewrite E |]; reflexivity.
    + rewrite E. reflexivity.
Qed.

End Validated.

(** An item that no row offers cannot be priced. *)
Lemma price_lines_unavailable t id items :
  In id (map Orders.menu_item_id items) ->
  Orders.select_available_menu_item id t = [] ->
  exists id',
    price_lines t items = inl id' /\
    In id' (map Orders.menu_item_id items) /\
    Orders.select_available_menu_item id' t = [].
Proof.
  intros H S. induction items as [| item rest IH]; [contradiction |].
  cbn [price_lines].
  destruct (Orders.select_available_menu_item (Orders.menu_item_id item) t)
    as [| m l] eqn:E.
  - exists (Orders.menu_item_id item). split; [reflexivity |].
    split; [left; reflexivity | exact E].
  - destruct H as [H | H]; [rewrite H, S in E; discriminate |].
    destruct (IH H) as (id' & P & I' & S'). rewrite P.
    exists id'. split; [reflexivity |]. split; [right; exact I' | exact S'].
Qed.

Lemma calculate_totals_no_faults items :
  forall subtotal acc w,
    faults w = [] ->
    Orders.calculate_totals items subtotal acc w
    = (Ok match price_lines (rows (db w)) items with
          | inl id => inl id
          | inr lines => inr (sum_totals lines subtotal, acc ++ lines)
          end, w).
Proof.
  induction items as [| item rest IH]; intros subtotal acc w F.
  - cbn. rewrite app_nil_r. reflexivity.
  - cbn [Orders.calculate_totals price_lines]. unfold bind.
    rewrite (query_no_faults _ w F).
    destruct (Orders.select_available_menu_item (Orders.menu_item_id item)
                (rows (db w))) as [| m l]; [reflexivity |].
    rewrite IH by exact F.
    destruct (price_lines (rows (db w)) rest) as [id | lines];
      [reflexivity |].
    cbn [sum_totals fold_left]. rewrite <- app_assoc. reflexivity.
Qed.

(** An order for an item that is not offered is refused, and the rows
    are what they were. *)
Lemma create_order_unavailable parseFloat e now user_id body w id :
  faults w = [] -> transaction w = None ->
  Orders.valid_order_request body = true ->
  price_lines (rows (db w)) (Orders.items body) = inl id ->
  exists w',
    Orders.create_order parseFloat e now user_id body w
    = (Ok (unavailable id), w') /\
    rows (db w') = rows (db w).
Proof.
  intros F T V P.
  unfold Orders.create_order, Orders.order_transaction, try_catch, bind.
  rewrite (beginTransaction_no_faults w F). cbv beta iota. rewrite V.
  cbn [negb].
  rewrite calculate_totals_no_faults by exact F.
  cbn [rows db set_transaction]. rewrite P. unfold rollback.
  cbn [transaction set_transaction]. cbv beta iota.
  eexists. split; [reflexivity |]. reflexivity.
Qed.

End MenuFacts.

Module MenuTheorems.

Import Run RunFacts NoFaults StatusFacts MoneyFacts Menu MenuEffects
  PrinterRouteFacts MenuFacts Placement Sample.

(** X13. Deleting a menu item takes its lines along.  When "Delete menu
    item" answers 200 the item is gone, and with it every line of an
    order for the item and every line of a ticket for such a line; the
    orders and the tickets themselves, with their amounts, are what they
    were.  Otherwise nothing has changed.  With no fault injected it
    answers 200 when the item exists and 404 when it does not. *)
Theorem deleted_menu_item_takes_its_lines_along (itemId : Z) (w : world) :
  exists r w',
    delete_menu_item itemId w = (Ok r, w') /\
    (r = (200, Message "Menu item deleted successfully") ->
     rows (db w') = menu_item_deleted itemId (rows (db w)) /\
     Forall (fun m => mi_id m <> itemId) (menu_items (rows (db w'))) /\
     Forall (fun oi => oi_menu_item_id oi <> itemId)
       (order_items (rows (db w'))) /\
     Forall (fun ki =>
               forall oi, In oi (order_items (rows (db w))) ->
                          oi_menu_item_id oi = itemId ->
                          ki_order_item_id ki <> oi_id oi)
       (kot_items (rows (db w'))) /\
     orders (rows (db w')) = orders (rows (db w)) /\
     kots (rows (db w')) = kots (rows (db w))) /\
    (r <> (200, Message "Menu item deleted successfully") -> db w' = db w) /\
    (faults w = [] ->
     ((exists m, In m (menu_items (rows (db w))) /\ mi_id m = itemId) ->
      r = (200, Message "Menu item deleted successfully")) /\
     (Forall (fun m => mi_id m <> itemId) (menu_items (rows (db w))) ->
      r = (404, ErrorMessage "Menu item not found"))).
Proof.
  pose proof (delete_menu_item_post itemId w) as H. unfold post in H.
  pose proof (delete_menu_item_no_faults itemId w) as N.
  destruct (delete_menu_item itemId w) as [[r | e] w'] eqn:R;
    [| contradiction].
  exists r, w'. split; [reflexivity |]. destruct H as (_ & H).
  split; [| split].
  - intros ->.
    destruct H as [(E & _) | [(_ & _ & D) | (E & _)]]; try discriminate.
    split; [exact D |]. rewrite D.
    cbn -[delete_where]. repeat split.
    + generalize (delete_where_Forall (fun m => mi_id m =? itemId)
                    (menu_items (rows (db w)))).
      apply Forall_impl. intros m. apply Z.eqb_neq.
    + generalize (delete_where_Forall (fun oi => oi_menu_item_id oi =? itemId)
                    (order_items (rows (db w)))).
      apply Forall_impl. intros m. apply Z.eqb_neq.
    + generalize (delete_where_Forall (on_ticket (ordered itemId (rows (db w))))
                    (kot_items (rows (db w)))).
      apply Forall_impl. intros ki Hk oi Hoi E1 E2.
      assert (X : on_ticket (ordered itemId (rows (db w))) ki = true);
        [| congruence].
      unfold on_ticket, ordered. apply existsb_exists. exists oi.
      split; [| apply Z.eqb_eq; congruence].
      apply filter_In. split; [exact Hoi | apply Z.eqb_eq, E1].
  - intros NE.
    destruct H as [(_ & _ & D) | [(E & _) | (_ & D)]];
      [exact D | contradiction | exact D].
  - intros F. specialize (N F). cbn [fst] in N. split.
    + intros (m & Hm & E).
      destruct (Z.eqb_spec
                  (affectedRows (fun m => mi_id m =? itemId)
                     (menu_items (rows (db w)))) 0) as [Z0 | Z0].
      * apply no_row_with_id in Z0. rewrite Forall_forall in Z0.
        elim (Z0 m Hm E).
      * congruence.
    + intros A. apply no_row_with_id in A. rewrite A in N. cbn in N.
      congruence.
Qed.

(** The espresso is taken off the menu of the busy shop: order 1 keeps
    its subtotal of 119.50, and the lines that are left add up to
    112.00. *)
Lemma deleted_menu_item_takes_its_lines_along_witness :
  let w := world_of busy_shop [] LinkUp in
  let w' := snd (delete_menu_item 2 w) in
  fst (delete_menu_item 2 w)
  = Ok (200, Message "Menu item deleted successfully") /\
  map o_subtotal (orders (rows (db w'))) = [11950] /\
  map oi_total_price (order_items (rows (db w'))) = [10000; 1200] /\
  map ki_menu_item_name (kot_items (rows (db w')))
  = ["Margherita"; "Pool hour"] /\
  Forall (fun oi => oi_menu_item_id oi <> 2) (order_items (rows (db w'))).
Proof.
  intros w w'. split; [reflexivity |]. split; [reflexivity |].
  split; [reflexivity |]. split; [reflexivity |].
  destruct (deleted_menu_item_takes_its_lines_along 2 w)
    as (r & w1 & R & H & _).
  assert (E : (Ok r, w1)
              = (Ok (200, Message "Menu item deleted successfully"), w'))
    by (rewrite <- R; reflexivity).
  injection E as -> ->. apply H. reflexivity.
Defined.

Section Validated.

Variable trim : string -> string.

(** X14. "Update menu item" writes the columns the request names, for
    the rows with the identifier, and nothing else: no line of an order
    or of a ticket changes, so an order keeps the price and the name it
    was placed with.  A request that names no column is answered with
    400 and runs no statement; an identifier that no item has is a
    404. *)
Theorem menu_update_writes_the_named_columns (itemId : Z)
    (body : item_update) (w : world) :
  (exists r w',
      update_menu_item trim itemId body w = (Ok r, w') /\
      update_menu_item_outcome (valid_item_update body) itemId
        (sanitized trim body) w r w' /\
      order_items (rows (db w')) = order_items (rows (db w)) /\
      kot_items (rows (db w')) = kot_items (rows (db w)) /\
      orders (rows (db w')) = orders (rows (db w))) /\
  (faults w = [] ->
   valid_item_update body = true ->
   no_values (sanitized trim body) = false ->
   (Forall (fun m => mi_id m <> itemId) (menu_items (rows (db w))) ->
    fst (update_menu_item trim itemId body w)
    = Ok (404, ErrorMessage "Menu item not found")) /\
   ((exists m, In m (menu_items (rows (db w))) /\ mi_id m = itemId) ->
    (forall q, price body = Some q ->
               Z.abs (Money.to_cents q) <= Money.max_decimal_10_2) ->
    fst (update_menu_item trim itemId body w)
    = Ok (200, Message "Menu item updated successfully"))).
Proof.
  split.
  - pose proof (update_menu_item_post trim itemId body w) as H.
    unfold post in H.
    destruct (update_menu_item trim itemId body w) as [[r | e] w'];
      [| contradiction].
    exists r, w'. split; [reflexivity |]. split; [exact H |].
    destruct H as [(_ & _ & ->) | [(_ & _ & _ & ->) | [(_ & _ & _ & ->)
                  | [(_ & _ & _ & ->) | (_ & _ & ->)]]]];
      repeat split.
  - intros F V N.
    rewrite (update_menu_item_no_faults trim itemId body w F V N). split.
    + intros A. apply no_row_with_id in A. rewrite A. reflexivity.
    + intros (m & Hm & E) Fit.
      destruct (Z.eqb_spec
                  (affectedRows (fun m => mi_id m =? itemId)
                     (menu_items (rows (db w)))) 0) as [Z0 | Z0].
      * apply no_row_with_id in Z0. rewrite Forall_forall in Z0.
        elim (Z0 m Hm E).
      * destruct (price body) as [q |]; [| reflexivity].
        unfold Money.decimal_10_2.
        destruct (Z.leb_spec (Z.abs (Money.to_cents q))
                    Money.max_decimal_10_2) as [L | L]; [reflexivity |].
        specialize (Fit q eq_refl). lia.
Qed.

(** X15. The menu routes keep every price non-negative: if no menu item
    has a negative price, none has after "Add new menu item", "Update
    menu item" or "Delete menu item", whatever the request and whatever
    fails. *)
Theorem menu_prices_stay_non_negative (w : world) :
  prices_nonneg (rows (db w)) ->
  (forall insertId subcategory_id name price preparation_time,
      prices_nonneg
        (rows (db (snd (add_menu_item trim insertId subcategory_id name
                          price preparation_time w))))) /\
  (forall itemId body,
      prices_nonneg
        (rows (db (snd (update_menu_item trim itemId body w))))) /\
  (forall itemId,
      prices_nonneg (rows (db (snd (delete_menu_item itemId w))))).
Proof.
  intros P. unfold prices_nonneg in *. split; [| split].
  - intros insertId subcategory_id name price prep.
    pose proof (add_menu_item_post trim insertId subcategory_id name price
                  prep w) as H.
    unfold post in H.
    destruct (add_menu_item trim insertId subcategory_id name price prep w)
      as [[r | e] w']; [| contradiction].
    cbn [snd]. destruct H as [(_ & _ & _ & N & D) | (_ & D)].
    + rewrite D. cbn. apply Forall_app. split; [exact P |].
      constructor; [exact N | constructor].
    + rewrite D. exact P.
  - intros itemId body.
    pose proof (update_menu_item_post trim itemId body w) as H.
    unfold post in H.
    destruct (update_menu_item trim itemId body w) as [[r | e] w'];
      [| contradiction].
    cbn [snd].
    destruct H as [(_ & _ & ->) | [(_ & _ & _ & ->) | [(_ & _ & _ & ->)
                  | [(_ & V & _ & D) | (_ & _ & ->)]]]]; try exact P.
    rewrite D. cbn. apply update_where_preserves; [exact P |].
    intros m Hm. cbn. unfold new_price.
    change (price (sanitized trim body)) with (price body).
    destruct (price body) as [q |] eqn:Eq; cbn; [| exact Hm].
    apply to_cents_price_nonneg.
    unfold valid_item_update in V. rewrite Eq in V. cbn in V.
    apply andb_true_iff in V. destruct V as [V _].
    apply andb_true_iff in V. apply V.
  - intros itemId.
    pose proof (delete_menu_item_post itemId w) as H. unfold post in H.
    destruct (delete_menu_item itemId w) as [[r | e] w'];
      [| contradiction].
    cbn [snd]. destruct H as (_ & [(_ & _ & ->) | [(_ & _ & D) | (_ & ->)]]);
      try exact P.
    rewrite D. cbn -[delete_where]. apply delete_where_incl, P.
Qed.

(** X16. No child without its parent.  "Add new subcategory" answers
    201 only for a category that exists, and "Add new menu item" only for
    a subcategory that exists; the row is then the last of its table,
    with the trimmed name and, for an item, the price in cents,
    available.  Any other answer leaves the database as it was, and with
    no fault injected a missing parent is answered with 400. *)
Theorem no_child_without_its_parent (insertId : Z) (w : world) :
  (forall category_id name,
      exists r w',
        add_subcategory trim insertId category_id name w = (Ok r, w') /\
        (r = (201, Added "Subcategory created successfully" insertId) ->
         (exists c, In c (categories (rows (db w))) /\
                    c_id c = category_id) /\
         rows (db w')
         = subcategory_added insertId category_id (trim name)
             (rows (db w))) /\
        (fst r <> 201 -> db w' = db w) /\
        (faults w = [] -> isLength_min_1 name = true ->
         select_category category_id (rows (db w)) = [] ->
         r = (400, ErrorMessage "Category not found"))) /\
  (forall subcategory_id name price preparation_time,
      exists r w',
        add_menu_item trim insertId subcategory_id name price
          preparation_time w = (Ok r, w') /\
        (r = (201, Added "Menu item created successfully" insertId) ->
         (exists sc, In sc (subcategories (rows (db w))) /\
                     sc_id sc = subcategory_id) /\
         rows (db w')
         = menu_item_added insertId subcategory_id (trim name) price
             (rows (db w))) /\
        (fst r <> 201 -> db w' = db w) /\
        (faults w = [] ->
         isLength_min_1 name && isFloat_min_0 price
         && optional (Z.leb 1) preparation_time = true ->
         select_subcategory subcategory_id (rows (db w)) = [] ->
         r = (400, ErrorMessage "Subcategory not found"))).
Proof.
  split.
  - intros category_id name.
    pose proof (add_subcategory_post trim insertId category_id name w) as H.
    unfold post in H.
    assert (N : faults w = [] -> isLength_min_1 name = true ->
                select_category category_id (rows (db w)) = [] ->
                fst (add_subcategory trim insertId category_id name w)
                = Ok (400, ErrorMessage "Category not found")).
    { intros F V S. unfold add_subcategory, try_catch, bind. rewrite V.
      cbn [negb]. rewrite (query_no_faults _ w F), S. reflexivity. }
    destruct (add_subcategory trim insertId category_id name w)
      as [[r | e] w']; [| contradiction].
    exists r, w'. split; [reflexivity |]. split; [| split].
    + intros ->. destruct H as [(_ & C & _ & D) | (E & _)];
        [auto | elim E; reflexivity].
    + intros NE. destruct H as [(-> & _) | (_ & D)];
        [elim NE; reflexivity | exact D].
    + intros F V S. specialize (N F V S). cbn [fst] in N. congruence.
  - intros subcategory_id name price prep.
    pose proof (add_menu_item_post trim insertId subcategory_id name price
                  prep w) as H.
    unfold post in H.
    assert (N : faults w = [] ->
                isLength_min_1 name && isFloat_min_0 price
                && optional (Z.leb 1) prep = true ->
                select_subcategory subcategory_id (rows (db w)) = [] ->
                fst (add_menu_item trim insertId subcategory_id name price
                       prep w)
                = Ok (400, ErrorMessage "Subcategory not found")).
    { intros F V S. unfold add_menu_item, try_catch, bind. rewrite V.
      cbn [negb]. rewrite (query_no_faults _ w F), S. reflexivity. }
    destruct (add_menu_item trim insertId subcategory_id name price prep w)
      as [[r | e] w']; [| contradiction].
    exists r, w'. split; [reflexivity |]. split; [| split].
    + intros ->. destruct H as [(_ & C & _ & _ & D) | (E & _)];
        [auto | elim E; reflexivity].
    + intros NE. destruct H as [(-> & _) | (_ & D)];
        [elim NE; reflexivity | exact D].
    + intros F V S. specialize (N F V S). cbn [fst] in N. congruence.
Qed.

(** X17. An item that is taken off the menu cannot be ordered.  Once
    "Update menu item" has set [is_available] to false, an order that
    names the item is answered with 400 "Menu item ... not found or
    unavailable", for the first line that cannot be served, and adds no
    row. *)
Theorem unavailable_item_cannot_be_ordered
    (parseFloat : string -> option Q) (itemId : Z) (body : item_update)
    (w w1 : world) (e : Orders.entropy) (now user_id : Z)
    (request : Orders.order_request) (w2 : world) :
  update_menu_item trim itemId body w
  = (Ok (200, Message "Menu item updated successfully"), w1) ->
  is_available body = Some false ->
  db w2 = db w1 -> faults w2 = [] -> transaction w2 = None ->
  Orders.valid_order_request request = true ->
  In itemId (map Orders.menu_item_id (Orders.items request)) ->
  exists id w3,
    Orders.create_order parseFloat e now user_id request w2
    = (Ok (unavailable id), w3) /\
    In id (map Orders.menu_item_id (Orders.items request)) /\
    Orders.select_available_menu_item id (rows (db w1)) = [] /\
    rows (db w3) = rows (db w1).
Proof.
  intros R A D2 F2 T2 V I.
  pose proof (update_menu_item_post trim itemId body w) as H.
  unfold post in H. rewrite R in H.
  destruct H as [(E & _) | [(E & _) | [(E & _) | [(_ & _ & _ & D) | (E & _)]]]];
    try discriminate.
  assert (S : Orders.select_available_menu_item itemId (rows (db w1)) = []).
  { rewrite D. unfold Orders.select_available_menu_item. cbn.
    apply filter_nil_Forall. unfold update_where. apply Forall_forall.
    intros m Hm. apply in_map_iff in Hm. destruct Hm as (m0 & <- & _).
    destruct (mi_id m0 =? itemId) eqn:E; [| rewrite E; reflexivity].
    cbn. rewrite A. apply andb_false_r. }
  destruct (price_lines_unavailable _ _ _ I S) as (id & P & I' & S').
  rewrite <- D2 in P.
  destruct (@create_order_unavailable parseFloat e now user_id request w2 id
              F2 T2 V P) as (w3 & R3 & D3).
  exists id, w3. rewrite <- D2 at 2. auto.
Qed.

End Validated.

(** The menu of the shop has no negative price; neither has it after a
    request to set the price of the espresso to 3.005, which is stored
    as 3.01. *)
Lemma menu_prices_stay_non_negative_witness :
  let w := world_of empty_shop [] LinkUp in
  let body :=
    {| name := None; description := None; price := Some (3005 # 1000)%Q;
       image_url := None; preparation_time := None;
       is_available := None |} in
  prices_nonneg (rows (db w)) /\
  map mi_price (menu_items (rows (db (snd (update_menu_item trim_blanks 2 body w)))))
  = [10000; 301; 899; 1200] /\
  prices_nonneg (rows (db (snd (update_menu_item trim_blanks 2 body w)))).
Proof.
  intros w body.
  assert (P : prices_nonneg (rows (db w))).
  { unfold prices_nonneg. cbn. repeat constructor; discriminate. }
  split; [exact P |]. split; [reflexivity |].
  apply (proj1 (proj2 (@menu_prices_stay_non_negative trim_blanks w P))).
Defined.

(** The espresso is taken off the menu of the empty shop; an order of a
    pizza and an espresso is refused for menu item 2. *)
Lemma unavailable_item_cannot_be_ordered_witness :
  let w := world_of empty_shop [] LinkUp in
  let body :=
    {| name := None; description := None; price := None;
       image_url := None; preparation_time := None;
       is_available := Some false |} in
  let w1 := snd (update_menu_item trim_blanks 2 body w) in
  exists w3,
    Orders.create_order decimal_literal the_entropy 1700000000100 7
      (request [line 1 1; line 2 1]) w1
    = (Ok (BadRequest "Menu item 2 not found or unavailable"), w3) /\
    orders (rows (db w3)) = [].
Proof.
  intros w body w1.
  destruct (@unavailable_item_cannot_be_ordered trim_blanks decimal_literal
              2 body w w1 the_entropy 1700000000100 7
              (request [line 1 1; line 2 1]) w1
              eq_refl eq_refl eq_refl eq_refl eq_refl eq_refl
              (or_intror (or_introl eq_refl)))
    as (id & w3 & R & I & S & D).
  exists w3.
  assert (E : id = 2).
  { destruct I as [<- | [<- | []]]; [discriminate S | reflexivity]. }
  subst id. split; [exact R |]. rewrite D. reflexivity.
Defined.

End MenuTheorems.

Module StatusEdgeFacts.

Import Run RunFacts NoFaults Status StatusFacts Orders Kots MenuFacts.

Lemma update_where_none {A} (c : A -> bool) (f : A -> A) (l : list A) :
  Forall (fun x => c x = false) l -> update_where c f l = l.
Proof.
  unfold update_where. induction 1 as [| x l H _ IH]; cbn;
    [reflexivity |].
  rewrite H, IH. reflexivity.
Qed.

Lemma no_row_eqb {A} (f : A -> Z) (n : Z) (l : list A) :
  Forall (fun x => f x <> n) l -> Forall (fun x => (f x =? n) = false) l.
Proof. apply Forall_impl. intros x. apply Z.eqb_neq. Qed.

Lemma same_tables t :
  {| menu_items := menu_items t; subcategories := subcategories t;
     categories := categories t; system_settings := system_settings t;
     orders := orders t; order_items := order_items t; kots := kots t;
     kot_items := kot_items t; printers := printers t;
     printer_category_mappings := printer_category_mappings t |} = t.
Proof. destruct t; reflexivity. Qed.

Lemma same_world w :
  set_db {| rows := rows (db w); auto_increment := auto_increment (db w) |} w
  = w.
Proof. destruct w as [[t c] tr fs wi]. reflexivity. Qed.

Lemma update_passes (f : tables -> tables) w :
  next_fault w = false ->
  update f w
  = (Ok tt,
     set_db {| rows := f (rows (db w));
               auto_increment := auto_increment (db w) |} (pop_fault w)).
Proof. intros F. unfold update, execute. rewrite F. reflexivity. Qed.

Lemma update_fails (f : tables -> tables) w :
  next_fault w = true -> update f w = (Throw DbError, pop_fault w).
Proof. intros F. unfold update, execute. rewrite F. reflexivity. Qed.

Lemma query_fails {A} (q : tables -> A) w :
  next_fault w = true -> query q w = (Throw DbError, pop_fault w).
Proof. intros F. unfold query, execute. rewrite F. reflexivity. Qed.

End StatusEdgeFacts.

Module StatusEdgeTheorems.

Import Run RunFacts NoFaults Status StatusFacts Orders Kots MenuFacts
  StatusEdgeFacts Sample.

(** X18. A status update that addresses no row is answered like any
    other: with no fault injected the handlers report success, there is
    no 404.  For an order or a ticket that no row has, the database is
    what it was.  For a line that the ticket does not have, no line
    changes; and when [Ready] is asked for and all lines of the ticket
    are [Ready], the ticket is set to [Ready] with a new completion time
    all the same, otherwise the database is what it was. *)
Theorem status_update_of_a_missing_row_reports_success
    (now id : Z) (status : string) (w : world) :
  faults w = [] ->
  (includes order_statuses status = true ->
   Forall (fun o => o_id o <> id) (orders (rows (db w))) ->
   update_order_status id status w
   = (Ok (Success "Order status updated successfully"), w)) /\
  (includes kot_statuses status = true ->
   Forall (fun k => k_id k <> id) (kots (rows (db w))) ->
   Forall (fun i => ki_kot_id i <> id) (kot_items (rows (db w))) ->
   update_kot_status now id status w
   = (Ok (Success "KOT status updated successfully"), w)) /\
  (forall itemId,
      includes kot_item_statuses status = true ->
      Forall (fun i => ki_id i <> itemId \/ ki_kot_id i <> id)
        (kot_items (rows (db w))) ->
      exists w',
        update_kot_item_status now id itemId status w
        = (Ok (Success "KOT item status updated successfully"), w') /\
        kot_items (rows (db w')) = kot_items (rows (db w)) /\
        (status = "Ready" -> all_lines_ready id (rows (db w)) ->
         rows (db w') = set_kot_ready now id (rows (db w)) /\
         Forall (fun k => k_id k = id ->
                   k_status k = "Ready" /\ k_completed_at k = Some now)
           (kots (rows (db w')))) /\
        (status <> "Ready" \/ ~ all_lines_ready id (rows (db w)) ->
         w' = w)).
Proof.
  intros F. split; [| split].
  - intros V No. unfold update_order_status, try_catch, bind. rewrite V.
    cbn [negb]. rewrite (update_no_faults _ w F).
    assert (E : set_order_status status id (rows (db w)) = rows (db w)).
    { unfold set_order_status.
      rewrite update_where_none by (apply no_row_eqb, No).
      apply same_tables. }
    rewrite E, same_world. reflexivity.
  - intros V Nk Ni. unfold update_kot_status, try_catch, bind. rewrite V.
    cbn [negb]. cbv zeta. rewrite (update_no_faults _ w F).
    assert (E : forall c, set_kot_status status c id (rows (db w))
                          = rows (db w)).
    { intros c. unfold set_kot_status.
      rewrite update_where_none by (apply no_row_eqb, Nk).
      apply same_tables. }
    rewrite E, same_world.
    destruct (status =? "Ready")%string; [| reflexivity].
    rewrite (update_no_faults _ w F).
    assert (Ea : set_all_items_ready id (rows (db w)) = rows (db w)).
    { unfold set_all_items_ready.
      rewrite update_where_none by (apply no_row_eqb, Ni).
      apply same_tables. }
    rewrite Ea, same_world. reflexivity.
  - intros itemId V Ni. unfold update_kot_item_status, try_catch, bind.
    rewrite V. cbn [negb]. rewrite (update_no_faults _ w F).
    assert (E : set_kot_item_status status itemId id (rows (db w))
                = rows (db w)).
    { unfold set_kot_item_status.
      rewrite update_where_none; [apply same_tables |].
      revert Ni. apply Forall_impl. intros i [N | N].
      - apply andb_false_iff. left. apply Z.eqb_neq, N.
      - apply andb_false_iff. right. apply Z.eqb_neq, N. }
    rewrite E, same_world.
    destruct (String.eqb_spec status "Ready") as [R | R].
    + rewrite (query_no_faults _ w F).
      destruct (Z.eqb_spec (count_not_ready id (rows (db w))) 0) as [C | C].
      * rewrite (update_no_faults _ w F). eexists. split; [reflexivity |].
        split; [reflexivity |]. split.
        -- intros _ _. split; [reflexivity |]. cbn.
           apply update_where_Forall.
           ++ intros k _ _. split; reflexivity.
           ++ intros k N K. apply Z.eqb_neq in N. contradiction.
        -- intros [N | N]; [contradiction |].
           exfalso. apply N, count_not_ready_zero, C.
      * exists w. split; [reflexivity |]. split; [reflexivity |]. split.
        -- intros _ A. exfalso. apply C, count_not_ready_zero, A.
        -- reflexivity.
    + exists w. split; [reflexivity |]. split; [reflexivity |]. split.
      * intros S. contradiction.
      * reflexivity.
Qed.

(** Order 99 and ticket 99 do not exist in the busy shop, and ticket 1
    has no line 99.  In the shop where ticket 1 is [Served] with all its
    lines [Ready], the request to set line 99 of ticket 1 to [Ready]
    sets the ticket back to [Ready]. *)
Lemma status_update_of_a_missing_row_reports_success_witness :
  let w := world_of busy_shop [] LinkUp in
  let served := world_of served_ticket_shop [] LinkUp in
  update_order_status 99 "Completed" w
  = (Ok (Success "Order status updated successfully"), w) /\
  update_kot_status 1700000000200 99 "Ready" w
  = (Ok (Success "KOT status updated successfully"), w) /\
  update_kot_item_status 1700000000200 1 99 "Ready" w
  = (Ok (Success "KOT item status updated successfully"), w) /\
  map k_status (kots (rows (db served))) = ["Served"] /\
  fst (update_kot_item_status 1700000000600 1 99 "Ready" served)
  = Ok (Success "KOT item status updated successfully") /\
  map (fun k => (k_status k, k_completed_at k))
    (kots (rows (db (snd (update_kot_item_status 1700000000600 1 99 "Ready"
                            served)))))
  = [("Ready", Some 1700000000600)].
Proof.
  intros w served.
  assert (No : Forall (fun o => o_id o <> 99) (orders (rows (db w))))
    by (repeat constructor; discriminate).
  assert (Nk : Forall (fun k => k_id k <> 99) (kots (rows (db w))))
    by (repeat constructor; discriminate).
  assert (Ni : Forall (fun i => ki_kot_id i <> 99) (kot_items (rows (db w))))
    by (repeat constructor; discriminate).
  assert (Nl : Forall (fun i => ki_id i <> 99 \/ ki_kot_id i <> 1)
                 (kot_items (rows (db w))))
    by (repeat (apply Forall_cons; [left; discriminate |]);
        apply Forall_nil).
  assert (Ns : Forall (fun i => ki_id i <> 99 \/ ki_kot_id i <> 1)
                 (kot_items (rows (db served))))
    by (repeat (apply Forall_cons; [left; discriminate |]);
        apply Forall_nil).
  destruct (@status_update_of_a_missing_row_reports_success
              1700000000200 99 "Completed" w eq_refl) as (H1 & _).
  destruct (@status_update_of_a_missing_row_reports_success
              1700000000200 99 "Ready" w eq_refl) as (_ & H2 & _).
  destruct (@status_update_of_a_missing_row_reports_success
              1700000000200 1 "Ready" w eq_refl) as (_ & _ & H3).
  destruct (@status_update_of_a_missing_row_reports_success
              1700000000600 1 "Ready" served eq_refl) as (_ & _ & H4).
  split; [apply H1; [reflexivity | exact No] |].
  split; [apply H2; [reflexivity | exact Nk | exact Ni] |].
  split.
  { destruct (H3 99 eq_refl Nl) as (w' & R & _ & _ & U). rewrite R.
    rewrite U; [reflexivity |]. right. intros A.
    specialize (A (nth 0 (kot_items (rows (db w)))
                     (kot_item_row 0 0 0 "" 0 None))
                  (or_introl eq_refl) eq_refl).
    discriminate. }
  split; [reflexivity |].
  destruct (H4 99 eq_refl Ns) as (w' & R & _ & C & _). rewrite R.
  split; [reflexivity |]. cbn [snd].
  destruct C as [C _]; [reflexivity | |].
  - intros i Hi _. cbn in Hi.
    destruct Hi as [<- | [<- | [<- | []]]]; reflexivity.
  - rewrite C. reflexivity.
Defined.

(** X19. The status updates of a ticket run their statements one by
    one, outside a transaction.  When the first statement passes and the
    second fails, the request is answered with 500 and the first change
    stays: the ticket is [Ready], with its completion time, while its
    lines are what they were; or the line has its new status while the
    ticket is what it was. *)
Theorem ticket_status_update_is_not_atomic (now kotId : Z) (w : world)
    (rest : list bool) :
  faults w = false :: true :: rest ->
  (let r := update_kot_status now kotId "Ready" w in
   fst r = Ok InternalServerError /\
   kots (rows (db (snd r)))
   = update_where (fun k => k_id k =? kotId)
       (fun k => set_completed_at (Some now) (set_status_kot "Ready" k))
       (kots (rows (db w))) /\
   kot_items (rows (db (snd r))) = kot_items (rows (db w))) /\
  (forall itemId,
      let r := update_kot_item_status now kotId itemId "Ready" w in
      fst r = Ok InternalServerError /\
      kot_items (rows (db (snd r)))
      = update_where (fun i => (ki_id i =? itemId) && (ki_kot_id i =? kotId))
          (set_status_kot_item "Ready") (kot_items (rows (db w))) /\
      kots (rows (db (snd r))) = kots (rows (db w))).
Proof.
  intros F.
  assert (F0 : next_fault w = false) by (unfold next_fault; rewrite F; reflexivity).
  assert (F1 : forall d, next_fault (set_db d (pop_fault w)) = true)
    by (intros d; unfold next_fault; cbn; rewrite F; reflexivity).
  split.
  - cbv zeta. unfold update_kot_status, try_catch, bind.
    cbn [includes kot_statuses existsb String.eqb Ascii.eqb Bool.eqb orb
         negb].
    cbv beta iota. rewrite (update_passes _ w F0).
    rewrite update_fails by apply F1. repeat split.
  - intros itemId. cbv zeta. unfold update_kot_item_status, try_catch, bind.
    cbn [includes kot_item_statuses existsb String.eqb Ascii.eqb Bool.eqb
         orb negb].
    cbv beta iota. rewrite (update_passes _ w F0).
    rewrite query_fails by apply F1. repeat split.
Qed.

(** The busy shop, when the second statement of the request fails: the
    ticket is [Ready] and its three lines are [Pending]. *)
Lemma ticket_status_update_is_not_atomic_witness :
  let w := world_of busy_shop [false; true] LinkUp in
  let r := update_kot_status 1700000000200 1 "Ready" w in
  fst r = Ok InternalServerError /\
  map k_status (kots (rows (db (snd r)))) = ["Ready"] /\
  map ki_status (kot_items (rows (db (snd r))))
  = ["Pending"; "Pending"; "Pending"].
Proof.
  intros w r.
  destruct (proj1 (@ticket_status_update_is_not_atomic 1700000000200 1 w []
                     eq_refl)) as (H1 & H2 & H3).
  split; [exact H1 |]. subst r. rewrite H2, H3. split; reflexivity.
Defined.

End StatusEdgeTheorems.

Module OrderEdgeFacts.

Import Run RunFacts NoFaults Routing Orders Placement MoneyFacts
  PrinterService PrinterFacts OrderFacts MenuFacts Tickets OrderRequests.

Section Transaction.

Variable parseFloat : string -> option Q.
Variables (e : entropy) (user_id : Z) (body : order_request).

(** A transaction that commits has found the order number and the
    ticket number free. *)
Lemma order_transaction_numbers w :
  post (order_transaction parseFloat e user_id body) w
    (fun t _ =>
       match t with
       | Committed _ =>
           Forall (fun o => o_order_number o <> order_number e)
             (orders (rows (db w))) /\
           Forall (fun k => k_kot_number k <> kot_number e)
             (kots (rows (db w)))
       | Returned _ => True
       end)
    (fun _ _ => True).
Proof.
  unfold order_transaction.
  apply post_bind, post_beginTransaction; [exact I |]. intros _.
  destruct (valid_order_request body); cbn [negb].
  2:{ apply post_bind, post_rollback. intros. apply post_ret. exact I. }
  apply post_bind, calculate_totals_post.
  { intros; exact I. }
  { intros id w' _ _. apply post_bind, post_rollback. intros.
    apply post_ret. exact I. }
  intros lines w2 (D2 & _ & _) _.
  change (db (set_transaction (Some (rows (db w))) (pop_fault w)))
    with (db w) in D2.
  apply post_bind, post_query; [exact I |]. intros _.
  apply post_bind, post_execute; [exact I |].
  intros orderId d _ Ins. cbn [db pop_fault] in Ins. rewrite D2 in Ins.
  unfold insert_order in Ins.
  destruct (existsb (fun o => (o_order_number o =? _)%string)
              (orders (rows (db w)))) eqn:Fo; [discriminate |].
  assert (No : Forall (fun o => o_order_number o <> order_number e)
                 (orders (rows (db w)))).
  { apply Forall_forall. intros o Ho E.
    assert (X : existsb (fun o => (o_order_number o =? order_number e)%string)
                  (orders (rows (db w))) = true).
    { apply existsb_exists. exists o. split; [exact Ho |].
      apply String.eqb_eq, E. }
    unfold order_number in X. congruence. }
  destruct (Money.decimal_10_2 _) as [s |]; [| discriminate].
  destruct (Money.decimal_10_2 _) as [tx |]; [| discriminate].
  destruct (Money.decimal_10_2 _) as [tot |]; [| discriminate].
  injection Ins as <- <-.
  match goal with
  | |- post _ (set_db ?d ?w0) _ _ =>
      set (dA := d); set (wA := set_db dA w0)
  end.
  assert (DA : kots (rows (db wA)) = kots (rows (db w))) by reflexivity.
  clearbody wA.
  apply post_bind, create_order_items_post; [intros; exact I |].
  intros w3 _ D3.
  assert (K3 : kots (rows (db w3)) = kots (rows (db w)))
    by (rewrite D3; exact DA).
  apply post_bind, post_query; [exact I |]. intros _.
  apply post_bind, post_execute; [exact I |].
  intros kotId d' _ Ins. cbn [db pop_fault] in Ins.
  unfold insert_kot in Ins.
  destruct (existsb (fun k => (k_kot_number k =? _)%string)
              (kots (rows (db w3)))) eqn:Fk; [discriminate |].
  assert (Nk : Forall (fun k => k_kot_number k <> kot_number e)
                 (kots (rows (db w)))).
  { apply Forall_forall. intros k Hk E. rewrite <- K3 in Hk.
    assert (X : existsb (fun k => (k_kot_number k =? kot_number e)%string)
                  (kots (rows (db w3))) = true).
    { apply existsb_exists. exists k. split; [exact Hk |].
      apply String.eqb_eq, E. }
    unfold kot_number in X. congruence. }
  injection Ins as <- <-.
  apply post_bind, post_query; [exact I |]. intros _.
  apply post_bind, create_kot_items_post; [intros; exact I |].
  intros w4 _ _.
  apply post_bind, post_commit; [exact I |]. intros _.
  apply post_ret. split; assumption.
Qed.

(** The step after the commit marks the ticket as printed only when the
    automatic print is on. *)
Lemma auto_print_kot_on now kotId w :
  post (auto_print_kot now kotId) w
    (fun _ w' =>
       db w' = db w \/
       (db w' = printed now kotId (db w) /\
        auto_print_on (rows (db w)) = true))
    (fun _ _ => True).
Proof.
  unfold auto_print_kot, auto_print_on.
  apply post_bind, post_query; [exact I |]. intros _.
  destruct (select_setting "kot_auto_print" (rows (db w))) as [| s l];
    [apply post_ret; left; reflexivity |].
  destruct (setting_value s =? "true")%string;
    [| apply post_ret; left; reflexivity].
  apply post_try_catch, post_bind.
  pose proof (printKOT_post now kotId (pop_fault w)) as H.
  unfold post in H |- *.
  destruct (printKOT now kotId (pop_fault w)) as [[pid | e0] wp].
  - destruct H as [_ D]. apply post_ret. right. split; [exact D |].
    reflexivity.
  - destruct H as [_ D]. apply post_ret. left. exact D.
Qed.

(** A success response, with what is known of the ticket. *)
Lemma create_order_created_ticket now w id number kot_no amount w' :
  transaction w = None ->
  create_order parseFloat e now user_id body w
  = (Ok (Created id number kot_no amount), w') ->
  exists lines rate,
    price_lines (rows (db w)) (items body) = inr lines /\
    (rows (db w') = rows_after e user_id body (db w) lines rate \/
     (rows (db w')
      = PrinterService.mark_printed now
          (next_kot_id (auto_increment (db w)))
          (rows_after e user_id body (db w) lines rate) /\
      auto_print_on (rows (db w)) = true)) /\
    id = next_order_id (auto_increment (db w)) /\
    number = order_number e /\ kot_no = kot_number e.
Proof.
  intros T0 H. unfold create_order, try_catch, bind in H.
  destruct (order_transaction parseFloat e user_id body w)
    as [[t | err] wc] eqn:R;
    pose proof (order_transaction_post parseFloat e user_id body w T0) as X;
    unfold post in X; rewrite R in X.
  - destruct t as [resp | p].
    + destruct X as (_ & _ & _ & [[-> _] | (i & -> & _)]);
        unfold ret, unavailable in H; discriminate.
    + destruct X as (_ & _ & V & lines & rate & P & Er & D & ->).
      pose proof (auto_print_kot_on now
                    (kotId (placed_order e (db w) lines rate)) wc) as A.
      unfold post in A.
      destruct (auto_print_kot now
                  (kotId (placed_order e (db w) lines rate)) wc)
        as [[[] | e0] w1] eqn:RA.
      * unfold ret in H. injection H as <- <- <- <- <-.
        exists lines, rate. split; [exact P |].
        split; [| repeat split].
        destruct A as [A | [A O]]; rewrite A, D; [left | right];
          [reflexivity | split; [reflexivity |]].
        rewrite D in O. exact O.
      * destruct (rollback w1) as [[[] | ?] ?]; unfold ret in H;
          discriminate.
  - destruct (rollback wc) as [[[] | ?] ?]; unfold ret in H; discriminate.
Qed.

End Transaction.

Lemma order_item_rows_pending orderId lines :
  forall first,
    Forall (fun i => oi_status i = "Pending")
      (order_item_rows first orderId lines).
Proof.
  induction lines as [| l rest IH]; intros first; cbn; constructor;
    [reflexivity | apply IH].
Qed.

Lemma kot_item_rows_pending t kotId ois :
  forall first,
    Forall (fun i => ki_status i = "Pending")
      (kot_item_rows t first kotId ois).
Proof.
  induction ois as [| oi rest IH]; intros first; cbn; constructor;
    [reflexivity | apply IH].
Qed.

(** The lines of the ticket of a request that is priced. *)
Lemma ticket_lines_of_request trim t items :
  forall lines,
    price_lines t (map (sanitized_line trim) items) = inr lines ->
    forall first_item first_line orderId kotId,
      Forall2 (ticket_line_of trim t) items
        (kot_item_rows t first_line kotId
           (order_item_rows first_item orderId lines)).
Proof.
  induction items as [| item rest IH]; cbn [price_lines map]; intros lines H.
  - injection H as <-. constructor.
  - cbn [sanitized_line menu_item_id] in H.
    destruct (select_available_menu_item (menu_item_id item) t)
      as [| m others] eqn:S; [discriminate |].
    destruct (price_lines t (map (sanitized_line trim) rest)) as [| ls];
      [discriminate |].
    injection H as <-. intros f1 f2 orderId kotId.
    cbn [order_item_rows kot_item_rows]. constructor; [| apply IH; reflexivity].
    assert (M : In m (select_available_menu_item (menu_item_id item) t))
      by (rewrite S; left; reflexivity).
    unfold select_available_menu_item in M. apply filter_In in M.
    destruct M as [M1 M2]. apply andb_true_iff in M2. destruct M2 as [M2 _].
    unfold ticket_line_of. cbn.
    split; [reflexivity |]. split.
    { destruct (special_instructions item) as [text |]; cbn; [| reflexivity].
      destruct (String.eqb_spec (trim text) "") as [-> | N]; [reflexivity |].
      destruct (trim text); [contradiction | reflexivity]. }
    split; [reflexivity |].
    unfold select_menu_item_name.
    destruct (filter (fun m0 => mi_id m0 =? menu_item_id item)
                (menu_items t)) as [| m' l'] eqn:Fm.
    + exfalso. assert (X : In m []); [| contradiction].
      rewrite <- Fm. apply filter_In. auto.
    + assert (X : In m' (filter (fun m0 => mi_id m0 =? menu_item_id item)
                           (menu_items t)))
        by (rewrite Fm; left; reflexivity).
      apply filter_In in X. destruct X as [X1 X2]. apply Z.eqb_eq in X2.
      exists m'. auto.
Qed.

End OrderEdgeFacts.

Module OrderEdgeTheorems.

Import Run RunFacts NoFaults Routing Orders Placement MoneyFacts
  PrinterService PrinterFacts OrderFacts MenuFacts Tickets OrderEdgeFacts
  OrderRequests StatusEdgeFacts Sample.

Section CreateOrder.

Variable parseFloat : string -> option Q.
Variables (e : entropy) (now user_id : Z) (body : order_request).

(** X20. Order numbers and ticket numbers are unique.  When the number
    that a request draws for its order, or for its ticket, is taken, the
    request is not answered with success and adds no row; with no fault
    injected, a request that is valid and can be priced is answered with
    500 when its order number is taken. *)
Theorem taken_number_refuses_the_order (w : world) :
  transaction w = None ->
  (exists o, In o (orders (rows (db w))) /\
             o_order_number o = order_number e) \/
  (exists k, In k (kots (rows (db w))) /\ k_kot_number k = kot_number e) ->
  (exists r w',
      create_order parseFloat e now user_id body w = (Ok r, w') /\
      (forall id number kot_no amount,
          r <> Created id number kot_no amount) /\
      rows (db w') = rows (db w)) /\
  (faults w = [] ->
   valid_order_request body = true ->
   (exists lines, price_lines (rows (db w)) (items body) = inr lines) ->
   (exists o, In o (orders (rows (db w))) /\
              o_order_number o = order_number e) ->
   fst (create_order parseFloat e now user_id body w)
   = Ok InternalServerError).
Proof.
  intros T0 Taken. split.
  - unfold create_order, try_catch, bind.
    pose proof (order_transaction_post parseFloat e user_id body w T0) as X.
    pose proof (order_transaction_numbers parseFloat e user_id body w) as N.
    unfold post in X, N.
    destruct (order_transaction parseFloat e user_id body w)
      as [[t | err] wc].
    + destruct t as [resp | p].
      * destruct X as (_ & _ & X & [[-> _] | (i & -> & _)]);
          unfold ret; eexists; eexists; (split; [reflexivity |]);
            (split; [intros; discriminate | exact X]).
      * exfalso. destruct N as [No Nk]. rewrite Forall_forall in No, Nk.
        destruct Taken as [(o & Ho & E) | (k & Hk & E)];
          [elim (No o Ho E) | elim (Nk k Hk E)].
    + destruct X as [_ X].
      destruct (rollback wc) as [r0 w1] eqn:RB.
      apply rollback_run in RB.
      destruct RB as (-> & _ & _ & _ & _ & RB).
      unfold ret. eexists. eexists. split; [reflexivity |].
      split; [intros; discriminate |].
      rewrite RB. destruct X as [-> | [-> X]]; [reflexivity | exact X].
  - intros F V [lines P] (o & Ho & E).
    unfold create_order, order_transaction, try_catch, bind.
    rewrite (beginTransaction_no_faults w F). cbv beta iota. rewrite V.
    cbn [negb].
    rewrite calculate_totals_no_faults by exact F.
    cbn [rows db set_transaction]. rewrite P.
    rewrite query_no_faults by exact F.
    rewrite execute_refused; [| exact F |].
    + unfold rollback. cbn [transaction set_transaction]. reflexivity.
    + unfold insert_order. cbn [rows db set_transaction].
      assert (X : existsb (fun o => (o_order_number o =? order_number e)%string)
                    (orders (rows (db w))) = true).
      { apply existsb_exists. exists o. split; [exact Ho |].
        apply String.eqb_eq, E. }
      unfold order_number in X. rewrite X. reflexivity.
Qed.

(** X21. What a new order starts as.  After a success response the
    order is the last row of its table, [Pending] and [Unpaid], with no
    discount; its ticket is the last row of its table, with no printer
    and no completion time, and it is [Pending], or [Printed] with the
    time of the print, which it can be only when the automatic print is
    on; the order items and the ticket lines of the order are
    [Pending]. *)
Theorem new_order_starts_pending (w : world) (id : Z)
    (number kot_no : string) (amount : option Q) (w' : world) :
  transaction w = None ->
  consistent (db w) ->
  create_order parseFloat e now user_id body w
  = (Ok (Created id number kot_no amount), w') ->
  exists o k,
    orders (rows (db w')) = orders (rows (db w)) ++ [o] /\
    o_id o = id /\ o_order_number o = number /\
    o_status o = "Pending" /\ o_payment_status o = "Unpaid" /\
    o_discount_amount o = 0 /\
    kots (rows (db w')) = kots (rows (db w)) ++ [k] /\
    k_order_id k = id /\ k_kot_number k = kot_no /\
    k_printer_id k = None /\ k_completed_at k = None /\
    ((k_status k = "Pending" /\ k_printed_at k = None) \/
     (k_status k = "Printed" /\ k_printed_at k = Some now /\
      auto_print_on (rows (db w)) = true)) /\
    Forall (fun i => oi_order_id i = id -> oi_status i = "Pending")
      (order_items (rows (db w'))) /\
    Forall (fun i => ki_kot_id i = k_id k -> ki_status i = "Pending")
      (kot_items (rows (db w'))).
Proof.
  intros T0 C R.
  apply create_order_created_ticket in R; [| exact T0].
  destruct R as (lines & rate & P & D & -> & -> & ->).
  destruct C as (C1 & C2 & C3 & C4).
  assert (Ioi : Forall (fun i => oi_order_id i = next_order_id
                                   (auto_increment (db w)) ->
                                 oi_status i = "Pending")
                  (order_items (rows_after e user_id body (db w) lines rate))).
  { cbn. apply Forall_app. split.
    - revert C2. apply Forall_impl. intros i L E. lia.
    - generalize (order_item_rows_pending
                    (next_order_id (auto_increment (db w))) lines
                    (next_order_item_id (auto_increment (db w)))).
      apply Forall_impl. auto. }
  assert (Iki : Forall (fun i => ki_kot_id i = next_kot_id
                                   (auto_increment (db w)) ->
                                 ki_status i = "Pending")
                  (kot_items (rows_after e user_id body (db w) lines rate))).
  { cbn. apply Forall_app. split.
    - revert C4. apply Forall_impl. intros i L E. lia.
    - generalize (kot_item_rows_pending (rows (db w))
                    (next_kot_id (auto_increment (db w)))
                    (created_order_items (db w) lines)
                    (next_kot_item_id (auto_increment (db w)))).
      apply Forall_impl. auto. }
  destruct D as [D | [D O]]; rewrite D.
  - exists (new_order e user_id body (db w) lines rate), (new_kot e body (db w)).
    repeat split; try reflexivity; try assumption.
    left. split; reflexivity.
  - exists (new_order e user_id body (db w) lines rate),
      (set_printed_at (Some now) (set_status_kot "Printed"
                                    (new_kot e body (db w)))).
    repeat split; try reflexivity; try assumption.
    + cbn. unfold update_where. rewrite map_app. cbn.
      rewrite Z.eqb_refl. f_equal.
      change (map _ (kots (rows (db w))))
        with (update_where
                (fun k => k_id k =? next_kot_id (auto_increment (db w)))
                (fun k => set_printed_at (Some now)
                            (set_status_kot "Printed" k))
                (kots (rows (db w)))).
      apply update_where_none. revert C3. apply Forall_impl.
      intros k [_ L]. apply Z.eqb_neq. lia.
    + right. repeat split. exact O.
Qed.

End CreateOrder.

(** The busy shop has the order that was placed with these readings of
    the clock and of the random numbers; a second request that draws
    the same order number is answered with 500. *)
Lemma taken_number_refuses_the_order_witness :
  let w := world_of busy_shop [] LinkUp in
  transaction w = None /\
  map o_order_number (orders (rows (db w))) = ["ORD-1700000000000-417"] /\
  order_number the_entropy = "ORD-1700000000000-417" /\
  fst (place [line 1 1] w) = Ok InternalServerError.
Proof.
  intros w. split; [reflexivity |]. split; [reflexivity |].
  split; [reflexivity |].
  assert (Taken : exists o, In o (orders (rows (db w))) /\
                            o_order_number o = order_number the_entropy).
  { eexists. split; [simpl; left; reflexivity | reflexivity]. }
  apply (proj2 (@taken_number_refuses_the_order decimal_literal the_entropy
                  1700000000100 7 (request [line 1 1]) w eq_refl
                  (or_introl Taken))
           eq_refl eq_refl (ex_intro _ _ eq_refl) Taken).
Defined.

(** A pizza and three espressos in the seeded shop, with the kitchen
    printer at work: the order is [Pending], its ticket is printed. *)
Lemma new_order_starts_pending_witness :
  let w := world_of empty_shop [] LinkUp in
  let w' := snd (place [line 1 1; line 2 3] w) in
  let amount :=
    Some (total [priced (nth 0 menu kitchen_item) (line 1 1);
                 priced (nth 1 menu kitchen_item) (line 2 3)] (85 # 10)) in
  transaction w = None /\
  consistent (db w) /\
  place [line 1 1; line 2 3] w
  = (Ok (Created 1 "ORD-1700000000000-417" "KOT-1700000000003-12" amount),
     w') /\
  map o_status (orders (rows (db w'))) = ["Pending"] /\
  map k_status (kots (rows (db w'))) = ["Printed"] /\
  exists o k,
    orders (rows (db w')) = orders (rows (db w)) ++ [o] /\
    o_status o = "Pending" /\ o_payment_status o = "Unpaid" /\
    kots (rows (db w')) = kots (rows (db w)) ++ [k] /\
    k_printer_id k = None /\ k_completed_at k = None /\
    Forall (fun i => ki_kot_id i = k_id k -> ki_status i = "Pending")
      (kot_items (rows (db w'))).
Proof.
  intros w w' amount.
  assert (R : place [line 1 1; line 2 3] w
              = (Ok (Created 1 "ORD-1700000000000-417"
                       "KOT-1700000000003-12" amount), w'))
    by (vm_compute; reflexivity).
  assert (C : consistent (db w)) by (repeat split; constructor).
  split; [reflexivity |]. split; [exact C |]. split; [exact R |].
  split; [reflexivity |]. split; [reflexivity |].
  destruct (@new_order_starts_pending decimal_literal the_entropy
              1700000000100 7 (request [line 1 1; line 2 3]) w 1 _ _ _ w'
              eq_refl C R)
    as (o & k & H1 & _ & _ & H4 & H5 & _ & H7 & _ & _ & H10 & H11 & _ & _
        & H14).
  exists o, k. repeat split; assumption.
Defined.

(** X22. The lines of the ticket copy the request.  The request goes
    through the sanitizers of the route; after a success response the
    ticket lines of the order are the last rows of their table, one for
    each line of the request and in the order of the request; each
    carries the quantity of its line, its instructions trimmed (an
    empty text as NULL) and the name that a menu item with the
    identifier of the line had when the order was placed. *)
Theorem ticket_lines_copy_the_request
    (trim : string -> string) (parseFloat : string -> option Q)
    (e : entropy) (now user_id : Z) (request : order_request)
    (w : world) (id : Z) (number kot_no : string) (amount : option Q)
    (w' : world) :
  transaction w = None ->
  consistent (db w) ->
  create_order parseFloat e now user_id (sanitized trim request) w
  = (Ok (Created id number kot_no amount), w') ->
  exists lines,
    kot_items (rows (db w')) = kot_items (rows (db w)) ++ lines /\
    Forall2 (ticket_line_of trim (rows (db w))) (items request) lines /\
    Forall (fun i => ki_kot_id i = next_kot_id (auto_increment (db w)))
      lines.
Proof.
  intros T0 C R.
  apply create_order_created_ticket in R; [| exact T0].
  destruct R as (lines & rate & P & D & _).
  exists (new_kot_items (db w) lines).
  split; [destruct D as [-> | [-> _]]; reflexivity |].
  unfold new_kot_items.
  rewrite (@created_order_items_new (db w) lines C). unfold new_order_items.
  split; [apply ticket_lines_of_request, P | apply kot_item_rows_kot].
Qed.

(** A pizza with a note between blanks and three espressos with a note
    of blanks only: the ticket has [no onions] for the pizza and no note
    for the espressos. *)
Lemma ticket_lines_copy_the_request_witness :
  let w := world_of empty_shop [] LinkUp in
  let pizza :=
    {| menu_item_id := 1; quantity := 1;
       special_instructions := Some " no onions " |} in
  let espressos :=
    {| menu_item_id := 2; quantity := 3;
       special_instructions := Some "  " |} in
  let r :=
    create_order decimal_literal the_entropy 1700000000100 7
      (sanitized trim_blanks (request [pizza; espressos])) w in
  let amount :=
    Some (total [priced (nth 0 menu kitchen_item) pizza;
                 priced (nth 1 menu kitchen_item) espressos] (85 # 10)) in
  transaction w = None /\
  consistent (db w) /\
  r = (Ok (Created 1 "ORD-1700000000000-417" "KOT-1700000000003-12" amount),
       snd r) /\
  map (fun i => (ki_menu_item_name i, ki_quantity i,
                 ki_special_instructions i))
    (kot_items (rows (db (snd r))))
  = [("Margherita", 1, Some "no onions"); ("Espresso", 3, None)] /\
  exists lines,
    kot_items (rows (db (snd r))) = kot_items (rows (db w)) ++ lines /\
    Forall2 (ticket_line_of trim_blanks (rows (db w))) [pizza; espressos]
      lines.
Proof.
  intros w pizza espressos r amount.
  assert (R : r = (Ok (Created 1 "ORD-1700000000000-417"
                         "KOT-1700000000003-12" amount), snd r))
    by (vm_compute; reflexivity).
  assert (C : consistent (db w)) by (repeat split; constructor).
  split; [reflexivity |]. split; [exact C |]. split; [exact R |].
  split; [reflexivity |].
  destruct (@ticket_lines_copy_the_request trim_blanks decimal_literal
              the_entropy 1700000000100 7 (request [pizza; espressos]) w 1
              _ _ _ (snd r) eq_refl C R)
    as (lines & H1 & H2 & _).
  exists lines. split; assumption.
Defined.

End OrderEdgeTheorems.

Module PlacementFacts.

Import Run RunFacts NoFaults Routing Orders Placement MoneyFacts
  PrinterService PrinterFacts OrderFacts MenuFacts Tickets OrderEdgeFacts
  Amounts.

(** The rules of [post] for a world without injected faults. *)











Section Placed.

Variable parseFloat : string -> option Q.
Variables (e : entropy) (now user_id : Z) (body : order_request).


End Placed.

End PlacementFacts.

Module PlacementTheorems.

Import Run RunFacts NoFaults Routing Orders Placement MoneyFacts
  PrinterService PrinterFacts OrderFacts MenuFacts Tickets OrderEdgeFacts
  Amounts PlacementFacts Sample.



End PlacementTheorems.

(** * The amounts as the handler computes them *)

Module DoubleFacts.

Import Doubles.

Local Unset Implicit Arguments.

Local Open Scope Q_scope.





Lemma pow2_add a b : pow2 (a + b) == pow2 a * pow2 b.
Proof. apply Qpower_plus. discriminate. Qed.

Lemma pow2_succ e : pow2 (e + 1) == 2 * pow2 e.
Proof. rewrite pow2_add. change (pow2 1) with 2. ring. Qed.

































End DoubleFacts.

Module TaxFacts.

Import Doubles Taxes DoubleFacts.

Local Unset Implicit Arguments.

Local Open Scope Q_scope.







Section Rate.

Variable parseFloat : string -> option Q.



End Rate.

End TaxFacts.

Module AmountFacts.

Import Doubles Taxes DoubleFacts TaxFacts.

Local Unset Implicit Arguments.

Local Open Scope Q_scope.













End AmountFacts.

Module NumberFacts.

Import Run RunFacts Doubles Taxes.

Local Unset Implicit Arguments.







Section Transaction.

Variable parseFloat : string -> option Q.
Variables (e : Orders.entropy) (user_id : Z) (body : Orders.order_request).



End Transaction.

End NumberFacts.

Module AmountTheorems.

Import Doubles Taxes DoubleFacts TaxFacts AmountFacts NumberFacts Sample.

Local Unset Implicit Arguments.

Local Open Scope Q_scope.






End AmountTheorems.

Module MigrationTheorems.

Import Run RunFacts Migrations Migrated Sample.

Lemma pieces_join (sep : ascii) (s : string) :
  String.concat (String sep EmptyString) (split sep s) = s.
Proof.
  unfold split. induction s as [| c rest IH]; [reflexivity |].
  cbn [pieces]. destruct (pieces sep rest) as [piece others].
  destruct (Ascii.eqb_spec c sep) as [-> | N].
  - cbn [String.concat]. cbn [String.concat] in IH.
    destruct others; cbn; rewrite <- IH; reflexivity.
  - cbn [String.concat] in *. destruct others; cbn; rewrite <- IH;
      reflexivity.
Qed.

Lemma pieces_without (sep : ascii) (s : string) :
  Forall (fun piece => ~ occurs sep piece) (split sep s).
Proof.
  unfold split. induction s as [| c rest IH].
  - cbn. constructor; [auto | constructor].
  - cbn [pieces]. destruct (pieces sep rest) as [piece others].
    destruct (Ascii.eqb_spec c sep) as [-> | N].
    + constructor; [cbn; auto | exact IH].
    + inversion IH as [| ? ? H1 H2]; subst. constructor; [| exact H2].
      cbn. intros [E | O]; [contradiction | exact (H1 O)].
Qed.

Section Statements.

Variable whitespace : ascii -> bool.

Lemma trimStart_occurs c s :
  occurs c (trimStart whitespace s) -> occurs c s.
Proof.
  induction s as [| c' rest IH]; cbn; [auto |].
  destruct (whitespace c'); cbn; tauto.
Qed.

Lemma trimEnd_occurs c s : occurs c (trimEnd whitespace s) -> occurs c s.
Proof.
  induction s as [| c' rest IH]; cbn; [auto |].
  destruct (trimEnd whitespace rest) as [| c'' kept].
  - destruct (whitespace c'); cbn; tauto.
  - cbn. cbn in IH. tauto.
Qed.

Lemma trimEnd_twice s :
  trimEnd whitespace (trimEnd whitespace s) = trimEnd whitespace s.
Proof.
  induction s as [| c rest IH]; [reflexivity |]. cbn [trimEnd].
  destruct (trimEnd whitespace rest) as [| c' kept] eqn:E.
  - destruct (whitespace c) eqn:W; [reflexivity |]. cbn. rewrite W.
    reflexivity.
  - cbn [trimEnd]. cbn [trimEnd] in IH. rewrite IH. reflexivity.
Qed.

Lemma trimStart_head s :
  match trimStart whitespace s with
  | EmptyString => True
  | String c _ => whitespace c = false
  end.
Proof.
  induction s as [| c rest IH]; cbn; [exact I |].
  destruct (whitespace c) eqn:W; [exact IH | exact W].
Qed.

Lemma trimEnd_head s :
  match s with
  | EmptyString => True
  | String c _ => whitespace c = false
  end ->
  match trimEnd whitespace s with
  | EmptyString => True
  | String c _ => whitespace c = false
  end.
Proof.
  destruct s as [| c rest]; cbn; [auto |]. intros W.
  destruct (trimEnd whitespace rest); [rewrite W |]; exact W.
Qed.

Lemma trimStart_same s :
  match s with
  | EmptyString => True
  | String c _ => whitespace c = false
  end ->
  trimStart whitespace s = s.
Proof. destruct s as [| c rest]; cbn; [auto |]. intros ->. reflexivity. Qed.

(** X24. The text of the migration is cut at every semicolon, wherever
    it stands: joining the pieces with semicolons gives the text back,
    and no statement that is sent to the database contains a semicolon,
    is empty, or begins or ends with white space.  So a semicolon inside
    a quoted text or a comment cuts a statement in two. *)
Theorem statements_are_cut_at_every_semicolon (migrationSQL : string) :
  String.concat ";" (split ";"%char migrationSQL) = migrationSQL /\
  Forall (fun statement =>
            statement <> "" /\ ~ occurs ";"%char statement /\
            trimStart whitespace statement = statement /\
            trimEnd whitespace statement = statement)
    (statements whitespace migrationSQL).
Proof.
  split; [apply pieces_join |].
  unfold statements. apply Forall_forall. intros s H.
  apply filter_In in H. destruct H as [H N].
  apply in_map_iff in H. destruct H as (piece & <- & H).
  pose proof (pieces_without ";"%char migrationSQL) as W.
  rewrite Forall_forall in W. specialize (W piece H).
  split; [| split; [| split]].
  - intros E. rewrite E in N. discriminate.
  - intros O. apply W. unfold trim in O.
    apply trimStart_occurs, trimEnd_occurs, O.
  - apply trimStart_same. unfold trim. apply trimEnd_head, trimStart_head.
  - unfold trim. apply trimEnd_twice.
Qed.

Variable sql : string -> database -> option (unit * database).

Lemma run_post statements :
  forall w,
    run sql statements w
    = (Ok tt,
       {| db := migrated sql statements (faults w) (db w);
          transaction := transaction w;
          faults := skipn (List.length statements) (faults w);
          wire := wire w |}).
Proof.
  induction statements as [| s rest IH]; intros w.
  - cbn. destruct w; reflexivity.
  - cbn [run migrated List.length skipn]. unfold bind, try_catch, execute.
    unfold next_fault.
    destruct (faults w) as [| b fs] eqn:F; cbn [hd tl];
      [| destruct b];
      try (destruct (sql s (db w)) as [[[] d] |]);
      cbv beta iota; unfold ret; cbv beta iota; rewrite IH; cbn;
      rewrite F; cbn; rewrite ?skipn_nil; reflexivity.
Qed.

(** X25. A migration goes on after an error.  Every statement of the
    file is sent to the database once, in order; a statement that fails
    is left out and the statements after it run, and the loop of
    [runMigrations] does not throw, whatever statement fails. *)
Theorem migration_goes_on_after_an_error (migrationSQL : string)
    (w : world) :
  exists w',
    runMigrations whitespace sql migrationSQL w = (Ok tt, w') /\
    db w'
    = migrated sql (statements whitespace migrationSQL) (faults w) (db w) /\
    faults w'
    = skipn (List.length (statements whitespace migrationSQL)) (faults w) /\
    same_session w w'.
Proof.
  unfold runMigrations. rewrite run_post. eexists.
  split; [reflexivity |]. repeat split.
Qed.

End Statements.

End MigrationTheorems.
